(** * hr_timesheet: project and task extensions

    A shallow embedding of [addons/hr_timesheet/models/project.py]: the
    search translators, the computed hour fields of tasks, the constraint on
    projects that allow timesheets, and the create / write / unlink hooks of
    projects and tasks, with the properties the specification states about
    them.

    Python floats are IEEE 754 binary64 numbers and are modelled by Rocq's
    primitive floats; dictionaries of field values are finite maps from field
    names to Python values; the database is an explicit store threaded through
    an error-and-state monad. *)

From Stdlib Require Import ZArith Floats.
From stdpp Require Import base gmap strings list fin_maps.

Open Scope string_scope.
Open Scope Z_scope.

(** ** Python values and exceptions *)

(** The values that occur in [vals] dictionaries and as search arguments. *)
Inductive value : Type :=
| VNone
| VBool (b : bool)
| VInt (n : Z)
| VFloat (f : float)
| VStr (s : string).

(** Python truthiness, as used by [if x] and [not x]. *)
Definition truthy (v : value) : bool :=
  match v with
  | VNone => false
  | VBool b => b
  | VInt n => negb (Z.eqb n 0)
  | VFloat f => negb (PrimFloat.eqb f 0%float)
  | VStr s => negb (String.eqb s "")
  end.

(** [isinstance(v, bool)]. *)
Definition isinstance_bool (v : value) : bool :=
  match v with VBool _ => true | _ => false end.

(** The exceptions the module raises, with the arguments they are built
    from. [MissingError] is what the record manager raises on a record that
    is not in the database. *)
Inductive exn : Type :=
| ValueError (msg : string) (arg : value)
| NotImplementedError (msg : string) (arg : value)
| ValidationError (msg : string)
| UserError (msg : string)
| RedirectWarning (msg : string) (action : Z) (button : string) (active_ids : list Z)
| ZeroDivisionError
| MissingError.

Inductive result (A : Type) : Type :=
| Ok (a : A)
| Raise (e : exn).
Arguments Ok {A} a.
Arguments Raise {A} e.

Definition is_ValueError (e : exn) : bool :=
  match e with ValueError _ _ => true | _ => false end.

Definition raises {A} (r : result A) (P : exn → bool) : bool :=
  match r with Ok _ => false | Raise e => P e end.

Definition is_Ok {A} (r : result A) : bool :=
  match r with Ok _ => true | Raise _ => false end.

(** ** Search translators *)

Module Search.

(** A domain leaf [(field, operator, (query, params))]. *)
Record leaf : Type := Leaf {
  leaf_field : string;
  leaf_operator : string;
  leaf_query : string;
  leaf_params : list value
}.

Definition domain : Type := list leaf.

(** [operator in ['=', '!=']] *)
Definition is_eq_or_ne (operator : string) : bool :=
  String.eqb operator "=" || String.eqb operator "!=".

(** [(operator == '=' and value is True) or (operator == '!=' and value is False)];
    [value] is known to be a bool where this is evaluated. *)
Definition selects_members (operator : string) (value : value) : bool :=
  match value with
  | VBool b => (String.eqb operator "=" && b) || (String.eqb operator "!=" && negb b)
  | _ => false
  end.

Definition internal_project_query : string := "
            SELECT C.internal_project_id
            FROM res_company C
            WHERE C.internal_project_id IS NOT NULL
        ".

Definition project_overtime_query : string := "
            SELECT Project.id
              FROM project_project AS Project
              JOIN project_task AS Task
                ON Project.id = Task.project_id
             WHERE Project.allocated_hours > 0
               AND Project.allow_timesheets = TRUE
               AND Task.parent_id IS NULL
               AND Task.is_closed IS FALSE
          GROUP BY Project.id
            HAVING Project.allocated_hours - SUM(Task.effective_hours) < 0
        ".

(** [Project._search_is_internal_project] *)
Definition _search_is_internal_project (operator : string) (value : value)
  : result domain :=
  if negb (isinstance_bool value) then
    Raise (ValueError "Invalid value: %s" value)
  else if negb (is_eq_or_ne operator) then
    Raise (ValueError "Invalid operator: %s" (VStr operator))
  else
    let query := internal_project_query in
    let operator_new :=
      if selects_members operator value then "inselect" else "not inselect" in
    Ok [Leaf "id" operator_new query []].

(** [Project._search_is_project_overtime] *)
Definition _search_is_project_overtime (operator : string) (value : value)
  : result domain :=
  if negb (isinstance_bool value) then
    Raise (ValueError "Invalid value: %s" value)
  else if negb (is_eq_or_ne operator) then
    Raise (ValueError "Invalid operator: %s" (VStr operator))
  else
    let query := project_overtime_query in
    let operator_new :=
      if selects_members operator value then "inselect" else "not inselect" in
    Ok [Leaf "id" operator_new query []].

(** The query that [Task._search_remaining_hours_percentage] formats from
    the table name and the operator. *)
Definition remaining_hours_percentage_query (table operator : string) : string :=
  "
            SELECT id
              FROM " ++ table ++ "
             WHERE remaining_hours > 0
               AND planned_hours > 0
               AND remaining_hours / planned_hours " ++ operator ++ " %s
            ".

(** [Task._search_remaining_hours_percentage]. [OPERATOR_MAPPING] is
    imported from the rating add-on, whose sources are not part of this
    development: the translator is parametric in the keys of that table.
    [table] is [self._table]. *)
Definition _search_remaining_hours_percentage
    (OPERATOR_MAPPING : list string) (table : string)
    (operator : string) (value : value) : result domain :=
  if negb (bool_decide (operator ∈ OPERATOR_MAPPING)) then
    Raise (NotImplementedError
             "This operator %s is not supported in this search method."
             (VStr operator))
  else
    let query := remaining_hours_percentage_query table operator in
    Ok [Leaf "id" "inselect" query [value]].

(** The comparison operators, a table the translator can be run with. *)
Definition comparison_operators : list string :=
  ["="; "!="; "<"; "<="; ">"; ">="].

End Search.

(** ** The database *)

(** A row of [project.project]: the two columns the hooks read and write.
    A many-to-one column holds the id of the target or nothing ([False]). *)
Record project_project : Type := {
  allow_timesheets : bool;
  analytic_account_id : option Z
}.

(** A row of [project.task]. [child_ids] is the inverse of [parent_id] and is
    computed from it (see [Task.child_ids]). *)
Record project_task : Type := {
  project_id : option Z;
  parent_id : option Z;
  active : bool;
  planned_hours : float;
  effective_hours : float;
  subtask_effective_hours : float;
  remaining_hours : float;
  remaining_hours_percentage : float;
  progress : float;
  overtime : float
}.

(** A row of [account.analytic.line], a timesheet entry. *)
Record account_analytic_line : Type := {
  line_project_id : option Z;
  line_task_id : option Z;
  unit_amount : float
}.

(** The tables, by record id, and the ids of the analytic accounts. *)
Record env : Type := {
  projects : gmap Z project_project;
  tasks : gmap Z project_task;
  lines : gmap Z account_analytic_line;
  accounts : gset Z
}.

Definition with_projects (ps : gmap Z project_project) (e : env) : env :=
  {| projects := ps; tasks := tasks e; lines := lines e; accounts := accounts e |}.

Definition with_tasks (ts : gmap Z project_task) (e : env) : env :=
  {| projects := projects e; tasks := ts; lines := lines e; accounts := accounts e |}.

Definition with_lines (ls : gmap Z account_analytic_line) (e : env) : env :=
  {| projects := projects e; tasks := tasks e; lines := ls; accounts := accounts e |}.

Definition with_accounts (acs : gset Z) (e : env) : env :=
  {| projects := projects e; tasks := tasks e; lines := lines e; accounts := acs |}.

(** ** Methods: a state monad over the database, with exceptions *)

(** A method call runs on a database and either returns a value and the
    database it leaves, or raises. *)
Definition M (A : Type) : Type := env → result (A * env).

Definition ret {A} (a : A) : M A := λ e, Ok (a, e).

Definition bind {A B} (m : M A) (k : A → M B) : M B :=
  λ e, match m e with
       | Ok (a, e') => k a e'
       | Raise x => Raise x
       end.

Definition raise {A} (x : exn) : M A := λ _, Raise x.

#[global] Instance M_ret : MRet M := @ret.
#[global] Instance M_bind : MBind M := λ A B k m, bind m k.

(** [for x in xs: body(x)] *)
Fixpoint for_each {A} (xs : list A) (body : A → M unit) : M unit :=
  match xs with
  | [] => ret tt
  | x :: xs' => bind (body x) (λ _, for_each xs' body)
  end.

(** [[f(x) for x in xs]] *)
Fixpoint map_each {A B} (xs : list A) (f : A → M B) : M (list B) :=
  match xs with
  | [] => ret []
  | x :: xs' => bind (f x) (λ y, bind (map_each xs' f) (λ ys, ret (y :: ys)))
  end.

(** [if c: body] *)
Definition when (c : bool) (body : M unit) : M unit :=
  if c then body else ret tt.

(** Modelled from the spec: the database a request leaves behind. The
    request handler, which is not part of these sources, rolls the
    transaction back when the method raises ("the framework's
    request-handling layer, which is responsible for transaction
    rollback"). *)
Definition commit {A} (m : M A) (e : env) : env :=
  match m e with
  | Ok (_, e') => e'
  | Raise _ => e
  end.

(** ** Dictionaries of field values *)

(** [vals.get(k)] *)
Definition dict_get (vals : gmap string value) (k : string) : value :=
  default VNone (vals !! k).

(** [vals.get(k, d)] *)
Definition dict_get_default (vals : gmap string value) (k : string) (d : value) : value :=
  default d (vals !! k).

(** [k in vals] *)
Definition dict_has (vals : gmap string value) (k : string) : bool :=
  bool_decide (is_Some (vals !! k)).

(** The record a value denotes in a many-to-one column or in [browse]:
    a falsy value denotes no record. *)
Definition to_many2one (v : value) : option Z :=
  match v with
  | VInt n => if Z.eqb n 0 then None else Some n
  | VBool true => Some 1
  | _ => None
  end.

(** Modelled from the spec: the id that the database gives to a new row;
    ids are positive and grow. *)
Definition new_id (used : gset Z) : Z :=
  1 + foldr Z.max 0 (elements used).

(** ** Record access *)

(** Modelled from the spec: field access of the record manager. Reading or
    writing a field of a record that is not in the database raises. *)
Definition read_project (id : Z) : M project_project :=
  λ e, match projects e !! id with
       | Some p => Ok (p, e)
       | None => Raise MissingError
       end.

Definition update_project (id : Z) (f : project_project → project_project) : M unit :=
  λ e, match projects e !! id with
       | Some p => Ok (tt, with_projects (<[id := f p]> (projects e)) e)
       | None => Raise MissingError
       end.

Definition read_task (id : Z) : M project_task :=
  λ e, match tasks e !! id with
       | Some t => Ok (t, e)
       | None => Raise MissingError
       end.

Definition update_task (id : Z) (f : project_task → project_task) : M unit :=
  λ e, match tasks e !! id with
       | Some t => Ok (tt, with_tasks (<[id := f t]> (tasks e)) e)
       | None => Raise MissingError
       end.

Definition update_line (id : Z) (f : account_analytic_line → account_analytic_line)
  : M unit :=
  λ e, match lines e !! id with
       | Some l => Ok (tt, with_lines (<[id := f l]> (lines e)) e)
       | None => Raise MissingError
       end.

Definition set_allow_timesheets (b : bool) (p : project_project) : project_project :=
  {| allow_timesheets := b; analytic_account_id := analytic_account_id p |}.

Definition set_analytic_account_id (a : option Z) (p : project_project) : project_project :=
  {| allow_timesheets := allow_timesheets p; analytic_account_id := a |}.

Definition set_line_project_id (p : option Z) (l : account_analytic_line)
  : account_analytic_line :=
  {| line_project_id := p; line_task_id := line_task_id l; unit_amount := unit_amount l |}.

Definition set_project_id (p : option Z) (t : project_task) : project_task :=
  {| project_id := p; parent_id := parent_id t; active := active t;
     planned_hours := planned_hours t; effective_hours := effective_hours t;
     subtask_effective_hours := subtask_effective_hours t;
     remaining_hours := remaining_hours t;
     remaining_hours_percentage := remaining_hours_percentage t;
     progress := progress t; overtime := overtime t |}.

Definition set_effective_hours (x : float) (t : project_task) : project_task :=
  {| project_id := project_id t; parent_id := parent_id t; active := active t;
     planned_hours := planned_hours t; effective_hours := x;
     subtask_effective_hours := subtask_effective_hours t;
     remaining_hours := remaining_hours t;
     remaining_hours_percentage := remaining_hours_percentage t;
     progress := progress t; overtime := overtime t |}.

Definition set_subtask_effective_hours (x : float) (t : project_task) : project_task :=
  {| project_id := project_id t; parent_id := parent_id t; active := active t;
     planned_hours := planned_hours t; effective_hours := effective_hours t;
     subtask_effective_hours := x;
     remaining_hours := remaining_hours t;
     remaining_hours_percentage := remaining_hours_percentage t;
     progress := progress t; overtime := overtime t |}.

Definition set_remaining_hours_percentage (x : float) (t : project_task) : project_task :=
  {| project_id := project_id t; parent_id := parent_id t; active := active t;
     planned_hours := planned_hours t; effective_hours := effective_hours t;
     subtask_effective_hours := subtask_effective_hours t;
     remaining_hours := remaining_hours t;
     remaining_hours_percentage := x;
     progress := progress t; overtime := overtime t |}.

Definition set_progress (x : float) (t : project_task) : project_task :=
  {| project_id := project_id t; parent_id := parent_id t; active := active t;
     planned_hours := planned_hours t; effective_hours := effective_hours t;
     subtask_effective_hours := subtask_effective_hours t;
     remaining_hours := remaining_hours t;
     remaining_hours_percentage := remaining_hours_percentage t;
     progress := x; overtime := overtime t |}.

Definition set_overtime (x : float) (t : project_task) : project_task :=
  {| project_id := project_id t; parent_id := parent_id t; active := active t;
     planned_hours := planned_hours t; effective_hours := effective_hours t;
     subtask_effective_hours := subtask_effective_hours t;
     remaining_hours := remaining_hours t;
     remaining_hours_percentage := remaining_hours_percentage t;
     progress := progress t; overtime := x |}.

(** Modelled from the spec: the [write] of [account.analytic.line], which is
    not part of these sources, restricted to the column the task hook
    writes: every timesheet entry of [ids] gets the project of [vals]. *)
Definition line_write (ids : list Z) (vals : gmap string value) : M unit :=
  for_each ids (λ id,
    when (dict_has vals "project_id")
      (update_line id (set_line_project_id (to_many2one (dict_get vals "project_id"))))).

(** [record in self], for the target of a many-to-one column. *)
Definition in_ids (o : option Z) (self : list Z) : bool :=
  match o with
  | Some id => bool_decide (id ∈ self)
  | None => false
  end.

(** Modelled from the spec: a search of the record manager. The ids of the
    timesheet entries that satisfy [P]. *)
Definition search_lines (e : env) (P : account_analytic_line → bool) : list Z :=
  elements (dom (filter (λ kv : Z * account_analytic_line, P kv.2 = true) (lines e))).

(** Modelled from the spec: a search of the record manager. The ids of the
    tasks that satisfy [P]. *)
Definition search_tasks (e : env) (P : project_task → bool) : list Z :=
  elements (dom (filter (λ kv : Z * project_task, P kv.2 = true) (tasks e))).

(** [self.filtered(f)] *)
Fixpoint filtered (self : list Z) (f : Z → M bool) : M (list Z) :=
  match self with
  | [] => ret []
  | id :: self' =>
      bind (f id) (λ keep,
      bind (filtered self' f) (λ rest,
      ret (if keep then id :: rest else rest)))
  end.

(** Reads the database without changing it. *)
Definition ask {A} (f : env → A) : M A := λ e, Ok (f e, e).

(** Changes the database. *)
Definition modify (f : env → env) : M unit := λ e, Ok (tt, f e).

(** [bool(recordset)] *)
Definition nonempty {A} (l : list A) : bool :=
  match l with [] => false | _ :: _ => true end.

(** ** Companies, and the other columns of projects *)

Module Company.

(** A row of [res.company]: its name, its internal project and the unit in
    which its timesheets are encoded. *)
Record res_company : Type := {
  name : string;
  internal_project_id : option Z;
  timesheet_encode_uom_id : option Z
}.

End Company.

Definition set_remaining_hours (x : float) (t : project_task) : project_task :=
  {| project_id := project_id t; parent_id := parent_id t; active := active t;
     planned_hours := planned_hours t; effective_hours := effective_hours t;
     subtask_effective_hours := subtask_effective_hours t;
     remaining_hours := x;
     remaining_hours_percentage := remaining_hours_percentage t;
     progress := progress t; overtime := overtime t |}.

(** The [unit_amount] of timesheet entries, [lines.mapped('unit_amount')]. *)
Definition unit_amounts (e : env) (ls : list Z) : list float :=
  omap (λ l, unit_amount <$> lines e !! l) ls.

(** A Python dictionary with integer keys, in insertion order.
    [dict_set] is [d[k] = v]: the value of a key that is there is replaced
    in place, a new key goes to the end. *)
Fixpoint dict_set {A} (k : Z) (v : A) (d : list (Z * A)) : list (Z * A) :=
  match d with
  | [] => [(k, v)]
  | (k', v') :: d' =>
      if Z.eqb k k' then (k, v) :: d' else (k', v') :: dict_set k v d'
  end.

(** [d.get(k)] *)
Fixpoint dict_find {A} (k : Z) (d : list (Z * A)) : option A :=
  match d with
  | [] => None
  | (k', v') :: d' => if Z.eqb k k' then Some v' else dict_find k d'
  end.

(** [dict(pairs)] *)
Definition dict_of {A} (pairs : list (Z * A)) : list (Z * A) :=
  fold_left (λ d kv, dict_set kv.1 kv.2 d) pairs [].

(** ** Projects *)

Module Project.

(** [_compute_allow_timesheets], the compute method of the stored field
    [allow_timesheets], which depends on [analytic_account_id]. Every record
    of the database is its own [_origin]. *)
Definition _compute_allow_timesheets (self : list Z) : M unit :=
  without_account ← filtered self (λ id,
    t ← read_project id;
    mret (negb (bool_decide (is_Some (analytic_account_id t)))));
  for_each without_account (λ id, update_project id (set_allow_timesheets false)).

(** [_check_allow_timesheet], declared
    [@api.constrains('allow_timesheets', 'analytic_account_id')]. *)
Definition _check_allow_timesheet (self : list Z) : M unit :=
  for_each self (λ id,
    project ← read_project id;
    if allow_timesheets project
       && negb (bool_decide (is_Some (analytic_account_id project)))
    then raise (ValidationError "You cannot use timesheets without an analytic account.")
    else mret tt).

(** The columns of the model. *)
Definition columns : list string :=
  ["allow_timesheets"; "analytic_account_id"].

(** The fields named by the [@api.constrains] decorator. *)
Definition constrained_fields : list string :=
  ["allow_timesheets"; "analytic_account_id"].

(** The columns of a row after the field values of [values] are stored. *)
Definition store_values (values : gmap string value) (p : project_project)
  : project_project :=
  let p1 :=
    if dict_has values "allow_timesheets"
    then set_allow_timesheets (truthy (dict_get values "allow_timesheets")) p
    else p in
  if dict_has values "analytic_account_id"
  then set_analytic_account_id (to_many2one (dict_get values "analytic_account_id")) p1
  else p1.

(** Modelled from the spec: the [write] of the record manager, which is what
    [super().write(values)] reaches and is not part of these sources. It
    stores the values on every record, recomputes the stored field
    [allow_timesheets] when the field it depends on was written and it was
    not, and then runs the constraint when one of the fields it is declared
    on was written ("a validation check executed on every write", "checked
    synchronously at field-level commit time by the host framework's
    constraint/validation machinery"). *)
Definition super_write (self : list Z) (values : gmap string value) : M bool :=
  for_each self (λ id, update_project id (store_values values));;
  when (dict_has values "analytic_account_id" && negb (dict_has values "allow_timesheets"))
    (_compute_allow_timesheets self);;
  when (bool_decide (Exists (λ f, dict_has values f = true) constrained_fields))
    (_check_allow_timesheet self);;
  mret true.

(** Modelled from the spec: [_create_analytic_account] of the base project
    model, not part of these sources ("auto-provision an analytic account"):
    for every project of [self], a new analytic account is created and
    linked to the project. *)
Definition _create_analytic_account (self : list Z) : M unit :=
  for_each self (λ id,
    a ← ask (λ e, new_id (accounts e));
    modify (λ e, with_accounts ({[a]} ∪ accounts e) e);;
    update_project id (set_analytic_account_id (Some a))).

(** Modelled from the spec: [_create_analytic_account_from_values] of the
    base project model, not part of these sources: creates a new analytic
    account for the project that [vals] describes and returns it. *)
Definition _create_analytic_account_from_values (vals : gmap string value) : M Z :=
  a ← ask (λ e, new_id (accounts e));
  modify (λ e, with_accounts ({[a]} ∪ accounts e) e);;
  mret a.

(** Modelled from the spec: [default_get(fields)] of the record manager,
    which is not part of these sources. A default of the context (given
    here by field name) takes precedence over the default of the field
    declaration, which is [True] for [allow_timesheets];
    [analytic_account_id] declares none. *)
Definition default_get (context : gmap string value) (fields : list string)
  : gmap string value :=
  filter (λ kv, kv.1 ∈ fields) (context ∪ {["allow_timesheets" := VBool true]}).

(** Modelled from the spec: the [create] of the record manager, which is
    what [super().create(vals_list)] reaches and is not part of these
    sources. Every dictionary is completed with the defaults, stored as a
    new row, and the constraint is checked on the new records. *)
Definition super_create (context : gmap string value)
    (vals_list : list (gmap string value)) : M (list Z) :=
  ids ← map_each vals_list (λ vals,
    let vals := vals ∪ default_get context columns in
    id ← ask (λ e, new_id (dom (projects e)));
    modify (λ e, with_projects
                   (<[id := {| allow_timesheets := truthy (dict_get vals "allow_timesheets");
                               analytic_account_id :=
                                 to_many2one (dict_get vals "analytic_account_id") |}]>
                      (projects e)) e);;
    mret id);
  _check_allow_timesheet ids;;
  mret ids.

(** [create]: "Create an analytic account if project allow timesheet and
    don't provide one. Note: create it before calling super() to avoid
    raising the ValidationError from _check_allow_timesheet". *)
Definition create (context : gmap string value) (vals_list : list (gmap string value))
  : M (list Z) :=
  let defaults := default_get context ["allow_timesheets"; "analytic_account_id"] in
  vals_list ← map_each vals_list (λ vals,
    let allow_timesheets :=
      dict_get_default vals "allow_timesheets" (dict_get defaults "allow_timesheets") in
    let analytic_account_id :=
      dict_get_default vals "analytic_account_id" (dict_get defaults "analytic_account_id") in
    if truthy allow_timesheets && negb (truthy analytic_account_id) then
      analytic_account ← _create_analytic_account_from_values vals;
      mret (<["analytic_account_id" := VInt analytic_account]> vals)
    else mret vals);
  super_create context vals_list.

(** [write] *)
Definition write (self : list Z) (values : gmap string value) : M bool :=
  when (truthy (dict_get values "allow_timesheets")
        && negb (truthy (dict_get values "analytic_account_id")))
    (for_each self (λ id,
       project ← read_project id;
       when (negb (bool_decide (is_Some (analytic_account_id project))))
         (_create_analytic_account [id])));;
  super_write self values.

(** [project.timesheet_ids] *)
Definition timesheet_ids (e : env) (id : Z) : list Z :=
  search_lines e (λ l, in_ids (line_project_id l) [id]).

Section Unlink.

(** [self.env.ref(xml_id).id], the database id of a record of the data
    files. *)
Variable ref : string → Z.

(** [_unlink_except_contains_entries], declared [@api.ondelete]. *)
Definition _unlink_except_contains_entries (self : list Z) : M unit :=
  projects_with_timesheets ← filtered self (λ p,
    ask (λ e, nonempty (timesheet_ids e p)));
  if nonempty projects_with_timesheets then
    let warning_msg :=
      if (1 <? length projects_with_timesheets)%nat
      then "These projects have some timesheet entries referencing them. Before removing these projects, you have to remove these timesheet entries."
      else "This project has some timesheet entries referencing it. Before removing this project, you have to remove these timesheet entries." in
    raise (RedirectWarning warning_msg
             (ref "hr_timesheet.timesheet_action_project")
             "See timesheet entries" projects_with_timesheets)
  else mret tt.

(** Modelled from the spec: the [unlink] of the record manager, not part of
    these sources: it runs the before-delete hook and then deletes the rows
    ("the module hooks before delete to redirect deletion attempts"). *)
Definition unlink (self : list Z) : M bool :=
  _unlink_except_contains_entries self;;
  modify (λ e, with_projects (foldr delete (projects e) self) e);;
  mret true.

End Unlink.

(** Modelled from the spec: a search of the record manager. The ids of the
    projects that satisfy [P]. *)
Definition search (e : env) (P : project_project → bool) : list Z :=
  elements (dom (filter (λ kv : Z * project_project, P kv.2 = true) (projects e))).

(** [_init_data_analytic_account] *)
Definition _init_data_analytic_account : M unit :=
  found ← ask (λ e, search e (λ p,
    negb (bool_decide (is_Some (analytic_account_id p))) && allow_timesheets p));
  _create_analytic_account found.

(** An item of a view cache key: a value, or the unit of measure that the
    module appends. *)
Inductive key_item : Type :=
| Item (v : value)
| Uom (uom : option Z).

Section View.

(** The architecture of a view, and [_apply_time_label] of
    [account.analytic.line], which is not part of these sources. *)
Context {arch : Type}.
Variable _apply_time_label : arch → string → arch.

(** [self.env.ref('uom.product_uom_day')] *)
Variable product_uom_day : Z.

(** [_get_view_cache_key]. [key] is what [super()._get_view_cache_key]
    returns and [uom] is [self.env.company.timesheet_encode_uom_id]. *)
Definition _get_view_cache_key (key : list key_item) (uom : option Z)
  : list key_item :=
  key ++ [Uom uom].

(** [_get_view]. [super_view] is what [super()._get_view] returns. *)
Definition _get_view {view : Type} (super_view : arch * view) (view_type : string)
    (uom : option Z) : arch * view :=
  let '(arch, view) := super_view in
  let arch :=
    if bool_decide (view_type ∈ ["tree"; "form"])
       && bool_decide (uom = Some product_uom_day)
    then _apply_time_label arch "project.project"
    else arch in
  (arch, view).

End View.

End Project.

(** ** Python arithmetic on floats *)

(** [x / y] raises on a zero divisor. *)
Definition truediv (x y : float) : M float :=
  if PrimFloat.eqb y 0%float then raise ZeroDivisionError else ret (x / y)%float.

(** [max(x, y)]: the first argument unless the second is greater. *)
Definition py_max (x y : float) : float :=
  if PrimFloat.ltb x y then y else x.

(** [sum(xs)]: the terms are added one by one, from left to right, starting
    from 0. *)
Definition py_sum (xs : list float) : float :=
  fold_left PrimFloat.add xs 0%float.

(** ** The other fields of projects *)

Module ProjectFields.

(** The other columns of [project.project] that the module declares or
    reads: the company, the allocated hours and the computed fields. *)
Record row : Type := {
  company_id : option Z;
  allocated_hours : float;
  remaining_hours : float;
  is_project_overtime : bool;
  timesheet_count : Z;
  is_internal_project : bool
}.

Definition set_remaining_hours (x : float) (r : row) : row :=
  {| company_id := company_id r; allocated_hours := allocated_hours r;
     remaining_hours := x; is_project_overtime := is_project_overtime r;
     timesheet_count := timesheet_count r;
     is_internal_project := is_internal_project r |}.

Definition set_is_project_overtime (b : bool) (r : row) : row :=
  {| company_id := company_id r; allocated_hours := allocated_hours r;
     remaining_hours := remaining_hours r; is_project_overtime := b;
     timesheet_count := timesheet_count r;
     is_internal_project := is_internal_project r |}.


Definition set_is_internal_project (b : bool) (r : row) : row :=
  {| company_id := company_id r; allocated_hours := allocated_hours r;
     remaining_hours := remaining_hours r;
     is_project_overtime := is_project_overtime r;
     timesheet_count := timesheet_count r;
     is_internal_project := b |}.

(** [for project in self: body(project)], where the body assigns fields of
    the project. A record that is not in the table raises. *)
Fixpoint for_rows (self : list Z) (body : Z → row → row) (rows : gmap Z row)
  : result (gmap Z row) :=
  match self with
  | [] => Ok rows
  | id :: self' =>
      match rows !! id with
      | Some r => for_rows self' body (<[id := body id r]> rows)
      | None => Raise MissingError
      end
  end.

(** Modelled from the spec: [_read_group] of the record manager, which is
    not part of these sources. The [project_id] of the groups it returns for
    the domain [('project_id', 'in', ids)] grouped by [project_id]: one
    group for every project of [ids] that some timesheet entry references. *)
Definition read_group_project_ids (e : env) (ids : list Z) : list Z :=
  elements (list_to_set (C := gset Z)
    (omap (λ kv : Z * account_analytic_line,
             if in_ids (line_project_id kv.2) ids then line_project_id kv.2 else None)
          (map_to_list (lines e)))).


(** [_compute_remaining_hours], which also computes [is_project_overtime].
    The group of a project holds the sum of the [unit_amount] of its
    timesheet entries. *)
Definition _compute_remaining_hours (e : env) (self : list Z) (rows : gmap Z row)
  : result (gmap Z row) :=
  let timesheets_read_group := read_group_project_ids e self in
  let timesheet_time_dict :=
    dict_of ((λ p, (p, py_sum (unit_amounts e (Project.timesheet_ids e p))))
               <$> timesheets_read_group) in
  for_rows self (λ id project,
    let project :=
      set_remaining_hours
        (allocated_hours project - default 0%float (dict_find id timesheet_time_dict))
        project in
    set_is_project_overtime (PrimFloat.ltb (remaining_hours project) 0) project) rows.

(** [_compute_is_internal_project] *)
Definition _compute_is_internal_project (companies : gmap Z Company.res_company)
    (self : list Z) (rows : gmap Z row) : result (gmap Z row) :=
  for_rows self (λ id project,
    set_is_internal_project
      (bool_decide
         (Some id =
          (company_id project ≫= (companies !!.)) ≫= Company.internal_project_id))
      project) rows.

(** [name_get] raises a [KeyError] when it looks a project up that the
    names do not hold, and passes on what reading the projects raises. *)
Inductive name_get_error : Type :=
| KeyError (key : Z)
| Raised (e : exn).

(** The loop of [name_get] over the projects. *)
Fixpoint name_internal_projects (companies : gmap Z Company.res_company)
    (rows : gmap Z row) (self : list Z) (name_mapping : list (Z * string))
  : name_get_error + list (Z * string) :=
  match self with
  | [] => inr name_mapping
  | id :: self' =>
      match rows !! id with
      | None => inl (Raised MissingError)
      | Some project =>
          if is_internal_project project then
            match dict_find id name_mapping with
            | None => inl (KeyError id)
            | Some project_name =>
                let company_name :=
                  default "False"
                    (Company.name <$> (company_id project ≫= (companies !!.))) in
                name_internal_projects companies rows self'
                  (dict_set id (project_name ++ " - " ++ company_name)%string
                     name_mapping)
            end
          else name_internal_projects companies rows self' name_mapping
      end
  end.

(** [name_get]. [res] is what [super().name_get()] returns and
    [allowed_company_ids] what the context holds under that key, if
    anything; [is_internal_project] is not stored and is computed when it
    is read. *)
Definition name_get (companies : gmap Z Company.res_company)
    (allowed_company_ids : option (list Z)) (res : list (Z * string))
    (self : list Z) (rows : gmap Z row)
  : name_get_error + list (Z * string) :=
  if (length (default [] allowed_company_ids) <=? 1)%nat then inr res
  else
    let name_mapping := dict_of res in
    match _compute_is_internal_project companies self rows with
    | Raise x => inl (Raised x)
    | Ok rows => name_internal_projects companies rows self name_mapping
    end.

End ProjectFields.

(** ** Tasks *)

Module Task.

(** Modelled from the spec: the one-to-many field [child_ids] of the base
    task model, which is not part of these sources; it is the inverse of
    [parent_id]. Archived children are left out unless the context says
    [active_test=False]. *)
Definition child_ids (active_test : bool) (e : env) (id : Z) : list Z :=
  search_tasks e (λ c, in_ids (parent_id c) [id] && (negb active_test || active c)).

(** The one-to-many field [timesheet_ids] of a set of tasks, inverse of
    [task_id]. *)
Definition timesheet_ids (e : env) (self : list Z) : list Z :=
  search_lines e (λ l, in_ids (line_task_id l) self).

(** [_get_timesheet] *)
Definition _get_timesheet (self : list Z) : M (list Z) :=
  ask (λ e, timesheet_ids e self).

Section Hours.

(** [float_compare(value1, value2, precision_digits)] of the framework's
    float utilities, and the builtin [round(x, ndigits)]; neither is part of
    these sources. *)
Variable float_compare : float → float → Z → Z.
Variable round : float → Z → float.

(** [_compute_progress_hours] *)
Definition _compute_progress_hours (self : list Z) : M unit :=
  for_each self (λ id,
    task ← read_task id;
    if PrimFloat.ltb 0 (planned_hours task) then
      let task_total_hours :=
        (effective_hours task + subtask_effective_hours task)%float in
      update_task id (set_overtime (py_max (task_total_hours - planned_hours task) 0));;
      if 0 <=? float_compare task_total_hours (planned_hours task) 2 then
        update_task id (set_progress 100)
      else
        ratio ← truediv (100 * task_total_hours) (planned_hours task);
        update_task id (set_progress (round ratio 2))
    else
      update_task id (set_progress 0);;
      update_task id (set_overtime 0)).

End Hours.

(** [_compute_remaining_hours_percentage] *)
Definition _compute_remaining_hours_percentage (self : list Z) : M unit :=
  for_each self (λ id,
    task ← read_task id;
    if PrimFloat.ltb 0 (planned_hours task) then
      ratio ← truediv (remaining_hours task) (planned_hours task);
      update_task id (set_remaining_hours_percentage ratio)
    else
      update_task id (set_remaining_hours_percentage 0)).

(** [_compute_subtask_effective_hours], declared
    [@api.depends('child_ids.effective_hours', 'child_ids.subtask_effective_hours')]
    on a recursive stored field. *)
Definition _compute_subtask_effective_hours (self : list Z) : M unit :=
  for_each self (λ id,
    children ← ask (λ e, child_ids false e id);
    terms ← map_each children (λ c,
      child_task ← read_task c;
      mret (effective_hours child_task + subtask_effective_hours child_task)%float);
    update_task id (set_subtask_effective_hours (py_sum terms))).

(** The dependencies that the [@api.depends] decorator of
    [_compute_subtask_effective_hours] declares, as paths
    [(relation, field)]. *)
Definition subtask_effective_hours_depends : list (string * string) :=
  [("child_ids", "effective_hours"); ("child_ids", "subtask_effective_hours")].

(** Modelled from the spec: the records whose [subtask_effective_hours] the
    record manager marks for recomputation when [field] has changed on the
    task [c] ("recomputed whenever any descendant's hours change"): when
    [child_ids.field] is a declared dependency, the tasks that have [c]
    among their [child_ids], that is the parent of [c]. *)
Definition to_recompute (field : string) (c : Z) : M (list Z) :=
  if bool_decide (("child_ids", field) ∈ subtask_effective_hours_depends) then
    task ← read_task c;
    mret (match parent_id task with Some p => [p] | None => [] end)
  else mret [].

(** Modelled from the spec: the recomputation itself. The field is
    recursive: the records marked are recomputed, and their new
    [subtask_effective_hours] marks their own parents in turn. [fuel]
    bounds the number of levels. *)
Fixpoint recompute (fuel : nat) (field : string) (c : Z) : M unit :=
  match fuel with
  | O => mret tt
  | S fuel' =>
      parents ← to_recompute field c;
      _compute_subtask_effective_hours parents;;
      for_each parents (λ p, recompute fuel' "subtask_effective_hours" p)
  end.

(** Modelled from the spec: a change of the effective hours of the task
    [c], followed by the recomputation it triggers. *)
Definition assign_effective_hours (fuel : nat) (c : Z) (x : float) : M unit :=
  update_task c (set_effective_hours x);;
  recompute fuel "effective_hours" c.

(** Modelled from the spec: the [write] of the record manager, which is what
    [super().write(values)] reaches and is not part of these sources; the
    column of interest is [project_id]. *)
Definition super_write (self : list Z) (values : gmap string value) : M bool :=
  for_each self (λ id,
    when (dict_has values "project_id")
      (update_task id (set_project_id (to_many2one (dict_get values "project_id")))));;
  mret true.

(** [write] *)
Definition write (self : list Z) (values : gmap string value) : M bool :=
  has_timesheets ←
    (if dict_has values "project_id" && negb (truthy (dict_get values "project_id"))
     then timesheets ← _get_timesheet self; mret (nonempty timesheets)
     else mret false);
  if has_timesheets : bool
  then raise (UserError "This task must be part of a project because there are some timesheets linked to it.")
  else
    res ← super_write self values;
    when (dict_has values "project_id")
      (allow_timesheets ←
         match to_many2one (dict_get values "project_id") with
         | Some project => p ← read_project project; mret (allow_timesheets p)
         | None => mret false
         end;
       when allow_timesheets
         (timesheets ← _get_timesheet self;
          line_write timesheets {["project_id" := dict_get values "project_id"]}));;
    mret res.

Section Unlink.

Variable ref : string → Z.

(** Modelled from the spec: [_read_group] of the record manager, which is
    not part of these sources. The [task_id] of the groups it returns for
    the domain [('task_id', 'in', ids)] grouped by [task_id]: one group for
    every task of [ids] that some timesheet entry references. *)
Definition read_group_task_ids (e : env) (ids : list Z) : list Z :=
  elements (list_to_set (C := gset Z)
    (omap (λ kv : Z * account_analytic_line,
             if in_ids (line_task_id kv.2) ids then line_task_id kv.2 else None)
          (map_to_list (lines e)))).

(** [_unlink_except_contains_entries], declared [@api.ondelete]. *)
Definition _unlink_except_contains_entries (self : list Z) : M unit :=
  task_with_timesheets_ids ← ask (λ e, read_group_task_ids e self);
  if nonempty task_with_timesheets_ids then
    let warning_msg :=
      if (1 <? length task_with_timesheets_ids)%nat
      then "These tasks have some timesheet entries referencing them. Before removing these tasks, you have to remove these timesheet entries."
      else "This task has some timesheet entries referencing it. Before removing this task, you have to remove these timesheet entries." in
    raise (RedirectWarning warning_msg
             (ref "hr_timesheet.timesheet_action_task")
             "See timesheet entries" task_with_timesheets_ids)
  else mret tt.

(** Modelled from the spec: the [unlink] of the record manager, not part of
    these sources: it runs the before-delete hook and then deletes the rows. *)
Definition unlink (self : list Z) : M bool :=
  _unlink_except_contains_entries self;;
  modify (λ e, with_tasks (foldr delete (tasks e) self) e);;
  mret true.

End Unlink.

(** [_compute_effective_hours]. The ids of the records of the database
    are truthy, those of new records are not; the group that [read_group]
    returns for a task holds the sum of the [unit_amount] of its timesheet
    entries. *)
Definition _compute_effective_hours (self : list Z) : M unit :=
  if negb (existsb (λ id, negb (Z.eqb id 0)) self) then
    for_each self (λ id,
      amounts ← ask (λ e, unit_amounts e (timesheet_ids e [id]));
      update_task id (set_effective_hours (py_sum amounts)))
  else
    timesheets_per_task ← ask (λ e,
      dict_of ((λ t, (t, py_sum (unit_amounts e (timesheet_ids e [t]))))
                 <$> read_group_task_ids e self));
    for_each self (λ id,
      update_task id
        (set_effective_hours (default 0%float (dict_find id timesheets_per_task)))).

(** [_compute_remaining_hours] *)
Definition _compute_remaining_hours (self : list Z) : M unit :=
  for_each self (λ id,
    task ← read_task id;
    update_task id
      (set_remaining_hours
         (planned_hours task - effective_hours task
          - subtask_effective_hours task)%float)).

(** A view of an action: the id of the view, if any, and its type. *)
Definition action_view : Type := option Z * string.

(** The right-hand side of a leaf of the domain of an action. *)
Inductive operand : Type :=
| Value (v : value)
| Ids (ids : list Z).

(** The keys of an action that [action_view_subtask_timesheet] sets; the
    keys it leaves alone are in [other]. *)
Record action : Type := {
  display_name : string;
  context : gmap string value;
  domain : list (string * string * operand);
  views : list action_view;
  other : gmap string value
}.

(** Modelled from the spec: [ensure_one] of the record manager, which is not
    part of these sources: the recordset must hold exactly one record. *)
Definition ensure_one (self : list Z) : M Z :=
  match self with
  | [id] => ret id
  | _ => raise (ValueError "Expected singleton: %s" VNone)
  end.

(** The body of the loop over the views of the action. *)
Definition place_view (graph_view_id : Z) (new_views : list action_view)
    (view : action_view) : list action_view :=
  let view :=
    if String.eqb view.2 "graph" then (Some graph_view_id, "graph") else view in
  if String.eqb view.2 "tree" then view :: new_views else new_views ++ [view].

(** [action_view_subtask_timesheet]. [subtask_ids_per_task_id] is what
    [_get_subtask_ids_per_task_id] of the base task model returns,
    [timesheet_action_all] the action that [_for_xml_id] reads and
    [graph_view_id] the id of the graph view by employee; none of them is
    part of these sources. *)
Definition action_view_subtask_timesheet
    (subtask_ids_per_task_id : gmap Z (list Z)) (timesheet_action_all : action)
    (graph_view_id : Z) (self : list Z) : M action :=
  id ← ensure_one self;
  let task_ids := default [] (subtask_ids_per_task_id !! id) in
  let action := timesheet_action_all in
  let new_views := fold_left (place_view graph_view_id) (views action) [] in
  task ← read_task id;
  mret {| display_name := "Timesheets";
          context := {["default_project_id" :=
                         match project_id task with
                         | Some p => VInt p
                         | None => VBool false
                         end;
                       "grid_range" := VStr "week"]};
          domain := [("project_id", "!=", Value (VBool false));
                     ("task_id", "in", Ids task_ids)];
          views := new_views;
          other := other action |}.

Section View.

(** The architecture of a view, and [_apply_timesheet_label] and
    [_apply_time_label] of [account.analytic.line], which are not part of
    these sources. *)
Context {arch : Type}.
Variable _apply_timesheet_label : arch → arch.
Variable _apply_time_label : arch → string → arch.

(** [self.env.ref('uom.product_uom_day')] *)
Variable product_uom_day : Z.

(** [_get_view_cache_key] *)
Definition _get_view_cache_key (key : list Project.key_item) (uom : option Z)
  : list Project.key_item :=
  key ++ [Project.Uom uom].

(** [_get_view]: "Set the correct label for `unit_amount`, depending on
    company UoM". *)
Definition _get_view {view : Type} (super_view : arch * view) (view_type : string)
    (uom : option Z) : arch * view :=
  let '(arch, view) := super_view in
  let arch := _apply_timesheet_label arch in
  let arch :=
    if bool_decide (view_type ∈ ["tree"; "pivot"; "graph"; "form"])
       && bool_decide (uom = Some product_uom_day)
    then _apply_time_label arch "project.task"
    else arch in
  (arch, view).

End View.

End Task.

(** ** Properties stated by the specification *)

(** What the specification asks of a boolean search translator [f] with
    subquery [query]: it fails exactly on a value that is not a bool or an
    operator other than [=] and [!=], and then with a [ValueError];
    otherwise it returns one leaf on [id] whose operator is [inselect]
    exactly for [= True] and [!= False], and [not inselect] otherwise. *)
Record bool_translator (query : string)
    (f : string → value → result Search.domain) : Prop := {
  bt_error_iff : ∀ operator value,
    is_Ok (f operator value) = false ↔
    isinstance_bool value = false ∨ (operator ≠ "=" ∧ operator ≠ "!=");
  bt_error_kind : ∀ operator value,
    is_Ok (f operator value) = false →
    raises (f operator value) is_ValueError = true;
  bt_domain : ∀ operator value,
    is_Ok (f operator value) = true →
    ∃ op, f operator value = Ok [Search.Leaf "id" op query []] ∧
          (op = "inselect" ∨ op = "not inselect") ∧
          (op = "inselect" ↔
             (operator = "=" ∧ value = VBool true) ∨
             (operator = "!=" ∧ value = VBool false));
  bt_same : f "=" (VBool true) = f "!=" (VBool false)
}.

(** The hours that the specification says overtime is derived from: the
    effective hours of the task alone, against its planned hours. *)
Definition overtime_from_effective_hours (t : project_task) : float :=
  if PrimFloat.ltb 0 (planned_hours t)
  then py_max (effective_hours t - planned_hours t) 0
  else 0%float.

(** A task with 10 planned hours, 5 hours of its own and 10 hours logged on
    its subtasks, alone in the database under id 1. *)
Definition task_with_subtask_hours : project_task :=
  {| project_id := None; parent_id := None; active := true;
     planned_hours := 10; effective_hours := 5; subtask_effective_hours := 10;
     remaining_hours := -5; remaining_hours_percentage := -0.5;
     progress := 0; overtime := 0 |}.

Definition env_with_subtask_hours : env :=
  {| projects := ∅; tasks := {[1 := task_with_subtask_hours]}; lines := ∅;
     accounts := ∅ |}.

(** The row that [_compute_progress_hours] leaves for a task. *)
Definition with_progress_hours (float_compare : float → float → Z → Z)
    (round : float → Z → float) (t : project_task) : project_task :=
  let total := (effective_hours t + subtask_effective_hours t)%float in
  if PrimFloat.ltb 0 (planned_hours t) then
    set_progress
      (if 0 <=? float_compare total (planned_hours t) 2 then 100%float
       else round (100 * total / planned_hours t)%float 2)
      (set_overtime (py_max (total - planned_hours t) 0) t)
  else set_overtime 0 (set_progress 0 t).

(** The row that [_compute_remaining_hours_percentage] leaves for a task. *)
Definition with_remaining_hours_percentage (t : project_task) : project_task :=
  set_remaining_hours_percentage
    (if PrimFloat.ltb 0 (planned_hours t)
     then (remaining_hours t / planned_hours t)%float else 0%float) t.

(** The hours a child contributes to its parent: its own effective hours
    plus the hours already rolled up from its own subtasks. *)
Definition hours_of (e : env) (c : Z) : float :=
  match tasks e !! c with
  | Some child_task => (effective_hours child_task + subtask_effective_hours child_task)%float
  | None => 0%float
  end.

(** The sum over the direct children of a task, archived ones included. *)
Definition children_hours (e : env) (id : Z) : float :=
  py_sum (hours_of e <$> Task.child_ids false e id).

(** Every task of the database stores the sum over its direct children. *)
Definition rollup_consistent (e : env) : Prop :=
  ∀ id t, tasks e !! id = Some t →
          subtask_effective_hours t = children_hours e id.

(** The parent links form a forest: every parent is a task of the database,
    at a strictly smaller depth than its child. *)
Definition hierarchy (depth : Z → nat) (e : env) : Prop :=
  ∀ c t p, tasks e !! c = Some t → parent_id t = Some p →
           is_Some (tasks e !! p) ∧ (depth p < depth c)%nat.

(** No record of [self] is a child of a record of [self]. *)
Definition unrelated (e : env) (self : list Z) : Prop :=
  ∀ c id, c ∈ self → id ∈ self → c ∉ Task.child_ids false e id.

(** Three tasks in a chain: task 2 is a subtask of task 1, and the archived
    task 3 is a subtask of task 2. The rolled-up hours are up to date. *)
Definition chain_task (parent : option Z) (is_active : bool)
    (effective subtasks : float) : project_task :=
  {| project_id := None; parent_id := parent; active := is_active;
     planned_hours := 0; effective_hours := effective;
     subtask_effective_hours := subtasks;
     remaining_hours := 0; remaining_hours_percentage := 0;
     progress := 0; overtime := 0 |}.

Definition env_chain : env :=
  {| projects := ∅;
     tasks := {[1 := chain_task None true 1 5;
                2 := chain_task (Some 1) true 2 3;
                3 := chain_task (Some 2) false 3 0]};
     lines := ∅; accounts := ∅ |}.

Definition chain_depth (id : Z) : nat := Z.to_nat id.

(** The recursive rollup: the effective hours of all the descendants of a
    task, down to [fuel] levels, added up child by child. *)
Fixpoint rollup (fuel : nat) (e : env) (id : Z) : float :=
  match fuel with
  | O => 0%float
  | S fuel' =>
      py_sum ((λ c, match tasks e !! c with
                    | Some child_task =>
                        (effective_hours child_task + rollup fuel' e c)%float
                    | None => 0%float
                    end) <$> Task.child_ids false e id)
  end.

(** Every child is strictly lower than its parent. *)
Definition bounded_height (height : Z → nat) (e : env) : Prop :=
  ∀ c t p, tasks e !! c = Some t → parent_id t = Some p →
           (height c < height p)%nat.

Definition chain_height (id : Z) : nat := Z.to_nat (3 - id).

(** A database with three projects, two tasks of project 10 and one timesheet
    entry, logged on task 1. Project 10 allows timesheets and has the
    analytic account 100; project 11 allows none; project 12 allows them
    and has the analytic account 101. *)
Definition env_timesheets : env :=
  {| projects := {[10 := {| allow_timesheets := true; analytic_account_id := Some 100 |};
                   11 := {| allow_timesheets := false; analytic_account_id := None |};
                   12 := {| allow_timesheets := true; analytic_account_id := Some 101 |}]};
     tasks := {[1 := set_project_id (Some 10) (chain_task None true 2 0);
                2 := set_project_id (Some 10) (chain_task None true 0 0)]};
     lines := {[7 := {| line_project_id := Some 10; line_task_id := Some 1;
                        unit_amount := 2 |}]};
     accounts := {[100; 101]} |}.

(** Some timesheet entry references the project, or the task. *)
Definition project_has_timesheets (e : env) (p : Z) : Prop :=
  ∃ l line, lines e !! l = Some line ∧ line_project_id line = Some p.

Definition task_has_timesheets (e : env) (t : Z) : Prop :=
  ∃ l line, lines e !! l = Some line ∧ line_task_id line = Some t.

(** The ids of the data files, for the examples. *)
Definition example_ref (xml_id : string) : Z :=
  if String.eqb xml_id "hr_timesheet.timesheet_action_project" then 501
  else if String.eqb xml_id "hr_timesheet.timesheet_action_task" then 502
  else 0.

(** The invariant of projects: timesheets are allowed only with an
    analytic account. *)
Definition project_ok (p : project_project) : Prop :=
  allow_timesheets p = true → is_Some (analytic_account_id p).

Definition project_invariant (e : env) : Prop :=
  ∀ id p, projects e !! id = Some p → project_ok p.

(** The invariant on the projects outside of [ids]. *)
Definition invariant_outside (ids : list Z) (e : env) : Prop :=
  ∀ id p, projects e !! id = Some p → id ∉ ids → project_ok p.

(** One of the fields that the constraint is declared on is written. *)
Definition writes_constrained (values : gmap string value) : bool :=
  bool_decide (Exists (λ f, dict_has values f = true) Project.constrained_fields).

(** The message of the constraint. *)
Definition no_account_message : string :=
  "You cannot use timesheets without an analytic account.".

(** The loop of [write] that creates the missing analytic accounts. *)
Definition provision_accounts (self : list Z) : M unit :=
  for_each self (λ id,
    project ← read_project id;
    when (negb (bool_decide (is_Some (analytic_account_id project))))
      (Project._create_analytic_account [id])).

(** What that loop does from the database [e] to the database [e1]: the
    projects of [self] that had an analytic account keep it, those that had
    none get an account that did not exist, and nothing else changes. *)
Definition provisioned (self : list Z) (e e1 : env) : Prop :=
  tasks e1 = tasks e ∧ lines e1 = lines e ∧ accounts e ⊆ accounts e1 ∧
  ∀ id,
    match projects e !! id with
    | Some p =>
        ∃ p1, projects e1 !! id = Some p1 ∧
              allow_timesheets p1 = allow_timesheets p ∧
              if bool_decide (id ∈ self) then
                match analytic_account_id p with
                | Some a => analytic_account_id p1 = Some a
                | None => ∃ a, analytic_account_id p1 = Some a ∧
                               (a ∉ accounts e) ∧ a ∈ accounts e1
                end
              else p1 = p
    | None => projects e1 !! id = None
    end.

(** The row that the record manager's [write] leaves for a project: the
    values are stored, and [allow_timesheets] is recomputed when the
    analytic account was written and [allow_timesheets] was not. *)
Definition settled (values : gmap string value) (p : project_project)
  : project_project :=
  let p1 := Project.store_values values p in
  if dict_has values "analytic_account_id"
     && negb (dict_has values "allow_timesheets")
     && negb (bool_decide (is_Some (analytic_account_id p1)))
  then set_allow_timesheets false p1
  else p1.

(** [create] is asked for a project that allows timesheets, by its values
    or by default, and is given no analytic account. *)
Definition wants_account (context vals : gmap string value) : bool :=
  let defaults :=
    Project.default_get context ["allow_timesheets"; "analytic_account_id"] in
  truthy (dict_get_default vals "allow_timesheets"
            (dict_get defaults "allow_timesheets"))
  && negb (truthy (dict_get_default vals "analytic_account_id"
                     (dict_get defaults "analytic_account_id"))).

(** The body of the loop of [create], which completes a dictionary with a
    new analytic account. *)
Definition complete_vals (context vals : gmap string value)
  : M (gmap string value) :=
  if wants_account context vals then
    analytic_account ← Project._create_analytic_account_from_values vals;
    mret (<["analytic_account_id" := VInt analytic_account]> vals)
  else mret vals.

(** What the loop does to one dictionary, from the database [e] to [e1]. *)
Definition completed (context : gmap string value) (e e1 : env)
    (vals vals' : gmap string value) : Prop :=
  if wants_account context vals then
    ∃ a, 0 < a ∧ (a ∉ accounts e) ∧ a ∈ accounts e1 ∧
         vals' = <["analytic_account_id" := VInt a]> vals
  else vals' = vals.

(** The row that the record manager's [create] stores for a dictionary. *)
Definition new_row (context vals : gmap string value) : project_project :=
  let vals := vals ∪ Project.default_get context Project.columns in
  {| allow_timesheets := truthy (dict_get vals "allow_timesheets");
     analytic_account_id := to_many2one (dict_get vals "analytic_account_id") |}.

(** Values that allow timesheets and take the analytic account away. *)
Definition values_without_account : gmap string value :=
  {["allow_timesheets" := VBool true; "analytic_account_id" := VBool false]}.

(** ** Properties of the rest of the module *)

(** The view that the action keeps for a view of the action it starts
    from: a graph view becomes the graph view by employee. *)
Definition as_graph (graph_view_id : Z) (v : Task.action_view) : Task.action_view :=
  if String.eqb v.2 "graph" then (Some graph_view_id, "graph") else v.

(** An action with a form view, two list views, a graph view and a pivot
    view. *)
Definition example_action : Task.action :=
  {| Task.display_name := "All Timesheets";
     Task.context := ∅;
     Task.domain := [];
     Task.views := [(Some 1, "form"); (Some 2, "tree"); (None, "graph");
                    (Some 3, "tree"); (Some 4, "pivot")];
     Task.other := {["res_model" := VStr "account.analytic.line"]} |}.

(** The other columns of projects 10 and 11 of [env_timesheets]: eight
    hours allocated to each, nothing computed yet. *)
Definition example_row : ProjectFields.row :=
  {| ProjectFields.company_id := Some 1;
     ProjectFields.allocated_hours := 8;
     ProjectFields.remaining_hours := 0;
     ProjectFields.is_project_overtime := false;
     ProjectFields.timesheet_count := 0;
     ProjectFields.is_internal_project := false |}.

Definition example_rows : gmap Z ProjectFields.row :=
  {[10 := example_row; 11 := example_row]}.

(** The hours spent on a task: the sum of the [unit_amount] of its
    timesheet entries. *)
Definition hours_spent (e : env) (id : Z) : float :=
  py_sum (unit_amounts e (Task.timesheet_ids e [id])).



(** The row that [_compute_remaining_hours] leaves for a task. *)
Definition with_remaining_hours (t : project_task) : project_task :=
  set_remaining_hours
    (planned_hours t - effective_hours t - subtask_effective_hours t)%float t.

(** The project is the internal project of its company, and the name of
    its company as [name_get] prints it. *)
Definition internal_of (companies : gmap Z Company.res_company) (id : Z)
    (r : ProjectFields.row) : bool :=
  bool_decide
    (Some id =
     (ProjectFields.company_id r ≫= (companies !!.)) ≫= Company.internal_project_id).

Definition company_name_of (companies : gmap Z Company.res_company)
    (r : ProjectFields.row) : string :=
  default "False"
    (Company.name <$> (ProjectFields.company_id r ≫= (companies !!.))).

(** One company, whose internal project is project 11. *)
Definition example_companies : gmap Z Company.res_company :=
  {[1 := {| Company.name := "Acme"; Company.internal_project_id := Some 11;
            Company.timesheet_encode_uom_id := Some 4 |}]}.


(** * Theorems *)

(** ** Search translators *)

Lemma is_eq_or_ne_spec operator :
  Search.is_eq_or_ne operator = true ↔ operator = "=" ∨ operator = "!=".
Proof.
  unfold Search.is_eq_or_ne.
  rewrite orb_true_iff, !String.eqb_eq. reflexivity.
Qed.

Lemma is_eq_or_ne_false operator :
  Search.is_eq_or_ne operator = false ↔ operator ≠ "=" ∧ operator ≠ "!=".
Proof.
  unfold Search.is_eq_or_ne.
  rewrite orb_false_iff, !String.eqb_neq. reflexivity.
Qed.

Lemma selects_members_spec operator b :
  Search.is_eq_or_ne operator = true →
  Search.selects_members operator (VBool b) = true ↔
  (operator = "=" ∧ VBool b = VBool true) ∨ (operator = "!=" ∧ VBool b = VBool false).
Proof.
  intros [-> | ->]%is_eq_or_ne_spec; destruct b; simpl; split; intros H;
    try discriminate; auto;
    destruct H as [[H1 H2] | [H1 H2]]; congruence.
Qed.

Lemma bool_translator_of query f :
  (∀ operator value,
     f operator value =
       if negb (isinstance_bool value) then
         Raise (ValueError "Invalid value: %s" value)
       else if negb (Search.is_eq_or_ne operator) then
         Raise (ValueError "Invalid operator: %s" (VStr operator))
       else
         Ok [Search.Leaf "id"
               (if Search.selects_members operator value
                then "inselect" else "not inselect") query []]) →
  bool_translator query f.
Proof.
  intros Hf. split.
  - intros operator value. rewrite Hf.
    destruct (isinstance_bool value) eqn:Hv; simpl.
    + destruct (Search.is_eq_or_ne operator) eqn:Ho; simpl.
      * apply is_eq_or_ne_spec in Ho. split; [discriminate |].
        intros [? | [? ?]]; [discriminate | destruct Ho; contradiction].
      * apply is_eq_or_ne_false in Ho. split; auto.
    + split; auto.
  - intros operator value. rewrite Hf.
    destruct (isinstance_bool value); simpl; [| reflexivity].
    destruct (Search.is_eq_or_ne operator); simpl; [discriminate | reflexivity].
  - intros operator value. rewrite Hf.
    destruct value as [| b | | |]; cbn [isinstance_bool negb is_Ok];
      try discriminate.
    destruct (Search.is_eq_or_ne operator) eqn:Ho; cbn [negb is_Ok];
      [| discriminate].
    intros _. eexists. split; [reflexivity |].
    pose proof (selects_members_spec operator b Ho) as Hs.
    destruct (Search.selects_members operator (VBool b)); split; auto;
      rewrite <- Hs; split; intros; try reflexivity; discriminate.
  - rewrite !Hf. reflexivity.
Qed.

(** C7. [_search_is_internal_project] and [_search_is_project_overtime]
    raise exactly when the value is not a bool or the operator is neither
    [=] nor [!=]; otherwise each returns the one-leaf domain
    [[('id', op, (query, ()))]] where [op] is [inselect] if and only if the
    search is [= True] or [!= False], and [not inselect] otherwise; so
    [= True] and [!= False] translate to the same domain. *)
Theorem search_bool_translators :
  bool_translator Search.internal_project_query Search._search_is_internal_project ∧
  bool_translator Search.project_overtime_query Search._search_is_project_overtime.
Proof.
  split; apply bool_translator_of; intros operator value; reflexivity.
Qed.

(** C8, as the code has it. A malformed operator makes the two boolean
    translators raise a [ValueError], whatever the value; the translator of
    [remaining_hours_percentage] raises a [NotImplementedError] on an
    operator that is not a key of [OPERATOR_MAPPING], and never a
    [ValueError]. *)
Theorem search_operator_errors :
  (∀ operator value,
     Search.is_eq_or_ne operator = false →
     raises (Search._search_is_internal_project operator value) is_ValueError = true ∧
     raises (Search._search_is_project_overtime operator value) is_ValueError = true) ∧
  (∀ OPERATOR_MAPPING table operator value,
     operator ∉ OPERATOR_MAPPING →
     Search._search_remaining_hours_percentage OPERATOR_MAPPING table operator value =
       Raise (NotImplementedError
                "This operator %s is not supported in this search method."
                (VStr operator))) ∧
  (∀ OPERATOR_MAPPING table operator value,
     raises (Search._search_remaining_hours_percentage
               OPERATOR_MAPPING table operator value) is_ValueError = false).
Proof.
  split; [| split].
  - intros operator value Ho.
    unfold Search._search_is_internal_project, Search._search_is_project_overtime.
    rewrite Ho. destruct (isinstance_bool value); simpl; auto.
  - intros OM table operator value Hnot.
    unfold Search._search_remaining_hours_percentage.
    rewrite bool_decide_eq_false_2 by assumption. reflexivity.
  - intros OM table operator value.
    unfold Search._search_remaining_hours_percentage.
    destruct (bool_decide (operator ∈ OM)); reflexivity.
Qed.

(** C8, as the specification has it, fails: on the operator [like], which
    is not a comparison operator, the translator of
    [remaining_hours_percentage] raises a [NotImplementedError], which is
    not a [ValueError]. *)
Lemma search_remaining_hours_percentage_not_ValueError :
  Search._search_remaining_hours_percentage
    Search.comparison_operators "project_task" "like" (VFloat 0.5) =
    Raise (NotImplementedError
             "This operator %s is not supported in this search method."
             (VStr "like")) ∧
  raises (Search._search_remaining_hours_percentage
            Search.comparison_operators "project_task" "like" (VFloat 0.5))
         is_ValueError = false.
Proof. split; reflexivity. Qed.

(** ** Running methods *)

Lemma bind_Ok {A B} (m : M A) (k : A → M B) e a e' :
  m e = Ok (a, e') → (m ≫= k) e = k a e'.
Proof. intros H. unfold mbind, M_bind, bind. rewrite H. reflexivity. Qed.

Lemma bind_Raise {A B} (m : M A) (k : A → M B) e x :
  m e = Raise x → (m ≫= k) e = Raise x.
Proof. intros H. unfold mbind, M_bind, bind. rewrite H. reflexivity. Qed.

Lemma for_each_cons {A} (x : A) xs body e :
  for_each (x :: xs) body e =
    match body x e with
    | Ok (_, e') => for_each xs body e'
    | Raise y => Raise y
    end.
Proof. simpl. unfold bind. destruct (body x e) as [[[] e'] | y]; reflexivity. Qed.

Lemma mret_run {A} (a : A) (e : env) : (mret a : M A) e = Ok (a, e).
Proof. reflexivity. Qed.

Lemma map_each_cons {A B} (x : A) xs (f : A → M B) e :
  map_each (x :: xs) f e =
    match f x e with
    | Ok (y, e1) =>
        match map_each xs f e1 with
        | Ok (ys, e2) => Ok (y :: ys, e2)
        | Raise z => Raise z
        end
    | Raise z => Raise z
    end.
Proof.
  simpl. unfold bind. destruct (f x e) as [[y e1] | z]; [| reflexivity].
  destruct (map_each xs f e1) as [[ys e2] | z]; reflexivity.
Qed.

Lemma read_task_Some id e t :
  tasks e !! id = Some t → read_task id e = Ok (t, e).
Proof. intros H. unfold read_task. rewrite H. reflexivity. Qed.

Lemma update_task_Some id f e t :
  tasks e !! id = Some t →
  update_task id f e = Ok (tt, with_tasks (<[id := f t]> (tasks e)) e).
Proof. intros H. unfold update_task. rewrite H. reflexivity. Qed.

Lemma read_project_Some id e p :
  projects e !! id = Some p → read_project id e = Ok (p, e).
Proof. intros H. unfold read_project. rewrite H. reflexivity. Qed.

Lemma read_project_None {B} id e (k : project_project → M B) :
  projects e !! id = None → (read_project id ≫= k) e = Raise MissingError.
Proof.
  intros H. apply bind_Raise. unfold read_project. rewrite H. reflexivity.
Qed.

Lemma update_project_Some id f e p :
  projects e !! id = Some p →
  update_project id f e = Ok (tt, with_projects (<[id := f p]> (projects e)) e).
Proof. intros H. unfold update_project. rewrite H. reflexivity. Qed.

(** Loops that update one table, row by row. *)
Section Table.

Context {A : Type} (get : env → gmap Z A) (set : gmap Z A → env → env).
Hypothesis get_set : ∀ m e, get (set m e) = m.
Hypothesis set_set : ∀ m1 m2 e, set m2 (set m1 e) = set m2 e.
Hypothesis set_get : ∀ e, set (get e) e = e.

(** A loop whose body replaces the row [a] under [id] by [g a], for an
    idempotent [g], maps [g] over the rows of [self] and leaves the rest
    of the database alone. *)
Lemma for_each_update (g : A → A) (body : Z → M unit) :
  (∀ id e a, get e !! id = Some a →
             body id e = Ok (tt, set (<[id := g a]> (get e)) e)) →
  (∀ a, g (g a) = g a) →
  ∀ self e,
    (∀ id, id ∈ self → is_Some (get e !! id)) →
    ∃ m', for_each self body e = Ok (tt, set m' e) ∧
          ∀ id, m' !! id =
                if bool_decide (id ∈ self) then g <$> get e !! id
                else get e !! id.
Proof.
  intros Hbody Hidem self. induction self as [| x xs IH]; intros e Hin.
  - exists (get e). simpl. unfold ret. rewrite set_get. split; reflexivity.
  - destruct (Hin x) as [a Ha]; [left |].
    rewrite for_each_cons, (Hbody x e a Ha).
    destruct (IH (set (<[x := g a]> (get e)) e)) as (m' & Hrun & Hrows).
    { intros id Hid. rewrite get_set. destruct (decide (x = id)) as [-> | Hne].
      - rewrite lookup_insert_eq. eauto.
      - rewrite lookup_insert_ne by assumption. apply Hin. by right. }
    exists m'. rewrite Hrun, set_set. split; [reflexivity |].
    intros id. rewrite Hrows, get_set.
    destruct (decide (x = id)) as [-> | Hne].
    + rewrite lookup_insert_eq, Ha. simpl.
      rewrite (bool_decide_eq_true_2 (id ∈ id :: xs)) by left.
      rewrite Hidem. by case_bool_decide.
    + rewrite lookup_insert_ne by assumption.
      destruct (bool_decide (id ∈ xs)) eqn:Hxs.
      * apply bool_decide_eq_true_1 in Hxs.
        rewrite bool_decide_eq_true_2; [done | by right].
      * apply bool_decide_eq_false_1 in Hxs.
        rewrite bool_decide_eq_false_2; [done |].
        intros [-> | ?]%elem_of_cons; contradiction.
Qed.

End Table.

Lemma for_each_task_update (g : project_task → project_task) (body : Z → M unit) :
  (∀ id e t, tasks e !! id = Some t →
             body id e = Ok (tt, with_tasks (<[id := g t]> (tasks e)) e)) →
  (∀ t, g (g t) = g t) →
  ∀ self e,
    (∀ id, id ∈ self → is_Some (tasks e !! id)) →
    ∃ e', for_each self body e = Ok (tt, e') ∧
          projects e' = projects e ∧ lines e' = lines e ∧
          accounts e' = accounts e ∧
          ∀ id, tasks e' !! id =
                if bool_decide (id ∈ self) then g <$> tasks e !! id
                else tasks e !! id.
Proof.
  intros Hbody Hidem self e Hin.
  destruct (for_each_update tasks with_tasks) with (g := g) (body := body)
    (self := self) (e := e) as (m' & Hrun & Hrows); auto.
  { by intros []. }
  exists (with_tasks m' e). auto.
Qed.

Lemma for_each_project_update (g : project_project → project_project)
    (body : Z → M unit) :
  (∀ id e p, projects e !! id = Some p →
             body id e = Ok (tt, with_projects (<[id := g p]> (projects e)) e)) →
  (∀ p, g (g p) = g p) →
  ∀ self e,
    (∀ id, id ∈ self → is_Some (projects e !! id)) →
    ∃ e', for_each self body e = Ok (tt, e') ∧
          tasks e' = tasks e ∧ lines e' = lines e ∧
          accounts e' = accounts e ∧
          ∀ id, projects e' !! id =
                if bool_decide (id ∈ self) then g <$> projects e !! id
                else projects e !! id.
Proof.
  intros Hbody Hidem self e Hin.
  destruct (for_each_update projects with_projects) with (g := g) (body := body)
    (self := self) (e := e) as (m' & Hrun & Hrows); auto.
  { by intros []. }
  exists (with_projects m' e). auto.
Qed.

Lemma for_each_line_update (g : account_analytic_line → account_analytic_line)
    (body : Z → M unit) :
  (∀ id e l, lines e !! id = Some l →
             body id e = Ok (tt, with_lines (<[id := g l]> (lines e)) e)) →
  (∀ l, g (g l) = g l) →
  ∀ self e,
    (∀ id, id ∈ self → is_Some (lines e !! id)) →
    ∃ e', for_each self body e = Ok (tt, e') ∧
          projects e' = projects e ∧ tasks e' = tasks e ∧
          accounts e' = accounts e ∧
          ∀ id, lines e' !! id =
                if bool_decide (id ∈ self) then g <$> lines e !! id
                else lines e !! id.
Proof.
  intros Hbody Hidem self e Hin.
  destruct (for_each_update lines with_lines) with (g := g) (body := body)
    (self := self) (e := e) as (m' & Hrun & Hrows); auto.
  { by intros []. }
  exists (with_lines m' e). auto.
Qed.

(** A loop never raises a division by zero when its body never does. *)
Lemma for_each_no_ZeroDivisionError {A} (body : A → M unit) :
  (∀ x e, body x e ≠ Raise ZeroDivisionError) →
  ∀ xs e, for_each xs body e ≠ Raise ZeroDivisionError.
Proof.
  intros Hbody xs. induction xs as [| x xs IH]; intros e.
  - discriminate.
  - rewrite for_each_cons. specialize (Hbody x e).
    destruct (body x e) as [[[] e'] | y]; [apply IH | congruence].
Qed.

(** ** Division is guarded *)

Lemma ltb_zero_nonzero (x : float) :
  PrimFloat.ltb 0 x = true → PrimFloat.eqb x 0 = false.
Proof.
  rewrite FloatAxioms.ltb_spec, FloatAxioms.eqb_spec.
  change (Prim2SF 0) with (S754_zero false).
  destruct (Prim2SF x) as [s | s | | s m ex]; try destruct s; cbn; congruence.
Qed.

Lemma truediv_positive x y e :
  PrimFloat.ltb 0 y = true → truediv x y e = Ok ((x / y)%float, e).
Proof.
  intros H. unfold truediv. rewrite (ltb_zero_nonzero y H). reflexivity.
Qed.

Lemma progress_hours_body float_compare round id e t :
  tasks e !! id = Some t →
  (task ← read_task id;
   if PrimFloat.ltb 0 (planned_hours task) then
     let task_total_hours :=
       (effective_hours task + subtask_effective_hours task)%float in
     update_task id (set_overtime (py_max (task_total_hours - planned_hours task) 0));;
     if 0 <=? float_compare task_total_hours (planned_hours task) 2 then
       update_task id (set_progress 100)
     else
       ratio ← truediv (100 * task_total_hours) (planned_hours task);
       update_task id (set_progress (round ratio 2))
   else
     update_task id (set_progress 0);;
     update_task id (set_overtime 0)) e =
  Ok (tt, with_tasks (<[id := with_progress_hours float_compare round t]> (tasks e)) e).
Proof.
  intros Ht. rewrite (bind_Ok _ _ _ _ _ (read_task_Some id e t Ht)).
  unfold with_progress_hours.
  destruct (PrimFloat.ltb 0 (planned_hours t)) eqn:Hplanned; cbv zeta.
  - rewrite (bind_Ok _ _ _ _ _ (update_task_Some id _ e t Ht)).
    destruct (0 <=? float_compare _ _ 2).
    + erewrite update_task_Some by (simpl; apply lookup_insert_eq).
      simpl. rewrite insert_insert_eq. reflexivity.
    + erewrite bind_Ok by (apply truediv_positive; exact Hplanned).
      erewrite update_task_Some by (simpl; apply lookup_insert_eq).
      simpl. rewrite insert_insert_eq. reflexivity.
  - rewrite (bind_Ok _ _ _ _ _ (update_task_Some id _ e t Ht)).
    erewrite update_task_Some by (simpl; apply lookup_insert_eq).
    simpl. rewrite insert_insert_eq. reflexivity.
Qed.

Lemma remaining_hours_percentage_body id e t :
  tasks e !! id = Some t →
  (task ← read_task id;
   if PrimFloat.ltb 0 (planned_hours task) then
     ratio ← truediv (remaining_hours task) (planned_hours task);
     update_task id (set_remaining_hours_percentage ratio)
   else
     update_task id (set_remaining_hours_percentage 0)) e =
  Ok (tt, with_tasks (<[id := with_remaining_hours_percentage t]> (tasks e)) e).
Proof.
  intros Ht. rewrite (bind_Ok _ _ _ _ _ (read_task_Some id e t Ht)).
  unfold with_remaining_hours_percentage.
  destruct (PrimFloat.ltb 0 (planned_hours t)) eqn:Hplanned.
  - erewrite bind_Ok by (apply truediv_positive; exact Hplanned).
    apply update_task_Some, Ht.
  - apply update_task_Some, Ht.
Qed.

Lemma with_progress_hours_idem float_compare round t :
  with_progress_hours float_compare round (with_progress_hours float_compare round t) =
  with_progress_hours float_compare round t.
Proof.
  unfold with_progress_hours.
  destruct (PrimFloat.ltb 0 (planned_hours t)) eqn:H; simpl; rewrite H; reflexivity.
Qed.

Lemma with_remaining_hours_percentage_idem t :
  with_remaining_hours_percentage (with_remaining_hours_percentage t) =
  with_remaining_hours_percentage t.
Proof. reflexivity. Qed.

Lemma progress_hours_run float_compare round self e :
  (∀ id, id ∈ self → is_Some (tasks e !! id)) →
  ∃ e', Task._compute_progress_hours float_compare round self e = Ok (tt, e') ∧
        projects e' = projects e ∧ lines e' = lines e ∧ accounts e' = accounts e ∧
        ∀ id, tasks e' !! id =
              if bool_decide (id ∈ self)
              then with_progress_hours float_compare round <$> tasks e !! id
              else tasks e !! id.
Proof.
  intros Hin. unfold Task._compute_progress_hours.
  apply (for_each_task_update (with_progress_hours float_compare round)); auto.
  - intros id e0 t Ht. apply progress_hours_body, Ht.
  - apply with_progress_hours_idem.
Qed.

Lemma remaining_hours_percentage_run self e :
  (∀ id, id ∈ self → is_Some (tasks e !! id)) →
  ∃ e', Task._compute_remaining_hours_percentage self e = Ok (tt, e') ∧
        projects e' = projects e ∧ lines e' = lines e ∧ accounts e' = accounts e ∧
        ∀ id, tasks e' !! id =
              if bool_decide (id ∈ self)
              then with_remaining_hours_percentage <$> tasks e !! id
              else tasks e !! id.
Proof.
  intros Hin. unfold Task._compute_remaining_hours_percentage.
  apply (for_each_task_update with_remaining_hours_percentage); auto.
  intros id e0 t Ht. apply remaining_hours_percentage_body, Ht.
Qed.

Lemma task_body_no_ZeroDivisionError (g : project_task → project_task)
    (body : Z → M unit) :
  (∀ id e t, tasks e !! id = Some t →
             body id e = Ok (tt, with_tasks (<[id := g t]> (tasks e)) e)) →
  (∀ id e, tasks e !! id = None → body id e = Raise MissingError) →
  ∀ self e, for_each self body e ≠ Raise ZeroDivisionError.
Proof.
  intros Hsome Hnone. apply for_each_no_ZeroDivisionError. intros id e.
  destruct (tasks e !! id) as [t |] eqn:Ht.
  - rewrite (Hsome id e t Ht). discriminate.
  - rewrite (Hnone id e Ht). discriminate.
Qed.

Lemma read_task_None {B} id e (k : project_task → M B) :
  tasks e !! id = None → (read_task id ≫= k) e = Raise MissingError.
Proof.
  intros H. apply bind_Raise. unfold read_task. rewrite H. reflexivity.
Qed.

(** C9. The two ratio computations never divide by zero: whatever the
    recordset and the database, neither raises [ZeroDivisionError]; on the
    records of the database both return, and
    [_compute_remaining_hours_percentage] leaves
    [remaining_hours / planned_hours] when [planned_hours > 0] and [0.0]
    otherwise. *)
Theorem ratio_computations_total
    (float_compare : float → float → Z → Z) (round : float → Z → float) :
  (∀ self e,
     Task._compute_remaining_hours_percentage self e ≠ Raise ZeroDivisionError ∧
     Task._compute_progress_hours float_compare round self e
       ≠ Raise ZeroDivisionError) ∧
  (∀ self e,
     (∀ id, id ∈ self → is_Some (tasks e !! id)) →
     (∃ e', Task._compute_remaining_hours_percentage self e = Ok (tt, e') ∧
            ∀ id t, id ∈ self → tasks e !! id = Some t →
              remaining_hours_percentage <$> tasks e' !! id =
                Some (if PrimFloat.ltb 0 (planned_hours t)
                      then (remaining_hours t / planned_hours t)%float
                      else 0%float)) ∧
     (∃ e', Task._compute_progress_hours float_compare round self e = Ok (tt, e'))).
Proof.
  split.
  - intros self e. split.
    + apply (task_body_no_ZeroDivisionError with_remaining_hours_percentage).
      * intros id e0 t Ht. apply remaining_hours_percentage_body, Ht.
      * intros id e0 Ht. apply read_task_None, Ht.
    + apply (task_body_no_ZeroDivisionError
               (with_progress_hours float_compare round)).
      * intros id e0 t Ht. apply progress_hours_body, Ht.
      * intros id e0 Ht. apply read_task_None, Ht.
  - intros self e Hin. split.
    + destruct (remaining_hours_percentage_run self e Hin)
        as (e' & Hrun & _ & _ & _ & Htasks).
      exists e'. split; [exact Hrun |].
      intros id t Hid Ht. rewrite Htasks, Ht.
      rewrite bool_decide_eq_true_2 by assumption. reflexivity.
    + destruct (progress_hours_run float_compare round self e Hin)
        as (e' & Hrun & _).
      eauto.
Qed.

(** The ratio computations return on the task of [env_with_subtask_hours]. *)
Lemma ratio_computations_total_witness :
  ∃ e', Task._compute_remaining_hours_percentage [1] env_with_subtask_hours
        = Ok (tt, e').
Proof.
  destruct (proj2 (ratio_computations_total (λ _ _ _, 0) (λ x _, x))
              [1] env_with_subtask_hours) as [[e' [H _]] _].
  - intros id ->%list_elem_of_singleton. exists task_with_subtask_hours.
    reflexivity.
  - exists e'. exact H.
Defined.

(** C6, as the code has it. Progress and overtime are derived from three
    numbers: the planned hours and the total of the effective hours of the
    task and of its subtasks. When [planned_hours > 0], overtime is
    [max(total - planned_hours, 0)] and progress is 100 when
    [float_compare(total, planned_hours, precision_digits=2) >= 0] and
    [round(100.0 * total / planned_hours, 2)] otherwise; when not, both
    are 0. *)
Theorem progress_hours_from_total
    (float_compare : float → float → Z → Z) (round : float → Z → float)
    (self : list Z) (e : env) :
  (∀ id, id ∈ self → is_Some (tasks e !! id)) →
  ∃ e', Task._compute_progress_hours float_compare round self e = Ok (tt, e') ∧
        ∀ id t, id ∈ self → tasks e !! id = Some t →
          ∃ t', tasks e' !! id = Some t' ∧
                let total := (effective_hours t + subtask_effective_hours t)%float in
                if PrimFloat.ltb 0 (planned_hours t) then
                  overtime t' = py_max (total - planned_hours t) 0 ∧
                  progress t' =
                    if 0 <=? float_compare total (planned_hours t) 2
                    then 100%float
                    else round (100 * total / planned_hours t)%float 2
                else progress t' = 0%float ∧ overtime t' = 0%float.
Proof.
  intros Hin.
  destruct (progress_hours_run float_compare round self e Hin)
    as (e' & Hrun & _ & _ & _ & Htasks).
  exists e'. split; [exact Hrun |].
  intros id t Hid Ht. exists (with_progress_hours float_compare round t). split.
  - rewrite Htasks, Ht. rewrite bool_decide_eq_true_2 by assumption. reflexivity.
  - unfold with_progress_hours. cbv zeta.
    destruct (PrimFloat.ltb 0 (planned_hours t)); simpl; auto.
Qed.

(** On a task with 10 planned hours, 5 hours of its own and 10 hours on its
    subtasks, the computation returns and leaves an overtime of 5 hours. *)
Lemma progress_hours_from_total_witness :
  ∃ e', Task._compute_progress_hours (λ _ _ _, 1) (λ x _, x) [1]
          env_with_subtask_hours = Ok (tt, e') ∧
        overtime <$> tasks e' !! 1 = Some 5%float.
Proof.
  destruct (progress_hours_from_total (λ _ _ _, 1) (λ x _, x) [1]
              env_with_subtask_hours) as (e' & Hrun & Hspec).
  - intros id ->%list_elem_of_singleton. exists task_with_subtask_hours.
    reflexivity.
  - exists e'. split; [exact Hrun |].
    destruct (Hspec 1 task_with_subtask_hours) as (t' & Ht' & Hov & _).
    + left.
    + reflexivity.
    + rewrite Ht'. simpl. rewrite Hov. reflexivity.
Defined.

Lemma float_5_neq_0 : 5%float ≠ 0%float.
Proof.
  intros H.
  assert (PrimFloat.eqb 5 0 = PrimFloat.eqb 0 0) as H' by (rewrite H; reflexivity).
  vm_compute in H'. discriminate.
Qed.

(** C6, as the specification has it, fails: it derives overtime from the
    effective hours of the task alone. The task of [env_with_subtask_hours]
    has 10 planned hours, 5 effective hours and 10 hours on its subtasks:
    whatever the rounding helpers are, the code leaves an overtime of
    5 hours, where [max(effective_hours - planned_hours, 0)] is 0. *)
Lemma overtime_counts_subtask_hours :
  (∀ float_compare round,
     ∃ e', Task._compute_progress_hours float_compare round [1]
             env_with_subtask_hours = Ok (tt, e') ∧
           overtime <$> tasks e' !! 1 = Some 5%float) ∧
  overtime_from_effective_hours task_with_subtask_hours = 0%float ∧
  5%float ≠ 0%float.
Proof.
  split; [| split; [reflexivity | exact float_5_neq_0]].
  intros float_compare round.
  destruct (progress_hours_run float_compare round [1] env_with_subtask_hours)
    as (e' & Hrun & _ & _ & _ & Htasks).
  - intros id ->%list_elem_of_singleton. exists task_with_subtask_hours.
    reflexivity.
  - exists e'. split; [exact Hrun |].
    rewrite Htasks. reflexivity.
Qed.

(** ** Subtask hours *)

Lemma elem_of_search_tasks e P c :
  c ∈ search_tasks e P ↔ ∃ t, tasks e !! c = Some t ∧ P t = true.
Proof.
  unfold search_tasks. rewrite elem_of_elements, elem_of_dom. unfold is_Some.
  setoid_rewrite map_lookup_filter_Some. naive_solver.
Qed.

Lemma search_tasks_congr e e' P :
  (∀ c, (∃ t, tasks e' !! c = Some t ∧ P t = true) ↔
        (∃ t, tasks e !! c = Some t ∧ P t = true)) →
  search_tasks e' P = search_tasks e P.
Proof.
  intros H. unfold search_tasks. f_equal. apply set_eq. intros c.
  rewrite !elem_of_dom. unfold is_Some.
  setoid_rewrite map_lookup_filter_Some. specialize (H c). naive_solver.
Qed.

Lemma in_ids_singleton o id : in_ids o [id] = true ↔ o = Some id.
Proof.
  destruct o as [p |]; simpl; [| split; discriminate].
  rewrite bool_decide_eq_true, list_elem_of_singleton. naive_solver.
Qed.

Lemma elem_of_child_ids e id c :
  c ∈ Task.child_ids false e id ↔
  ∃ t, tasks e !! c = Some t ∧ parent_id t = Some id.
Proof.
  unfold Task.child_ids. rewrite elem_of_search_tasks.
  split; intros (t & Ht & H); exists t; split; auto.
  - apply andb_true_iff in H as [H _]. by apply in_ids_singleton.
  - apply andb_true_iff. split; [by apply in_ids_singleton | reflexivity].
Qed.

(** Replacing a row by one with the same parent leaves every [child_ids]
    as it was. *)
Lemma child_ids_insert e u t t' id :
  tasks e !! u = Some t → parent_id t' = parent_id t →
  Task.child_ids false (with_tasks (<[u := t']> (tasks e)) e) id =
  Task.child_ids false e id.
Proof.
  intros Hu Hparent. unfold Task.child_ids. apply search_tasks_congr.
  intros c. simpl. destruct (decide (u = c)) as [-> | Hne].
  - rewrite lookup_insert_eq, Hu.
    split; intros (x & [= <-] & H); eexists; (split; [reflexivity |]).
    + by rewrite <- Hparent.
    + by rewrite Hparent.
  - rewrite lookup_insert_ne by assumption. reflexivity.
Qed.

Lemma hours_of_insert_ne e u t' c :
  u ≠ c → hours_of (with_tasks (<[u := t']> (tasks e)) e) c = hours_of e c.
Proof.
  intros Hne. unfold hours_of. simpl. rewrite lookup_insert_ne by assumption.
  reflexivity.
Qed.

(** The sum over the children of [id] only reads the rows of its children. *)
Lemma children_hours_insert e u t t' id :
  tasks e !! u = Some t → parent_id t' = parent_id t →
  parent_id t ≠ Some id →
  children_hours (with_tasks (<[u := t']> (tasks e)) e) id = children_hours e id.
Proof.
  intros Hu Hparent Hnot. unfold children_hours.
  rewrite (child_ids_insert e u t t' id Hu Hparent). f_equal.
  apply list_fmap_ext. intros i c Hc. apply hours_of_insert_ne.
  intros ->. apply list_elem_of_lookup_2 in Hc.
  apply elem_of_child_ids in Hc as (t0 & Ht0 & Hp). congruence.
Qed.

Lemma read_children e (cs : list Z) :
  (∀ c, c ∈ cs → is_Some (tasks e !! c)) →
  map_each cs (λ c,
    child_task ← read_task c;
    mret (effective_hours child_task + subtask_effective_hours child_task)%float) e
  = Ok (hours_of e <$> cs, e).
Proof.
  induction cs as [| c cs IH]; intros Hin; [reflexivity |].
  destruct (Hin c) as [t Ht]; [left |].
  rewrite map_each_cons.
  rewrite (bind_Ok _ _ _ _ _ (read_task_Some c e t Ht)).
  rewrite mret_run.
  rewrite IH by (intros c' Hc'; apply Hin; by right).
  rewrite fmap_cons. unfold hours_of at 2. rewrite Ht. reflexivity.
Qed.

Lemma subtask_effective_hours_body id e t :
  tasks e !! id = Some t →
  (children ← ask (λ e, Task.child_ids false e id);
   terms ← map_each children (λ c,
     child_task ← read_task c;
     mret (effective_hours child_task + subtask_effective_hours child_task)%float);
   update_task id (set_subtask_effective_hours (py_sum terms))) e =
  Ok (tt, with_tasks
            (<[id := set_subtask_effective_hours (children_hours e id) t]> (tasks e)) e).
Proof.
  intros Ht. erewrite bind_Ok by reflexivity.
  erewrite bind_Ok.
  2: { apply read_children. intros c (tc & Htc & _)%elem_of_child_ids. eauto. }
  apply update_task_Some, Ht.
Qed.

Lemma child_ids_congr e e' id :
  (∀ c, parent_id <$> tasks e' !! c = parent_id <$> tasks e !! c) →
  Task.child_ids false e' id = Task.child_ids false e id.
Proof.
  intros H. unfold Task.child_ids. apply search_tasks_congr. intros c.
  specialize (H c).
  destruct (tasks e' !! c) as [t' |], (tasks e !! c) as [t |];
    simpl in H; try discriminate.
  - injection H as H.
    split; intros (x & [= <-] & Hx); eexists; (split; [reflexivity |]).
    + by rewrite <- H.
    + by rewrite H.
  - split; intros (x & [=] & _).
Qed.

Lemma hierarchy_insert depth e u t t' :
  tasks e !! u = Some t → parent_id t' = parent_id t →
  hierarchy depth e → hierarchy depth (with_tasks (<[u := t']> (tasks e)) e).
Proof.
  intros Hu Hparent Hh c t0 p. simpl. intros Hc Hp.
  assert (is_Some (tasks e !! p) ∧ (depth p < depth c)%nat) as [Hex Hlt].
  { destruct (decide (u = c)) as [-> | Hne].
    - rewrite lookup_insert_eq in Hc. injection Hc as <-.
      apply (Hh c t p Hu). congruence.
    - rewrite lookup_insert_ne in Hc by assumption. by apply (Hh c t0 p). }
  split; [| exact Hlt].
  destruct (decide (u = p)) as [-> | Hne].
  - rewrite lookup_insert_eq. eauto.
  - by rewrite lookup_insert_ne.
Qed.

Lemma subtask_effective_hours_run self :
  ∀ e,
    (∀ id, id ∈ self → is_Some (tasks e !! id)) → unrelated e self →
    ∃ e', Task._compute_subtask_effective_hours self e = Ok (tt, e') ∧
          projects e' = projects e ∧ lines e' = lines e ∧
          accounts e' = accounts e ∧
          ∀ id, tasks e' !! id =
                if bool_decide (id ∈ self)
                then set_subtask_effective_hours (children_hours e id) <$> tasks e !! id
                else tasks e !! id.
Proof.
  unfold Task._compute_subtask_effective_hours.
  induction self as [| x xs IH]; intros e Hin Hun.
  - exists e. simpl. repeat split; auto.
  - destruct (Hin x) as [t Ht]; [left |].
    rewrite for_each_cons, (subtask_effective_hours_body x e t Ht).
    set (t' := set_subtask_effective_hours (children_hours e x) t).
    set (e1 := with_tasks (<[x := t']> (tasks e)) e).
    assert (∀ id, id ∈ x :: xs → children_hours e1 id = children_hours e id)
      as Hsame.
    { intros id Hid. apply (children_hours_insert e x t t' id Ht eq_refl).
      intros Hp. apply (Hun x id); [left | exact Hid |].
      apply elem_of_child_ids. eauto. }
    destruct (IH e1) as (e' & Hrun & Hp & Hl & Ha & Htasks).
    { intros id Hid. simpl. destruct (decide (x = id)) as [-> | Hne].
      - rewrite lookup_insert_eq. eauto.
      - rewrite lookup_insert_ne by assumption. apply Hin. by right. }
    { intros c id Hc Hid. unfold e1.
      rewrite (child_ids_insert e x t t' id Ht eq_refl).
      apply Hun; by right. }
    exists e'. repeat split; auto.
    intros id. rewrite Htasks.
    destruct (bool_decide (id ∈ xs)) eqn:Hxs.
    + apply bool_decide_eq_true_1 in Hxs.
      rewrite (bool_decide_eq_true_2 (id ∈ x :: xs)) by (by right).
      rewrite Hsame by (by right). simpl.
      destruct (decide (x = id)) as [-> | Hne].
      * rewrite lookup_insert_eq, Ht. reflexivity.
      * by rewrite lookup_insert_ne.
    + apply bool_decide_eq_false_1 in Hxs. simpl.
      destruct (decide (x = id)) as [-> | Hne].
      * rewrite lookup_insert_eq, Ht.
        rewrite bool_decide_eq_true_2 by left. reflexivity.
      * rewrite lookup_insert_ne by assumption.
        rewrite bool_decide_eq_false_2; [done |].
        intros [-> | ?]%elem_of_cons; contradiction.
Qed.

Lemma declared_dependency field :
  field = "effective_hours" ∨ field = "subtask_effective_hours" →
  bool_decide (("child_ids", field) ∈ Task.subtask_effective_hours_depends) = true.
Proof. intros [-> | ->]; reflexivity. Qed.

(** Recomputing upwards from [c] restores the rollup everywhere, when it
    can only be out of date at the parent of [c]. *)
Lemma recompute_restores depth fuel :
  ∀ field c e t,
    field = "effective_hours" ∨ field = "subtask_effective_hours" →
    hierarchy depth e → tasks e !! c = Some t → (depth c ≤ fuel)%nat →
    (∀ id t0, parent_id t ≠ Some id → tasks e !! id = Some t0 →
              subtask_effective_hours t0 = children_hours e id) →
    ∃ e', Task.recompute fuel field c e = Ok (tt, e') ∧
          rollup_consistent e' ∧
          ∀ id, effective_hours <$> tasks e' !! id =
                effective_hours <$> tasks e !! id.
Proof.
  induction fuel as [| fuel IH]; intros field c e t Hfield Hh Hc Hfuel Hrest.
  - exists e. split; [reflexivity |]. split; [| reflexivity].
    intros id t0 Hid. apply Hrest; [| exact Hid].
    intros Hp. destruct (Hh c t id Hc Hp) as [_ Hlt]. lia.
  - simpl. unfold Task.to_recompute. rewrite (declared_dependency field Hfield).
    erewrite bind_Ok.
    2: { erewrite bind_Ok by (apply read_task_Some, Hc). apply mret_run. }
    destruct (parent_id t) as [p |] eqn:Hparent.
    + destruct (Hh c t p Hc Hparent) as [[tp Hp] Hlt].
      set (tp' := set_subtask_effective_hours (children_hours e p) tp).
      set (e1 := with_tasks (<[p := tp']> (tasks e)) e).
      assert (parent_id tp ≠ Some p) as Hself.
      { intros Hpp. destruct (Hh p tp p Hp Hpp) as [_ ?]. lia. }
      destruct (IH "subtask_effective_hours" p e1 tp') as (e' & Hrun & Hcons & Heff).
      * by right.
      * by apply (hierarchy_insert depth e p tp tp').
      * simpl. apply lookup_insert_eq.
      * lia.
      * intros id t0 Hnot Hid. unfold e1.
        rewrite (children_hours_insert e p tp tp' id Hp eq_refl Hnot).
        simpl in Hid. destruct (decide (p = id)) as [<- | Hne].
        -- rewrite lookup_insert_eq in Hid. injection Hid as <-. reflexivity.
        -- rewrite lookup_insert_ne in Hid by assumption.
           apply Hrest; [congruence | exact Hid].
      * exists e'. split; [| split; [exact Hcons |]].
        -- erewrite bind_Ok.
           2: { unfold Task._compute_subtask_effective_hours.
                rewrite for_each_cons, (subtask_effective_hours_body p e tp Hp).
                reflexivity. }
           rewrite for_each_cons. cbv beta.
           change (with_tasks _ e) with e1. rewrite Hrun. reflexivity.
        -- intros id. rewrite Heff. simpl.
           destruct (decide (p = id)) as [<- | Hne].
           ++ rewrite lookup_insert_eq, Hp. reflexivity.
           ++ by rewrite lookup_insert_ne.
    + exists e. split; [reflexivity |]. split; [| reflexivity].
      intros id t0 Hid. apply Hrest; [discriminate | exact Hid].
Qed.

Lemma assign_effective_hours_consistent depth fuel c x e t :
  hierarchy depth e → rollup_consistent e →
  tasks e !! c = Some t → (depth c ≤ fuel)%nat →
  ∃ e', Task.assign_effective_hours fuel c x e = Ok (tt, e') ∧
        rollup_consistent e' ∧
        effective_hours <$> tasks e' !! c = Some x.
Proof.
  intros Hh Hcons Hc Hfuel. unfold Task.assign_effective_hours.
  set (t' := set_effective_hours x t).
  set (e0 := with_tasks (<[c := t']> (tasks e)) e).
  destruct (recompute_restores depth fuel "effective_hours" c e0 t')
    as (e' & Hrun & Hcons' & Heff).
  - by left.
  - by apply (hierarchy_insert depth e c t t').
  - simpl. apply lookup_insert_eq.
  - exact Hfuel.
  - intros id t0 Hnot Hid. unfold e0.
    rewrite (children_hours_insert e c t t' id Hc eq_refl Hnot).
    simpl in Hid. destruct (decide (c = id)) as [<- | Hne].
    + rewrite lookup_insert_eq in Hid. injection Hid as <-.
      apply (Hcons c t Hc).
    + rewrite lookup_insert_ne in Hid by assumption. by apply Hcons.
  - exists e'. split; [| split; [exact Hcons' |]].
    + erewrite bind_Ok by (apply update_task_Some, Hc). exact Hrun.
    + rewrite Heff. simpl. rewrite lookup_insert_eq. reflexivity.
Qed.

(** A database whose rollups are up to date stores, for every task, the
    recursive rollup of the effective hours of its descendants. *)
Lemma rollup_of_consistent height e :
  bounded_height height e → rollup_consistent e →
  ∀ fuel id t, tasks e !! id = Some t → (height id < fuel)%nat →
               subtask_effective_hours t = rollup fuel e id.
Proof.
  intros Hh Hcons fuel. induction fuel as [| fuel IH]; intros id t Hid Hfuel;
    [lia |].
  rewrite (Hcons id t Hid). unfold children_hours. simpl. f_equal.
  apply list_fmap_ext. intros i c Hc. apply list_elem_of_lookup_2 in Hc.
  apply elem_of_child_ids in Hc as (tc & Htc & Hp).
  unfold hours_of. rewrite Htc. f_equal. apply IH; [exact Htc |].
  specialize (Hh c tc id Htc Hp). lia.
Qed.

Lemma env_chain_tasks id t :
  tasks env_chain !! id = Some t →
  (id = 1 ∧ t = chain_task None true 1 5) ∨
  (id = 2 ∧ t = chain_task (Some 1) true 2 3) ∨
  (id = 3 ∧ t = chain_task (Some 2) false 3 0).
Proof.
  unfold env_chain. simpl. intros H.
  apply lookup_insert_Some in H as [[<- <-] | [_ H]]; [auto |].
  apply lookup_insert_Some in H as [[<- <-] | [_ H]]; [auto |].
  apply lookup_singleton_Some in H as [<- <-]. auto.
Qed.

Lemma env_chain_hierarchy : hierarchy chain_depth env_chain.
Proof.
  intros c t p Hc Hp.
  apply env_chain_tasks in Hc as [[-> ->] | [[-> ->] | [-> ->]]];
    simpl in Hp; try discriminate; injection Hp as <-;
    (split; [eexists; reflexivity | unfold chain_depth; lia]).
Qed.

Lemma env_chain_consistent : rollup_consistent env_chain.
Proof.
  intros id t Hid.
  apply env_chain_tasks in Hid as [[-> ->] | [[-> ->] | [-> ->]]];
    vm_compute; reflexivity.
Qed.

Example assign_effective_hours_chain :
  match Task.assign_effective_hours 3 3 4 env_chain with
  | Ok (_, e') =>
      (subtask_effective_hours <$> tasks e' !! 1,
       subtask_effective_hours <$> tasks e' !! 2)
  | Raise _ => (None, None)
  end = (Some 6%float, Some 4%float).
Proof. vm_compute. reflexivity. Qed.

(** C5. [child_ids], read with [active_test=False], holds every task whose
    parent is the task, archived or not; [_compute_subtask_effective_hours]
    stores in every task of the recordset the sum over these children of
    [effective_hours + subtask_effective_hours]; when the effective hours
    of a task change, the recomputation that the declared dependencies
    trigger leaves every task of the database with that sum again; and a
    database in which every task holds that sum holds, in every task, the
    recursive rollup of the effective hours of all its descendants. *)
Theorem subtask_effective_hours_rollup :
  (∀ e id c,
     c ∈ Task.child_ids false e id ↔
     ∃ t, tasks e !! c = Some t ∧ parent_id t = Some id) ∧
  (∀ self e,
     (∀ id, id ∈ self → is_Some (tasks e !! id)) → unrelated e self →
     ∃ e', Task._compute_subtask_effective_hours self e = Ok (tt, e') ∧
           ∀ id, id ∈ self →
             ∃ t', tasks e' !! id = Some t' ∧
                   subtask_effective_hours t' =
                     py_sum (hours_of e <$> Task.child_ids false e id) ∧
                   subtask_effective_hours t' = children_hours e' id) ∧
  (∀ depth fuel c x e,
     hierarchy depth e → rollup_consistent e →
     is_Some (tasks e !! c) → (depth c ≤ fuel)%nat →
     ∃ e', Task.assign_effective_hours fuel c x e = Ok (tt, e') ∧
           rollup_consistent e' ∧
           effective_hours <$> tasks e' !! c = Some x) ∧
  (∀ height e fuel id t,
     bounded_height height e → rollup_consistent e →
     tasks e !! id = Some t → (height id < fuel)%nat →
     subtask_effective_hours t = rollup fuel e id).
Proof.
  split; [exact elem_of_child_ids |]. split; [| split].
  - intros self e Hin Hun.
    destruct (subtask_effective_hours_run self e Hin Hun)
      as (e' & Hrun & _ & _ & _ & Htasks).
    exists e'. split; [exact Hrun |]. intros id Hid.
    destruct (Hin id Hid) as [t Ht].
    exists (set_subtask_effective_hours (children_hours e id) t).
    split; [| split; [reflexivity |]].
    + rewrite Htasks, Ht. rewrite bool_decide_eq_true_2 by assumption.
      reflexivity.
    + simpl. unfold children_hours.
      rewrite (child_ids_congr e e' id).
      * f_equal. apply list_fmap_ext. intros i c Hc.
        apply list_elem_of_lookup_2 in Hc.
        unfold hours_of. rewrite Htasks.
        rewrite bool_decide_eq_false_2; [reflexivity |].
        intros Hcs. by apply (Hun c id).
      * intros c. rewrite Htasks. case_bool_decide; [| reflexivity].
        destruct (tasks e !! c); reflexivity.
  - intros depth fuel c x e Hh Hcons [t Hc] Hfuel.
    by apply (assign_effective_hours_consistent depth fuel c x e t).
  - intros height e fuel id t Hh Hcons Hid Hfuel.
    by apply (rollup_of_consistent height e Hh Hcons fuel id t).
Qed.

Lemma env_chain_bounded_height : bounded_height chain_height env_chain.
Proof.
  intros c t p Hc Hp.
  apply env_chain_tasks in Hc as [[-> ->] | [[-> ->] | [-> ->]]];
    simpl in Hp; try discriminate; injection Hp as <-;
    unfold chain_height; lia.
Qed.

Lemma env_chain_unrelated : unrelated env_chain [2].
Proof.
  intros c id ->%list_elem_of_singleton ->%list_elem_of_singleton.
  intros (t & Ht & Hp)%elem_of_child_ids.
  apply env_chain_tasks in Ht as [[[=] _] | [[_ ->] | [[=] _]]]. discriminate.
Qed.

(** In the chain of three tasks: recomputing task 2 stores the hours of its
    archived child, 3 hours; logging 4 hours on the archived task 3 returns
    and leaves every rollup up to date; and the 5 hours stored on task 1
    are the recursive rollup of its descendants. *)
Lemma subtask_effective_hours_rollup_witness :
  (∃ e', Task._compute_subtask_effective_hours [2] env_chain = Ok (tt, e') ∧
         subtask_effective_hours <$> tasks e' !! 2 = Some 3%float) ∧
  (∃ e', Task.assign_effective_hours 3 3 4 env_chain = Ok (tt, e') ∧
         rollup_consistent e' ∧
         effective_hours <$> tasks e' !! 3 = Some 4%float) ∧
  rollup 3 env_chain 1 = 5%float.
Proof.
  split; [| split].
  - destruct (proj1 (proj2 subtask_effective_hours_rollup) [2] env_chain)
      as (e' & Hrun & Hrows).
    + intros id ->%list_elem_of_singleton. eexists. reflexivity.
    + exact env_chain_unrelated.
    + exists e'. split; [exact Hrun |].
      destruct (Hrows 2) as (t' & Ht' & Hsum & _); [left |].
      rewrite Ht'. simpl. rewrite Hsum. vm_compute. reflexivity.
  - apply (proj1 (proj2 (proj2 subtask_effective_hours_rollup)) chain_depth).
    + exact env_chain_hierarchy.
    + exact env_chain_consistent.
    + eexists. reflexivity.
    + unfold chain_depth. simpl. lia.
  - symmetry.
    apply (proj2 (proj2 (proj2 subtask_effective_hours_rollup)) chain_height
             env_chain 3%nat 1 (chain_task None true 1 5)).
    + exact env_chain_bounded_height.
    + exact env_chain_consistent.
    + reflexivity.
    + unfold chain_height. simpl. lia.
Defined.

(** ** Timesheet entries of tasks and projects *)

Lemma elem_of_search_lines e P l :
  l ∈ search_lines e P ↔ ∃ line, lines e !! l = Some line ∧ P line = true.
Proof.
  unfold search_lines. rewrite elem_of_elements, elem_of_dom. unfold is_Some.
  setoid_rewrite map_lookup_filter_Some. naive_solver.
Qed.

Lemma in_ids_true o self : in_ids o self = true ↔ ∃ id, o = Some id ∧ id ∈ self.
Proof.
  destruct o as [p |]; simpl.
  - rewrite bool_decide_eq_true. split.
    + intros Hp. eauto.
    + by intros (id & [= <-] & Hid).
  - split; [discriminate | intros (? & [=] & _)].
Qed.

Lemma elem_of_task_timesheet_ids e self l :
  l ∈ Task.timesheet_ids e self ↔
  ∃ line t, lines e !! l = Some line ∧ line_task_id line = Some t ∧ t ∈ self.
Proof.
  unfold Task.timesheet_ids. rewrite elem_of_search_lines.
  setoid_rewrite in_ids_true. split.
  - intros (line & H1 & t & H2 & H3). eauto 6.
  - intros (line & t & H1 & H2 & H3). eauto 6.
Qed.

Lemma elem_of_project_timesheet_ids e p l :
  l ∈ Project.timesheet_ids e p ↔
  ∃ line, lines e !! l = Some line ∧ line_project_id line = Some p.
Proof.
  unfold Project.timesheet_ids. rewrite elem_of_search_lines.
  setoid_rewrite in_ids_singleton. reflexivity.
Qed.

Lemma nonempty_true {A} (l : list A) : nonempty l = true ↔ ∃ x, x ∈ l.
Proof.
  destruct l as [| x l]; simpl.
  - split; [discriminate | intros [x Hx]; by apply not_elem_of_nil in Hx].
  - split; [intros _; exists x; left | reflexivity].
Qed.

Lemma nonempty_false {A} (l : list A) : nonempty l = false ↔ l = [].
Proof. destruct l; simpl; split; congruence. Qed.

Lemma search_lines_same e e' P :
  lines e' = lines e → search_lines e' P = search_lines e P.
Proof. intros H. unfold search_lines. rewrite H. reflexivity. Qed.

(** ** Writing on tasks *)

Lemma falsy_to_many2one v : truthy v = false → to_many2one v = None.
Proof.
  destruct v as [| [] | n | |]; simpl; try reflexivity; try discriminate.
  intros H. apply negb_false_iff in H. rewrite H. reflexivity.
Qed.

Lemma with_tasks_insert_id e id t :
  tasks e !! id = Some t → with_tasks (<[id := t]> (tasks e)) e = e.
Proof. intros H. rewrite insert_id by exact H. by destruct e. Qed.

Lemma task_super_write_run self values e :
  (∀ id, id ∈ self → is_Some (tasks e !! id)) →
  ∃ e', Task.super_write self values e = Ok (true, e') ∧
        projects e' = projects e ∧ lines e' = lines e ∧
        accounts e' = accounts e ∧
        ∀ id, tasks e' !! id =
              if bool_decide (id ∈ self) && dict_has values "project_id"
              then set_project_id (to_many2one (dict_get values "project_id"))
                     <$> tasks e !! id
              else tasks e !! id.
Proof.
  intros Hin. unfold Task.super_write.
  destruct (dict_has values "project_id") eqn:Hhas; unfold when.
  - destruct (for_each_task_update
                (set_project_id (to_many2one (dict_get values "project_id")))
                (λ id, update_task id
                         (set_project_id (to_many2one (dict_get values "project_id"))))
                (λ id e0 t, update_task_Some id _ e0 t) (λ _, eq_refl) self e Hin)
      as (e' & Hrun & Hp & Hl & Ha & Htasks).
    exists e'. rewrite (bind_Ok _ _ _ _ _ Hrun).
    repeat split; auto.
    intros id. rewrite Htasks, andb_true_r. reflexivity.
  - destruct (for_each_task_update (λ t, t) (λ _, mret tt)) with (self := self) (e := e)
      as (e' & Hrun & Hp & Hl & Ha & Htasks); auto.
    { intros id e0 t Ht. rewrite (with_tasks_insert_id e0 id t Ht). reflexivity. }
    exists e'. rewrite (bind_Ok _ _ _ _ _ Hrun).
    repeat split; auto.
    intros id. rewrite Htasks, andb_false_r.
    case_bool_decide; [| reflexivity]. by destruct (tasks e !! id).
Qed.

(** C3. A write that sets [project_id] to a falsy value on a recordset with
    a task that some timesheet entry references raises a [UserError], and
    the database keeps every project assignment; on tasks without timesheet
    entries the same write returns and leaves the tasks without project. *)
Theorem task_write_keeps_project :
  (∀ self values e t l line,
     t ∈ self → lines e !! l = Some line → line_task_id line = Some t →
     dict_has values "project_id" = true →
     truthy (dict_get values "project_id") = false →
     Task.write self values e =
       Raise (UserError "This task must be part of a project because there are some timesheets linked to it.") ∧
     commit (Task.write self values) e = e) ∧
  (∀ self values e,
     (∀ id, id ∈ self → is_Some (tasks e !! id)) →
     (∀ l line t, lines e !! l = Some line → line_task_id line = Some t → t ∉ self) →
     dict_has values "project_id" = true →
     truthy (dict_get values "project_id") = false →
     ∃ e', Task.write self values e = Ok (true, e') ∧
           lines e' = lines e ∧
           ∀ id, id ∈ self → project_id <$> tasks e' !! id = Some None).
Proof.
  split.
  - intros self values e t l line Ht Hl Htask Hhas Hfalsy.
    assert (Task.write self values e =
              Raise (UserError "This task must be part of a project because there are some timesheets linked to it.")) as Hraise.
    { unfold Task.write. rewrite Hhas, Hfalsy. simpl.
      erewrite bind_Ok.
      2: { erewrite bind_Ok by reflexivity. apply mret_run. }
      replace (nonempty (Task.timesheet_ids e self)) with true; [reflexivity |].
      symmetry. apply nonempty_true. exists l.
      apply elem_of_task_timesheet_ids. eauto. }
    split; [exact Hraise |]. unfold commit. rewrite Hraise. reflexivity.
  - intros self values e Hin Hnone Hhas Hfalsy.
    destruct (task_super_write_run self values e Hin)
      as (e' & Hrun & Hp & Hl & Ha & Htasks).
    exists e'. split; [| split; [exact Hl |]].
    + unfold Task.write. rewrite Hhas, Hfalsy. simpl.
      erewrite bind_Ok.
      2: { erewrite bind_Ok by reflexivity. apply mret_run. }
      replace (nonempty (Task.timesheet_ids e self)) with false.
      2: { symmetry. apply nonempty_false.
           destruct (Task.timesheet_ids e self) as [| l ls] eqn:Hts; [reflexivity |].
           assert (l ∈ Task.timesheet_ids e self) as Hl' by (rewrite Hts; left).
           apply elem_of_task_timesheet_ids in Hl' as (line & t & H1 & H2 & H3).
           destruct (Hnone l line t H1 H2 H3). }
      rewrite (bind_Ok _ _ _ _ _ Hrun).
      rewrite (falsy_to_many2one _ Hfalsy). reflexivity.
    + intros id Hid. rewrite Htasks, Hhas.
      rewrite bool_decide_eq_true_2 by assumption. simpl.
      rewrite (falsy_to_many2one _ Hfalsy).
      destruct (Hin id Hid) as [t ->]. reflexivity.
Qed.

(** On the database [env_timesheets], task 1 has a timesheet entry: taking
    the project away from tasks 1 and 2 raises and changes nothing; task 2
    alone has none and loses its project. *)
Lemma task_write_keeps_project_witness :
  commit (Task.write [1; 2] {["project_id" := VBool false]}) env_timesheets
    = env_timesheets ∧
  ∃ e', Task.write [2] {["project_id" := VBool false]} env_timesheets
          = Ok (true, e') ∧
        project_id <$> tasks e' !! 2 = Some None.
Proof.
  split.
  - apply (proj1 task_write_keeps_project [1; 2] _ env_timesheets 1 7
             {| line_project_id := Some 10; line_task_id := Some 1;
                unit_amount := 2 |});
      try reflexivity.
    left.
  - destruct (proj2 task_write_keeps_project [2]
                {["project_id" := VBool false]} env_timesheets)
      as (e' & Hrun & _ & Htasks); try reflexivity.
    + intros id ->%list_elem_of_singleton. eexists. reflexivity.
    + intros l line t Hl Ht ->%list_elem_of_singleton.
      unfold env_timesheets in Hl. simpl in Hl.
      apply lookup_singleton_Some in Hl as [<- <-]. discriminate.
    + exists e'. split; [exact Hrun |]. apply Htasks. left.
Defined.

Lemma line_write_run ids pid e :
  (∀ l, l ∈ ids → is_Some (lines e !! l)) → pid ≠ 0 →
  ∃ e', line_write ids {["project_id" := VInt pid]} e = Ok (tt, e') ∧
        projects e' = projects e ∧ tasks e' = tasks e ∧
        accounts e' = accounts e ∧
        ∀ l, lines e' !! l =
             if bool_decide (l ∈ ids)
             then set_line_project_id (Some pid) <$> lines e !! l
             else lines e !! l.
Proof.
  intros Hin Hpid. unfold line_write.
  apply (for_each_line_update (set_line_project_id (Some pid))); auto.
  intros l e0 line Hl.
  assert (dict_has {["project_id" := VInt pid]} "project_id" = true) as ->
    by reflexivity.
  assert (to_many2one (dict_get {["project_id" := VInt pid]} "project_id")
          = Some pid) as ->.
  { change (dict_get _ "project_id") with (VInt pid). simpl.
    by apply Z.eqb_neq in Hpid as ->. }
  unfold when, update_line. rewrite Hl. reflexivity.
Qed.

(** C10. A write of a new project on tasks of the database returns and
    assigns the project to the tasks; when the project allows timesheets,
    every timesheet entry of the tasks gets the new project and the other
    entries are unchanged; when it does not, no timesheet entry changes. *)
Theorem task_write_moves_timesheets self values e pid p :
  (∀ id, id ∈ self → is_Some (tasks e !! id)) →
  values !! "project_id" = Some (VInt pid) → pid ≠ 0 →
  projects e !! pid = Some p →
  ∃ e', Task.write self values e = Ok (true, e') ∧
        projects e' = projects e ∧
        (∀ id, id ∈ self → project_id <$> tasks e' !! id = Some (Some pid)) ∧
        if allow_timesheets p
        then ∀ l, lines e' !! l =
                  (λ line, if in_ids (line_task_id line) self
                           then set_line_project_id (Some pid) line
                           else line) <$> lines e !! l
        else lines e' = lines e.
Proof.
  intros Hin Hvals Hpid Hp.
  assert (dict_has values "project_id" = true) as Hhas.
  { unfold dict_has. rewrite Hvals. apply bool_decide_eq_true_2. eauto. }
  assert (dict_get values "project_id" = VInt pid) as Hget.
  { unfold dict_get. rewrite Hvals. reflexivity. }
  assert (Z.eqb pid 0 = false) as Hnz by (by apply Z.eqb_neq).
  destruct (task_super_write_run self values e Hin)
    as (e1 & Hrun & Hp1 & Hl1 & Ha1 & Htasks).
  assert (∀ id, id ∈ self → project_id <$> tasks e1 !! id = Some (Some pid))
    as Hassigned.
  { intros id Hid. rewrite Htasks, Hhas, Hget.
    rewrite bool_decide_eq_true_2 by assumption. simpl. rewrite Hnz.
    destruct (Hin id Hid) as [t ->]. reflexivity. }
  assert (read_project pid e1 = Ok (p, e1)) as Hread.
  { apply read_project_Some. by rewrite Hp1. }
  unfold Task.write. rewrite Hhas, Hget. simpl. rewrite Hnz. simpl.
  rewrite (bind_Ok _ _ _ _ _ (mret_run false e)).
  rewrite (bind_Ok _ _ _ _ _ Hrun).
  destruct (allow_timesheets p) eqn:Hallow.
  - destruct (line_write_run (Task.timesheet_ids e1 self) pid e1)
      as (e2 & Hrun2 & Hp2 & Ht2 & Ha2 & Hlines); [| exact Hpid |].
    { intros l (line & _ & Hl & _)%elem_of_task_timesheet_ids. eauto. }
    exists e2. split; [| split; [congruence | split]].
    + erewrite bind_Ok; [reflexivity |].
      erewrite bind_Ok.
      2: { erewrite bind_Ok by exact Hread. rewrite Hallow. apply mret_run. }
      unfold when. erewrite bind_Ok by reflexivity. exact Hrun2.
    + intros id Hid. rewrite Ht2. by apply Hassigned.
    + intros l. rewrite Hlines, Hl1.
      unfold Task.timesheet_ids. rewrite (search_lines_same e e1 _ Hl1).
      destruct (lines e !! l) as [line |] eqn:Hline; simpl.
      * destruct (in_ids (line_task_id line) self) eqn:Hids.
        -- rewrite bool_decide_eq_true_2; [reflexivity |].
           apply elem_of_search_lines. eauto.
        -- rewrite bool_decide_eq_false_2; [reflexivity |].
           intros (line' & Hl' & Hids')%elem_of_search_lines. congruence.
      * by case_bool_decide.
  - exists e1. split; [| split; [exact Hp1 | split; [exact Hassigned | exact Hl1]]].
    erewrite bind_Ok; [reflexivity |].
    erewrite bind_Ok.
    2: { erewrite bind_Ok by exact Hread. rewrite Hallow. apply mret_run. }
    reflexivity.
Qed.

(** On the database [env_timesheets], moving task 1 to project 12, which
    allows timesheets, moves its timesheet entry 7 to project 12. *)
Lemma task_write_moves_timesheets_witness :
  ∃ e', Task.write [1] {["project_id" := VInt 12]} env_timesheets = Ok (true, e') ∧
        line_project_id <$> lines e' !! 7 = Some (Some 12).
Proof.
  destruct (task_write_moves_timesheets [1] {["project_id" := VInt 12]}
              env_timesheets 12
              {| allow_timesheets := true; analytic_account_id := Some 101 |})
    as (e' & Hrun & _ & _ & Hlines); try reflexivity.
  - intros id ->%list_elem_of_singleton. eexists. reflexivity.
  - lia.
  - exists e'. split; [exact Hrun |]. simpl in Hlines. rewrite Hlines.
    reflexivity.
Defined.

(** ** Deleting projects and tasks *)

Lemma filtered_ask (f : env → Z → bool) self e :
  filtered self (λ p, ask (λ e, f e p)) e =
  Ok (filter (λ p, f e p = true) self, e).
Proof.
  induction self as [| x xs IH]; [reflexivity |].
  simpl. unfold bind, ask at 1. rewrite IH. unfold ret.
  rewrite filter_cons. destruct (f e x); reflexivity.
Qed.

Lemma project_has_timesheets_nonempty e p :
  nonempty (Project.timesheet_ids e p) = true ↔ project_has_timesheets e p.
Proof.
  rewrite nonempty_true. unfold project_has_timesheets.
  setoid_rewrite elem_of_project_timesheet_ids. reflexivity.
Qed.

Lemma elem_of_read_group_task_ids e self t :
  t ∈ Task.read_group_task_ids e self ↔ t ∈ self ∧ task_has_timesheets e t.
Proof.
  unfold Task.read_group_task_ids, task_has_timesheets.
  rewrite elem_of_elements, elem_of_list_to_set, list_elem_of_omap. split.
  - intros ([l line] & Hl%elem_of_map_to_list & Hf). simpl in Hf.
    destruct (in_ids (line_task_id line) self) eqn:Hids; [| discriminate].
    apply in_ids_true in Hids as (t' & Ht' & Hself).
    assert (t' = t) as -> by congruence. eauto.
  - intros (Hself & l & line & Hl & Ht). exists (l, line). split.
    + by apply elem_of_map_to_list.
    + simpl. rewrite Ht. simpl. by rewrite bool_decide_eq_true_2.
Qed.

(** C4. When a project, or a task, of the recordset is referenced by a
    timesheet entry, the before-delete hook raises a [RedirectWarning]
    whose [active_ids] are exactly the referenced records of the recordset,
    [unlink] raises it too and the database is unchanged; when none is, the
    hook returns and raises nothing. *)
Theorem unlink_blocked_by_timesheets (ref : string → Z) :
  (∀ self e p,
     p ∈ self → project_has_timesheets e p →
     ∃ msg ids,
       Project._unlink_except_contains_entries ref self e =
         Raise (RedirectWarning msg (ref "hr_timesheet.timesheet_action_project")
                  "See timesheet entries" ids) ∧
       (∀ q, q ∈ ids ↔ q ∈ self ∧ project_has_timesheets e q) ∧
       Project.unlink ref self e =
         Raise (RedirectWarning msg (ref "hr_timesheet.timesheet_action_project")
                  "See timesheet entries" ids) ∧
       commit (Project.unlink ref self) e = e) ∧
  (∀ self e,
     (∀ p, p ∈ self → ¬ project_has_timesheets e p) →
     Project._unlink_except_contains_entries ref self e = Ok (tt, e)) ∧
  (∀ self e t,
     t ∈ self → task_has_timesheets e t →
     ∃ msg ids,
       Task._unlink_except_contains_entries ref self e =
         Raise (RedirectWarning msg (ref "hr_timesheet.timesheet_action_task")
                  "See timesheet entries" ids) ∧
       (∀ u, u ∈ ids ↔ u ∈ self ∧ task_has_timesheets e u) ∧
       Task.unlink ref self e =
         Raise (RedirectWarning msg (ref "hr_timesheet.timesheet_action_task")
                  "See timesheet entries" ids) ∧
       commit (Task.unlink ref self) e = e) ∧
  (∀ self e,
     (∀ t, t ∈ self → ¬ task_has_timesheets e t) →
     Task._unlink_except_contains_entries ref self e = Ok (tt, e)).
Proof.
  split; [| split; [| split]].
  - intros self e p Hp Hhas.
    set (ids := filter (λ p, nonempty (Project.timesheet_ids e p) = true) self).
    assert (p ∈ ids) as Hin.
    { apply list_elem_of_filter. split; [| exact Hp].
      by apply project_has_timesheets_nonempty. }
    assert (nonempty ids = true) as Hne by (apply nonempty_true; eauto).
    eexists _, ids.
    assert (Project._unlink_except_contains_entries ref self e =
              Raise (RedirectWarning
                       (if (1 <? length ids)%nat
                        then "These projects have some timesheet entries referencing them. Before removing these projects, you have to remove these timesheet entries."
                        else "This project has some timesheet entries referencing it. Before removing this project, you have to remove these timesheet entries.")
                       (ref "hr_timesheet.timesheet_action_project")
                       "See timesheet entries" ids)) as Hraise.
    { unfold Project._unlink_except_contains_entries.
      erewrite bind_Ok
        by apply (filtered_ask (λ e p, nonempty (Project.timesheet_ids e p))).
      fold ids. rewrite Hne. reflexivity. }
    split; [exact Hraise |]. split; [| split].
    + intros q. unfold ids. rewrite list_elem_of_filter.
      rewrite project_has_timesheets_nonempty. tauto.
    + unfold Project.unlink. by apply bind_Raise.
    + unfold commit, Project.unlink.
      by rewrite (bind_Raise _ _ _ _ Hraise).
  - intros self e Hnone.
    unfold Project._unlink_except_contains_entries.
    erewrite bind_Ok
      by apply (filtered_ask (λ e p, nonempty (Project.timesheet_ids e p))).
    replace (filter _ self) with (@nil Z); [reflexivity |].
    symmetry. apply elem_of_nil_inv. intros q [Hq Hself]%list_elem_of_filter.
    apply (Hnone q Hself). by apply project_has_timesheets_nonempty.
  - intros self e t Ht Hhas.
    set (ids := Task.read_group_task_ids e self).
    assert (t ∈ ids) as Hin by (by apply elem_of_read_group_task_ids).
    assert (nonempty ids = true) as Hne by (apply nonempty_true; eauto).
    eexists _, ids.
    assert (Task._unlink_except_contains_entries ref self e =
              Raise (RedirectWarning
                       (if (1 <? length ids)%nat
                        then "These tasks have some timesheet entries referencing them. Before removing these tasks, you have to remove these timesheet entries."
                        else "This task has some timesheet entries referencing it. Before removing this task, you have to remove these timesheet entries.")
                       (ref "hr_timesheet.timesheet_action_task")
                       "See timesheet entries" ids)) as Hraise.
    { unfold Task._unlink_except_contains_entries.
      erewrite bind_Ok by reflexivity.
      fold ids. rewrite Hne. reflexivity. }
    split; [exact Hraise |]. split; [| split].
    + intros u. apply elem_of_read_group_task_ids.
    + unfold Task.unlink. by apply bind_Raise.
    + unfold commit, Task.unlink.
      by rewrite (bind_Raise _ _ _ _ Hraise).
  - intros self e Hnone.
    unfold Task._unlink_except_contains_entries.
    erewrite bind_Ok by reflexivity.
    replace (Task.read_group_task_ids e self) with (@nil Z); [reflexivity |].
    symmetry. apply elem_of_nil_inv.
    intros u [Hself Hu]%elem_of_read_group_task_ids.
    by apply (Hnone u Hself).
Qed.

Example unlink_tasks_with_timesheets :
  Task.unlink example_ref [1; 2] env_timesheets =
    Raise (RedirectWarning
             "This task has some timesheet entries referencing it. Before removing this task, you have to remove these timesheet entries."
             502 "See timesheet entries" [1]).
Proof. vm_compute. reflexivity. Qed.

Example unlink_projects_with_timesheets :
  Project.unlink example_ref [10; 11] env_timesheets =
    Raise (RedirectWarning
             "This project has some timesheet entries referencing it. Before removing this project, you have to remove these timesheet entries."
             501 "See timesheet entries" [10]).
Proof. vm_compute. reflexivity. Qed.

Example unlink_project_without_timesheets :
  (λ r, match r with
        | Ok (_, e') => Some (elements (dom (projects e')))
        | Raise _ => None
        end) (Project.unlink example_ref [11] env_timesheets)
  = Some (elements (dom (delete 11 (projects env_timesheets)))).
Proof. vm_compute. reflexivity. Qed.

(** On the database [env_timesheets], deleting tasks 1 and 2 is blocked by
    the timesheet entry of task 1 and deletes nothing, and the hook lets the
    deletion of task 2 alone through; likewise for projects 10 and 11. *)
Lemma unlink_blocked_by_timesheets_witness :
  (commit (Task.unlink example_ref [1; 2]) env_timesheets = env_timesheets ∧
   Task._unlink_except_contains_entries example_ref [2] env_timesheets
     = Ok (tt, env_timesheets)) ∧
  (commit (Project.unlink example_ref [10; 11]) env_timesheets = env_timesheets ∧
   Project._unlink_except_contains_entries example_ref [11] env_timesheets
     = Ok (tt, env_timesheets)).
Proof.
  split; split.
  - destruct (proj1 (proj2 (proj2 (unlink_blocked_by_timesheets example_ref)))
                [1; 2] env_timesheets 1) as (msg & ids & _ & _ & _ & Hcommit).
    + left.
    + exists 7. eexists. split; reflexivity.
    + exact Hcommit.
  - apply (proj2 (proj2 (proj2 (unlink_blocked_by_timesheets example_ref)))).
    intros t ->%list_elem_of_singleton (l & line & Hl & Ht).
    unfold env_timesheets in Hl. simpl in Hl.
    apply lookup_singleton_Some in Hl as [<- <-]. discriminate.
  - destruct (proj1 (unlink_blocked_by_timesheets example_ref)
                [10; 11] env_timesheets 10) as (msg & ids & _ & _ & _ & Hcommit).
    + left.
    + exists 7. eexists. split; reflexivity.
    + exact Hcommit.
  - apply (proj1 (proj2 (unlink_blocked_by_timesheets example_ref))).
    intros t ->%list_elem_of_singleton (l & line & Hl & Ht).
    unfold env_timesheets in Hl. simpl in Hl.
    apply lookup_singleton_Some in Hl as [<- <-]. discriminate.
Defined.

(** ** The constraint on projects *)

Lemma bind_inv_Ok {A B} (m : M A) (k : A → M B) e b e' :
  (m ≫= k) e = Ok (b, e') →
  ∃ a e1, m e = Ok (a, e1) ∧ k a e1 = Ok (b, e').
Proof.
  unfold mbind, M_bind, bind. destruct (m e) as [[a e1] | x]; [eauto | discriminate].
Qed.

Lemma for_each_preserves {A} (I : env → Prop) (Q : A → Prop) (body : A → M unit) :
  (∀ x e e', Q x → I e → body x e = Ok (tt, e') → I e') →
  ∀ xs, (∀ x, x ∈ xs → Q x) →
  ∀ e e', I e → for_each xs body e = Ok (tt, e') → I e'.
Proof.
  intros Hbody xs. induction xs as [| x xs IH]; intros HQ e e' HI Hrun.
  - injection Hrun as <-. exact HI.
  - rewrite for_each_cons in Hrun.
    destruct (body x e) as [[[] e1] | y] eqn:Hx; [| discriminate].
    apply (IH (λ y Hy, HQ y (list_elem_of_further _ _ _ Hy)) e1 e');
      [| exact Hrun].
    apply (Hbody x e e1); auto. apply HQ. left.
Qed.

Lemma update_project_inv id f e e' :
  update_project id f e = Ok (tt, e') →
  ∃ p, projects e !! id = Some p ∧
       e' = with_projects (<[id := f p]> (projects e)) e.
Proof.
  unfold update_project. destruct (projects e !! id) as [p |]; [| discriminate].
  intros [= <-]. eauto.
Qed.

Lemma new_id_bound (used : gset Z) x :
  x ∈ used → x < new_id used.
Proof.
  unfold new_id. rewrite <- elem_of_elements.
  induction (elements used) as [| y ys IH]; intros Hx.
  - by apply not_elem_of_nil in Hx.
  - simpl. apply elem_of_cons in Hx as [-> | Hx]; [lia |].
    specialize (IH Hx). lia.
Qed.

Lemma new_id_fresh (used : gset Z) : new_id used ∉ used.
Proof. intros H%new_id_bound. lia. Qed.

Lemma new_id_positive (used : gset Z) : 0 < new_id used.
Proof.
  unfold new_id. induction (elements used) as [| y ys IH]; simpl; lia.
Qed.

Lemma project_ok_dec p :
  allow_timesheets p && negb (bool_decide (is_Some (analytic_account_id p))) = false
  ↔ project_ok p.
Proof.
  unfold project_ok. destruct (allow_timesheets p); simpl.
  - rewrite negb_false_iff, bool_decide_eq_true. tauto.
  - split; [discriminate | reflexivity].
Qed.

Lemma check_body id e p :
  projects e !! id = Some p →
  (project ← read_project id;
   if allow_timesheets project
      && negb (bool_decide (is_Some (analytic_account_id project)))
   then raise (ValidationError "You cannot use timesheets without an analytic account.")
   else mret tt) e =
  if allow_timesheets p && negb (bool_decide (is_Some (analytic_account_id p)))
  then Raise (ValidationError no_account_message)
  else Ok (tt, e).
Proof.
  intros Hp. rewrite (bind_Ok _ _ _ _ _ (read_project_Some id e p Hp)).
  destruct (_ && _); reflexivity.
Qed.

(** The constraint passes on records that satisfy the invariant. *)
Lemma check_allow_timesheet_passes self e :
  (∀ id, id ∈ self → ∃ p, projects e !! id = Some p ∧ project_ok p) →
  Project._check_allow_timesheet self e = Ok (tt, e).
Proof.
  unfold Project._check_allow_timesheet.
  induction self as [| x xs IH]; intros Hok; [reflexivity |].
  destruct (Hok x) as (p & Hp & Hpok); [left |].
  rewrite for_each_cons, (check_body x e p Hp).
  apply project_ok_dec in Hpok as ->.
  apply IH. intros id Hid. apply Hok. by right.
Qed.

(** The constraint fails with a [ValidationError] on records of the
    database of which one breaks the invariant. *)
Lemma check_allow_timesheet_fails self e :
  (∀ id, id ∈ self → is_Some (projects e !! id)) →
  (∃ id p, id ∈ self ∧ projects e !! id = Some p ∧ ¬ project_ok p) →
  Project._check_allow_timesheet self e = Raise (ValidationError no_account_message).
Proof.
  unfold Project._check_allow_timesheet.
  induction self as [| x xs IH]; intros Hin (id & p & Hid & Hp & Hbad).
  - by apply not_elem_of_nil in Hid.
  - destruct (Hin x) as [px Hpx]; [left |].
    rewrite for_each_cons, (check_body x e px Hpx).
    destruct (_ && _) eqn:Hviol; [reflexivity |].
    apply project_ok_dec in Hviol.
    apply IH; [intros y Hy; apply Hin; by right |].
    apply elem_of_cons in Hid as [-> | Hid]; [congruence | eauto].
Qed.

(** On records of the database the constraint returns, leaving the
    database as it is, or raises a [ValidationError] because one of them
    breaks the invariant. *)
Lemma check_allow_timesheet_total self e :
  (∀ id, id ∈ self → is_Some (projects e !! id)) →
  (Project._check_allow_timesheet self e = Ok (tt, e) ∧
   ∀ id, id ∈ self → ∃ p, projects e !! id = Some p ∧ project_ok p) ∨
  (Project._check_allow_timesheet self e = Raise (ValidationError no_account_message) ∧
   ∃ id p, id ∈ self ∧ projects e !! id = Some p ∧ ¬ project_ok p).
Proof.
  unfold Project._check_allow_timesheet.
  induction self as [| x xs IH]; intros Hin.
  - left. split; [reflexivity |]. intros id Hid. by apply not_elem_of_nil in Hid.
  - destruct (Hin x) as [p Hp]; [left |].
    rewrite for_each_cons, (check_body x e p Hp).
    destruct (_ && _) eqn:Hviol.
    { right. split; [reflexivity |]. exists x, p. split; [left |].
      split; [exact Hp |]. intros Hok%project_ok_dec. congruence. }
    apply project_ok_dec in Hviol.
    destruct IH as [[Hrun Hok] | [Hraise (id & p' & Hid & Hp' & Hbad)]];
      [intros y Hy; apply Hin; by right | left | right].
    + split; [exact Hrun |].
      intros id [-> | Hid]%elem_of_cons; eauto.
    + split; [exact Hraise |]. exists id, p'. split; [by right | auto].
Qed.

(** When the constraint returns, the records satisfy the invariant and the
    database is as it was. *)
Lemma check_allow_timesheet_inv self e e' :
  Project._check_allow_timesheet self e = Ok (tt, e') →
  e' = e ∧ ∀ id, id ∈ self → ∃ p, projects e !! id = Some p ∧ project_ok p.
Proof.
  unfold Project._check_allow_timesheet.
  revert e'. induction self as [| x xs IH]; intros e' Hrun.
  - injection Hrun as <-. split; [reflexivity |].
    intros id Hid. by apply not_elem_of_nil in Hid.
  - rewrite for_each_cons in Hrun.
    destruct (projects e !! x) as [p |] eqn:Hp.
    + rewrite (check_body x e p Hp) in Hrun.
      destruct (_ && _) eqn:Hviol; [discriminate |].
      apply project_ok_dec in Hviol.
      destruct (IH e' Hrun) as [-> Hok]. split; [reflexivity |].
      intros id [-> | Hid]%elem_of_cons; eauto.
    + unfold mbind, M_bind, bind, read_project in Hrun. rewrite Hp in Hrun.
      discriminate.
Qed.

(** ** Provisioning analytic accounts *)

Lemma write_unfold self values :
  Project.write self values =
  (when (truthy (dict_get values "allow_timesheets")
         && negb (truthy (dict_get values "analytic_account_id")))
     (provision_accounts self);;
   Project.super_write self values).
Proof. reflexivity. Qed.

Lemma provision_body id e p :
  projects e !! id = Some p →
  (project ← read_project id;
   when (negb (bool_decide (is_Some (analytic_account_id project))))
     (Project._create_analytic_account [id])) e =
  Ok (tt, match analytic_account_id p with
          | Some _ => e
          | None =>
              with_projects
                (<[id := set_analytic_account_id (Some (new_id (accounts e))) p]>
                   (projects e))
                (with_accounts ({[new_id (accounts e)]} ∪ accounts e) e)
          end).
Proof.
  intros Hp. rewrite (bind_Ok _ _ _ _ _ (read_project_Some id e p Hp)).
  destruct (analytic_account_id p) as [a |] eqn:Ha.
  - rewrite bool_decide_eq_true_2 by eauto. reflexivity.
  - rewrite bool_decide_eq_false_2 by (intros [? [=]]).
    unfold when, negb, Project._create_analytic_account.
    rewrite for_each_cons.
    erewrite bind_Ok by reflexivity.
    erewrite bind_Ok by reflexivity.
    erewrite update_project_Some by exact Hp. reflexivity.
Qed.

Lemma provision_accounts_run self :
  ∀ e, (∀ id, id ∈ self → is_Some (projects e !! id)) →
       ∃ e1, provision_accounts self e = Ok (tt, e1) ∧ provisioned self e e1.
Proof.
  unfold provision_accounts.
  induction self as [| x xs IH]; intros e Hin.
  - exists e. split; [reflexivity |]. repeat split; auto.
    intros id. destruct (projects e !! id) as [p |]; [| reflexivity].
    exists p. split; [reflexivity |]. split; [reflexivity |].
    rewrite bool_decide_eq_false_2 by apply not_elem_of_nil. reflexivity.
  - destruct (Hin x) as [px Hpx]; [left |].
    rewrite for_each_cons, (provision_body x e px Hpx).
    set (ex := match analytic_account_id px with
               | Some _ => e
               | None =>
                   with_projects
                     (<[x := set_analytic_account_id (Some (new_id (accounts e))) px]>
                        (projects e))
                     (with_accounts ({[new_id (accounts e)]} ∪ accounts e) e)
               end).
    assert (tasks ex = tasks e ∧ lines ex = lines e ∧ accounts e ⊆ accounts ex)
      as (Htx & Hlx & Hax).
    { unfold ex. destruct (analytic_account_id px); simpl; repeat split; auto.
      set_solver. }
    assert (∀ id, id ≠ x → projects ex !! id = projects e !! id) as Hother.
    { intros id Hne. unfold ex. destruct (analytic_account_id px); simpl; auto.
      by rewrite lookup_insert_ne. }
    assert (∃ p', projects ex !! x = Some p' ∧
                  allow_timesheets p' = allow_timesheets px ∧
                  match analytic_account_id px with
                  | Some a => analytic_account_id p' = Some a
                  | None => ∃ a, analytic_account_id p' = Some a ∧
                                 (a ∉ accounts e) ∧ a ∈ accounts ex
                  end) as (p' & Hp' & Hallow' & Hacc').
    { unfold ex. destruct (analytic_account_id px) as [a |] eqn:Ha.
      - exists px. auto.
      - eexists. simpl. rewrite lookup_insert_eq. split; [reflexivity |].
        split; [reflexivity |]. exists (new_id (accounts e)).
        split; [reflexivity |]. split; [apply new_id_fresh | set_solver]. }
    destruct (IH ex) as (e1 & Hrun & Ht1 & Hl1 & Ha1 & Hrows).
    { intros id Hid. destruct (decide (id = x)) as [-> | Hne].
      - rewrite Hp'. eauto.
      - rewrite (Hother id Hne). apply Hin. by right. }
    exists e1. split; [exact Hrun |].
    split; [congruence |]. split; [congruence |].
    split; [set_solver |].
    intros id. specialize (Hrows id).
    destruct (decide (id = x)) as [-> | Hne].
    + rewrite Hpx. rewrite Hp' in Hrows.
      destruct Hrows as (p1 & Hp1 & Hallow1 & Hacc1).
      exists p1. split; [exact Hp1 |]. split; [congruence |].
      rewrite bool_decide_eq_true_2 by left.
      destruct (analytic_account_id px) as [a |].
      * case_bool_decide; [| by subst].
        by rewrite Hacc' in Hacc1.
      * destruct Hacc' as (a & Ha' & Hfresh & Hin').
        exists a. split; [| split; [exact Hfresh | by apply Ha1]].
        case_bool_decide; [| by subst].
        by rewrite Ha' in Hacc1.
    + rewrite (Hother id Hne) in Hrows.
      destruct (projects e !! id) as [p |]; [| exact Hrows].
      destruct Hrows as (p1 & Hp1 & Hallow1 & Hacc1).
      exists p1. split; [exact Hp1 |]. split; [exact Hallow1 |].
      destruct (bool_decide (id ∈ xs)) eqn:Hxs.
      * apply bool_decide_eq_true_1 in Hxs.
        rewrite bool_decide_eq_true_2 by (by right).
        destruct (analytic_account_id p) as [a |]; [exact Hacc1 |].
        destruct Hacc1 as (a & Ha' & Hfresh & Hin').
        exists a. split; [exact Ha' |]. split; [set_solver | exact Hin'].
      * apply bool_decide_eq_false_1 in Hxs.
        rewrite bool_decide_eq_false_2; [exact Hacc1 |].
        intros [-> | ?]%elem_of_cons; contradiction.
Qed.

(** ** Writing on projects *)

Lemma invariant_outside_nil e : invariant_outside [] e ↔ project_invariant e.
Proof.
  split.
  - intros H id p Hp. apply (H id p Hp), not_elem_of_nil.
  - intros H id p Hp _. by apply (H id p).
Qed.

Lemma project_invariant_outside ids e :
  project_invariant e → invariant_outside ids e.
Proof. intros H id p Hp _. by apply (H id p). Qed.

Lemma invariant_outside_closed ids e :
  invariant_outside ids e →
  (∀ id, id ∈ ids → ∃ p, projects e !! id = Some p ∧ project_ok p) →
  project_invariant e.
Proof.
  intros Hout Hin id p Hp. destruct (decide (id ∈ ids)) as [Hid | Hid].
  - destruct (Hin id Hid) as (p' & Hp' & Hok).
    rewrite Hp in Hp'. by injection Hp' as ->.
  - by apply (Hout id p).
Qed.

Lemma invariant_outside_insert ids e id p :
  invariant_outside ids e → id ∈ ids ∨ project_ok p →
  invariant_outside ids (with_projects (<[id := p]> (projects e)) e).
Proof.
  intros Hout Hcase id' p'. simpl. intros Hp' Hnot.
  destruct (decide (id = id')) as [<- | Hne].
  - rewrite lookup_insert_eq in Hp'. injection Hp' as <-.
    destruct Hcase; [contradiction | assumption].
  - rewrite lookup_insert_ne in Hp' by assumption. by apply (Hout id' p').
Qed.

Lemma provision_accounts_preserves self e e' :
  project_invariant e → provision_accounts self e = Ok (tt, e') →
  project_invariant e'.
Proof.
  unfold provision_accounts.
  apply (for_each_preserves project_invariant (λ _, True)); [| done].
  clear. intros x e e' _ Hinv Hrun.
  destruct (projects e !! x) as [p |] eqn:Hp.
  - rewrite (provision_body x e p Hp) in Hrun. injection Hrun as <-.
    destruct (analytic_account_id p); [exact Hinv |].
    apply invariant_outside_nil.
    apply (invariant_outside_insert []
             (with_accounts ({[new_id (accounts e)]} ∪ accounts e) e)).
    + intros id p' Hp' _. by apply (Hinv id p').
    + right. intros _. simpl. eauto.
  - rewrite read_project_None in Hrun by exact Hp. discriminate.
Qed.

Lemma store_values_untouched values p :
  writes_constrained values = false → Project.store_values values p = p.
Proof.
  unfold writes_constrained, Project.constrained_fields. intros H.
  apply bool_decide_eq_false_1 in H.
  unfold Project.store_values.
  destruct (dict_has values "allow_timesheets") eqn:H1.
  { destruct H. by left. }
  destruct (dict_has values "analytic_account_id") eqn:H2; [| reflexivity].
  destruct H. right. by left.
Qed.

Lemma untouched_no_account_key values :
  writes_constrained values = false →
  dict_has values "analytic_account_id" = false.
Proof.
  unfold writes_constrained, Project.constrained_fields. intros H.
  apply bool_decide_eq_false_1 in H.
  destruct (dict_has values "analytic_account_id") eqn:H2; [| reflexivity].
  destruct H. right. by left.
Qed.

Lemma filtered_read_inv (f : project_project → bool) self :
  ∀ e l e',
    filtered self (λ id, t ← read_project id; mret (f t)) e = Ok (l, e') → e' = e.
Proof.
  induction self as [| x xs IH]; intros e l e' Hrun.
  - by injection Hrun as _ <-.
  - simpl in Hrun. unfold bind at 1 in Hrun.
    destruct (projects e !! x) as [p |] eqn:Hp.
    + rewrite (bind_Ok _ _ _ _ _ (read_project_Some x e p Hp)) in Hrun.
      rewrite mret_run in Hrun. unfold bind at 1 in Hrun.
      destruct (filtered xs _ e) as [[l' e1] | y] eqn:Hrest; [| discriminate].
      apply IH in Hrest as ->. by injection Hrun as _ <-.
    + rewrite read_project_None in Hrun by exact Hp. discriminate.
Qed.

Lemma compute_allow_timesheets_preserves ids self e e' :
  invariant_outside ids e →
  Project._compute_allow_timesheets self e = Ok (tt, e') →
  invariant_outside ids e'.
Proof.
  intros Hout Hrun. unfold Project._compute_allow_timesheets in Hrun.
  apply bind_inv_Ok in Hrun as (l & e1 & Hfilter & Hloop).
  apply filtered_read_inv in Hfilter as ->.
  revert Hloop.
  apply (for_each_preserves (invariant_outside ids) (λ _, True)); [| done | done].
  clear. intros x e e' _ Hout (p & Hp & ->)%update_project_inv.
  apply invariant_outside_insert; [exact Hout |]. right. intros [=].
Qed.

Lemma super_write_preserves self values e r e' :
  project_invariant e → Project.super_write self values e = Ok (r, e') →
  project_invariant e'.
Proof.
  intros Hinv Hrun. unfold Project.super_write in Hrun.
  apply bind_inv_Ok in Hrun as ([] & e1 & Hstore & Hrun).
  apply bind_inv_Ok in Hrun as ([] & e2 & Hcompute & Hrun).
  apply bind_inv_Ok in Hrun as ([] & e3 & Hcheck & Hrun).
  injection Hrun as _ <-.
  fold (writes_constrained values) in Hcheck.
  destruct (writes_constrained values) eqn:Htouched.
  - assert (invariant_outside self e1) as H1.
    { revert Hstore.
      apply (for_each_preserves (invariant_outside self) (λ x, x ∈ self));
        [| done | by apply project_invariant_outside].
      intros x e0 e0' Hx Hout (p & Hp & ->)%update_project_inv.
      apply invariant_outside_insert; auto. }
    assert (invariant_outside self e2) as H2.
    { unfold when in Hcompute. destruct (_ && _).
      - by apply (compute_allow_timesheets_preserves self self e1 e2).
      - by injection Hcompute as <-. }
    simpl in Hcheck. apply check_allow_timesheet_inv in Hcheck as [-> Hok].
    by apply (invariant_outside_closed self e2).
  - rewrite (untouched_no_account_key values Htouched) in Hcompute.
    simpl in Hcompute, Hcheck.
    injection Hcompute as <-. injection Hcheck as <-.
    revert Hstore.
    apply (for_each_preserves project_invariant (λ _, True)); [| done | done].
    intros x e0 e0' _ Hinv0 (p & Hp & ->)%update_project_inv.
    rewrite (store_values_untouched values p Htouched).
    rewrite insert_id by exact Hp. by destruct e0.
Qed.

Lemma write_preserves self values e r e' :
  project_invariant e → Project.write self values e = Ok (r, e') →
  project_invariant e'.
Proof.
  intros Hinv Hrun. rewrite write_unfold in Hrun.
  apply bind_inv_Ok in Hrun as ([] & e1 & Hprov & Hrun).
  apply (super_write_preserves self values e1 r e'); [| exact Hrun].
  unfold when in Hprov. destruct (_ && _).
  - by apply (provision_accounts_preserves self e e1).
  - by injection Hprov as <-.
Qed.

Lemma filtered_read_run (f : project_project → bool) self e :
  (∀ id, id ∈ self → is_Some (projects e !! id)) →
  filtered self (λ id, t ← read_project id; mret (f t)) e =
  Ok (filter (λ id, f <$> projects e !! id = Some true) self, e).
Proof.
  induction self as [| x xs IH]; intros Hin; [reflexivity |].
  destruct (Hin x) as [p Hp]; [left |].
  simpl. unfold bind at 1.
  rewrite (bind_Ok _ _ _ _ _ (read_project_Some x e p Hp)), mret_run.
  unfold bind at 1. rewrite IH by (intros id Hid; apply Hin; by right).
  unfold ret. rewrite filter_cons, Hp. simpl.
  destruct (f p); reflexivity.
Qed.

Lemma compute_allow_timesheets_run self e :
  (∀ id, id ∈ self → is_Some (projects e !! id)) →
  ∃ e', Project._compute_allow_timesheets self e = Ok (tt, e') ∧
        tasks e' = tasks e ∧ lines e' = lines e ∧ accounts e' = accounts e ∧
        ∀ id, projects e' !! id =
              if bool_decide (id ∈ self)
              then (λ p, if bool_decide (is_Some (analytic_account_id p))
                         then p else set_allow_timesheets false p)
                     <$> projects e !! id
              else projects e !! id.
Proof.
  intros Hin. unfold Project._compute_allow_timesheets.
  rewrite (bind_Ok _ _ _ _ _ (filtered_read_run _ self e Hin)).
  set (l := filter _ self).
  destruct (for_each_project_update (set_allow_timesheets false)
              (λ id, update_project id (set_allow_timesheets false))
              (λ id e0 p, update_project_Some id _ e0 p) (λ _, eq_refl) l e)
    as (e' & Hrun & Ht & Hl & Ha & Hrows).
  { intros id [_ Hid]%list_elem_of_filter. by apply Hin. }
  exists e'. repeat split; auto.
  intros id. rewrite Hrows. unfold l.
  destruct (projects e !! id) as [p |] eqn:Hp; simpl.
  - destruct (bool_decide (id ∈ self)) eqn:Hself.
    + apply bool_decide_eq_true_1 in Hself.
      destruct (bool_decide (is_Some (analytic_account_id p))) eqn:Hacc.
      * rewrite bool_decide_eq_false_2; [reflexivity |].
        intros [Hf _]%list_elem_of_filter. rewrite Hp in Hf. simpl in Hf.
        rewrite Hacc in Hf. discriminate.
      * rewrite bool_decide_eq_true_2; [reflexivity |].
        apply list_elem_of_filter. split; [| exact Hself].
        rewrite Hp. simpl. by rewrite Hacc.
    + apply bool_decide_eq_false_1 in Hself.
      rewrite bool_decide_eq_false_2; [reflexivity |].
      by intros [_ ?]%list_elem_of_filter.
  - by repeat case_bool_decide.
Qed.

Lemma store_values_idem values p :
  Project.store_values values (Project.store_values values p) =
  Project.store_values values p.
Proof.
  unfold Project.store_values.
  destruct (dict_has values "allow_timesheets"),
    (dict_has values "analytic_account_id"); reflexivity.
Qed.

(** On projects of the database, the record manager's [write] either
    returns, leaving the settled rows, which satisfy the invariant when a
    constrained field was written, or raises a [ValidationError]. *)
Lemma super_write_total self values e :
  (∀ id, id ∈ self → is_Some (projects e !! id)) →
  (∃ e', Project.super_write self values e = Ok (true, e') ∧
         tasks e' = tasks e ∧ lines e' = lines e ∧ accounts e' = accounts e ∧
         (∀ id, projects e' !! id =
                if bool_decide (id ∈ self) then settled values <$> projects e !! id
                else projects e !! id) ∧
         (writes_constrained values = true →
          ∀ id, id ∈ self → ∃ p, projects e' !! id = Some p ∧ project_ok p)) ∨
  (Project.super_write self values e = Raise (ValidationError no_account_message) ∧
   ∃ id p, id ∈ self ∧ projects e !! id = Some p ∧ ¬ project_ok (settled values p)).
Proof.
  intros Hin. unfold Project.super_write.
  destruct (for_each_project_update (Project.store_values values)
              (λ id, update_project id (Project.store_values values))
              (λ id e0 p, update_project_Some id _ e0 p)
              (store_values_idem values) self e Hin)
    as (e1 & Hrun1 & Ht1 & Hl1 & Ha1 & Hrows1).
  rewrite (bind_Ok _ _ _ _ _ Hrun1).
  assert (∀ id, id ∈ self → is_Some (projects e1 !! id)) as Hin1.
  { intros id Hid. rewrite Hrows1. rewrite bool_decide_eq_true_2 by assumption.
    destruct (Hin id Hid) as [p ->]. simpl. eauto. }
  assert (∃ e2,
    when (dict_has values "analytic_account_id"
          && negb (dict_has values "allow_timesheets"))
      (Project._compute_allow_timesheets self) e1 = Ok (tt, e2) ∧
    tasks e2 = tasks e ∧ lines e2 = lines e ∧ accounts e2 = accounts e ∧
    ∀ id, projects e2 !! id =
          if bool_decide (id ∈ self) then settled values <$> projects e !! id
          else projects e !! id) as (e2 & Hrun2 & Ht2 & Hl2 & Ha2 & Hrows2).
  { unfold when, settled.
    destruct (dict_has values "analytic_account_id"
              && negb (dict_has values "allow_timesheets")) eqn:Hc.
    - destruct (compute_allow_timesheets_run self e1 Hin1)
        as (e2 & Hrun2 & Ht2 & Hl2 & Ha2 & Hrows2).
      exists e2. split; [exact Hrun2 |].
      split; [congruence |]. split; [congruence |]. split; [congruence |].
      intros id. rewrite Hrows2, Hrows1.
      case_bool_decide; [| reflexivity].
      destruct (projects e !! id) as [p |]; [| reflexivity]. simpl.
      by destruct (bool_decide (is_Some (analytic_account_id
                                          (Project.store_values values p)))).
    - exists e1. split; [reflexivity |]. repeat split; auto. }
  rewrite (bind_Ok _ _ _ _ _ Hrun2).
  fold (writes_constrained values).
  assert (∀ id, id ∈ self → is_Some (projects e2 !! id)) as Hin2.
  { intros id Hid. rewrite Hrows2. rewrite bool_decide_eq_true_2 by assumption.
    destruct (Hin id Hid) as [p ->]. simpl. eauto. }
  destruct (writes_constrained values); unfold when.
  - destruct (check_allow_timesheet_total self e2 Hin2)
      as [[Hrun3 Hok] | [Hraise (id & p2 & Hid & Hp2 & Hbad)]].
    + left. exists e2. rewrite (bind_Ok _ _ _ _ _ Hrun3). repeat split; auto.
    + right. split; [by apply bind_Raise |].
      rewrite Hrows2 in Hp2. rewrite bool_decide_eq_true_2 in Hp2 by assumption.
      destruct (projects e !! id) as [p |] eqn:Hp; [| discriminate].
      injection Hp2 as <-. eauto.
  - left. exists e2. repeat split; auto. discriminate.
Qed.

(** ** Creating projects *)

Lemma create_unfold context vals_list :
  Project.create context vals_list =
  (vals_list ← map_each vals_list (complete_vals context);
   Project.super_create context vals_list).
Proof. reflexivity. Qed.

Lemma complete_vals_run context vals e :
  complete_vals context vals e =
  if wants_account context vals
  then Ok (<["analytic_account_id" := VInt (new_id (accounts e))]> vals,
           with_accounts ({[new_id (accounts e)]} ∪ accounts e) e)
  else Ok (vals, e).
Proof. unfold complete_vals. destruct (wants_account context vals); reflexivity. Qed.

Lemma complete_all_run context vals_list :
  ∀ e, ∃ vals_list' e1,
    map_each vals_list (complete_vals context) e = Ok (vals_list', e1) ∧
    projects e1 = projects e ∧ tasks e1 = tasks e ∧ lines e1 = lines e ∧
    accounts e ⊆ accounts e1 ∧
    Forall2 (completed context e e1) vals_list vals_list'.
Proof.
  induction vals_list as [| vals rest IH]; intros e.
  - exists [], e. split; [reflexivity |]. repeat split; auto.
  - rewrite map_each_cons, complete_vals_run.
    destruct (wants_account context vals) eqn:Hwants.
    + set (a := new_id (accounts e)).
      destruct (IH (with_accounts ({[a]} ∪ accounts e) e))
        as (rest' & e1 & Hrun & Hp & Ht & Hl & Ha & Hall).
      simpl in Hp, Ht, Hl, Ha.
      eexists _, e1. rewrite Hrun. split; [reflexivity |].
      repeat split; auto; [set_solver |].
      constructor.
      * unfold completed. rewrite Hwants. exists a.
        split; [apply new_id_positive |].
        split; [apply new_id_fresh |]. split; [| reflexivity].
        apply Ha. set_solver.
      * eapply Forall2_impl; [exact Hall |].
        intros v v'. unfold completed. destruct (wants_account context v); auto.
        intros (a' & Hpos & Hfresh & Hin & ->). exists a'.
        repeat split; auto. simpl in Hfresh. set_solver.
    + destruct (IH e) as (rest' & e1 & Hrun & Hp & Ht & Hl & Ha & Hall).
      eexists _, e1. rewrite Hrun. split; [reflexivity |].
      repeat split; auto.
      constructor; [| exact Hall].
      unfold completed. by rewrite Hwants.
Qed.

Lemma create_row_run context vals e :
  (let vals := vals ∪ Project.default_get context Project.columns in
   id ← ask (λ e, new_id (dom (projects e)));
   modify (λ e, with_projects
                  (<[id := {| allow_timesheets := truthy (dict_get vals "allow_timesheets");
                              analytic_account_id :=
                                to_many2one (dict_get vals "analytic_account_id") |}]>
                     (projects e)) e);;
   mret id) e =
  Ok (new_id (dom (projects e)),
      with_projects (<[new_id (dom (projects e)) := new_row context vals]> (projects e)) e).
Proof. reflexivity. Qed.

(** The rows that [create] stores are new; the rows that were there are
    unchanged. *)
Lemma create_rows_run context vals_list :
  ∀ e, ∃ ids e2,
    map_each vals_list (λ vals,
      let vals := vals ∪ Project.default_get context Project.columns in
      id ← ask (λ e, new_id (dom (projects e)));
      modify (λ e, with_projects
                     (<[id := {| allow_timesheets := truthy (dict_get vals "allow_timesheets");
                                 analytic_account_id :=
                                   to_many2one (dict_get vals "analytic_account_id") |}]>
                        (projects e)) e);;
      mret id) e = Ok (ids, e2) ∧
    tasks e2 = tasks e ∧ lines e2 = lines e ∧ accounts e2 = accounts e ∧
    (∀ id, id ∈ ids → projects e !! id = None) ∧
    (∀ id, id ∉ ids → projects e2 !! id = projects e !! id) ∧
    (∀ id, id ∈ ids → is_Some (projects e2 !! id)) ∧
    (∀ vals, vals_list = [vals] →
       ids = [new_id (dom (projects e))] ∧
       projects e2 !! new_id (dom (projects e)) = Some (new_row context vals)).
Proof.
  induction vals_list as [| vals rest IH]; intros e.
  - exists [], e. repeat split; auto; try discriminate.
    + intros id Hid. by apply not_elem_of_nil in Hid.
    + intros id Hid. by apply not_elem_of_nil in Hid.
  - rewrite map_each_cons, create_row_run.
    set (id0 := new_id (dom (projects e))).
    set (e1 := with_projects (<[id0 := new_row context vals]> (projects e)) e).
    assert (projects e !! id0 = None) as Hfresh.
    { apply not_elem_of_dom, new_id_fresh. }
    destruct (IH e1) as (ids & e2 & Hrun & Ht & Hl & Ha & Hnew & Hold & Hex & Hone).
    exists (id0 :: ids), e2. rewrite Hrun. split; [reflexivity |].
    split; [exact Ht |]. split; [exact Hl |]. split; [exact Ha |].
    split; [| split; [| split]].
    + intros id [-> | Hid]%elem_of_cons; [exact Hfresh |].
      specialize (Hnew id Hid). simpl in Hnew.
      apply lookup_insert_None in Hnew as [? _]. assumption.
    + intros id Hid. apply not_elem_of_cons in Hid as [Hne Hid].
      rewrite (Hold id Hid). simpl. by rewrite lookup_insert_ne.
    + intros id [-> | Hid]%elem_of_cons; [| by apply Hex].
      destruct (decide (id0 ∈ ids)) as [Hin | Hnot]; [by apply Hex |].
      rewrite (Hold id0 Hnot). simpl. rewrite lookup_insert_eq. eauto.
    + intros v [= -> ->].
      simpl in Hrun. injection Hrun as <- <-.
      split; [reflexivity |]. simpl. apply lookup_insert_eq.
Qed.

Lemma super_create_inv context vals_list e ids e' :
  Project.super_create context vals_list e = Ok (ids, e') →
  tasks e' = tasks e ∧ lines e' = lines e ∧ accounts e' = accounts e ∧
  (∀ id, id ∉ ids → projects e' !! id = projects e !! id) ∧
  (∀ id, id ∈ ids → projects e !! id = None) ∧
  (∀ id, id ∈ ids → ∃ p, projects e' !! id = Some p ∧ project_ok p).
Proof.
  unfold Project.super_create. intros Hrun.
  destruct (create_rows_run context vals_list e)
    as (ids0 & e2 & Hrows & Ht & Hl & Ha & Hnew & Hold & _).
  rewrite (bind_Ok _ _ _ _ _ Hrows) in Hrun.
  apply bind_inv_Ok in Hrun as ([] & e3 & Hcheck & Hret).
  apply check_allow_timesheet_inv in Hcheck as [-> Hok].
  injection Hret as <- <-. auto 10.
Qed.

Lemma create_preserves context vals_list e ids e' :
  project_invariant e → Project.create context vals_list e = Ok (ids, e') →
  project_invariant e'.
Proof.
  intros Hinv Hrun. rewrite create_unfold in Hrun.
  destruct (complete_all_run context vals_list e)
    as (vals_list' & e1 & Hstage & Hp & _).
  rewrite (bind_Ok _ _ _ _ _ Hstage) in Hrun.
  apply super_create_inv in Hrun as (_ & _ & _ & Hold & _ & Hok).
  apply (invariant_outside_closed ids); [| exact Hok].
  intros id p Hid Hnot. rewrite (Hold id Hnot), Hp in Hid.
  by apply (Hinv id p).
Qed.

Lemma provisioned_exists self e e1 :
  provisioned self e e1 →
  (∀ id, id ∈ self → is_Some (projects e !! id)) →
  ∀ id, id ∈ self → is_Some (projects e1 !! id).
Proof.
  intros (_ & _ & _ & Hrows) Hin id Hid. specialize (Hrows id).
  destruct (Hin id Hid) as [p Hp]. rewrite Hp in Hrows.
  destruct Hrows as (p1 & -> & _). eauto.
Qed.

Lemma write_total self values e :
  (∀ id, id ∈ self → is_Some (projects e !! id)) →
  (∃ e', Project.write self values e = Ok (true, e') ∧
         (writes_constrained values = true →
          ∀ id, id ∈ self → ∃ p, projects e' !! id = Some p ∧ project_ok p)) ∨
  Project.write self values e = Raise (ValidationError no_account_message).
Proof.
  intros Hin. rewrite write_unfold.
  assert (∃ e1, when (truthy (dict_get values "allow_timesheets")
                      && negb (truthy (dict_get values "analytic_account_id")))
                  (provision_accounts self) e = Ok (tt, e1) ∧
                ∀ id, id ∈ self → is_Some (projects e1 !! id))
    as (e1 & Hprov & Hin1).
  { unfold when. destruct (_ && _).
    - destruct (provision_accounts_run self e Hin) as (e1 & Hrun & Hrel).
      exists e1. split; [exact Hrun |]. by apply (provisioned_exists self e e1).
    - exists e. split; [reflexivity | exact Hin]. }
  rewrite (bind_Ok _ _ _ _ _ Hprov).
  destruct (super_write_total self values e1 Hin1)
    as [(e' & Hrun & _ & _ & _ & _ & Hok) | [Hraise _]]; [left | right]; eauto.
Qed.

Lemma create_total context vals_list e :
  (∃ ids e', Project.create context vals_list e = Ok (ids, e') ∧
             ∀ id, id ∈ ids → ∃ p, projects e' !! id = Some p ∧ project_ok p) ∨
  Project.create context vals_list e = Raise (ValidationError no_account_message).
Proof.
  rewrite create_unfold.
  destruct (complete_all_run context vals_list e) as (vals_list' & e1 & Hstage & _).
  rewrite (bind_Ok _ _ _ _ _ Hstage). unfold Project.super_create.
  destruct (create_rows_run context vals_list' e1)
    as (ids & e2 & Hrows & _ & _ & _ & _ & _ & Hex & _).
  rewrite (bind_Ok _ _ _ _ _ Hrows).
  destruct (check_allow_timesheet_total ids e2 Hex) as [[Hrun Hok] | [Hraise _]].
  - left. exists ids, e2. rewrite (bind_Ok _ _ _ _ _ Hrun). split; [reflexivity | exact Hok].
  - right. by apply bind_Raise.
Qed.

(** C1. The constraint raises a [ValidationError] on a recordset with a
    project that allows timesheets without analytic account, and passes
    otherwise. A write of a constrained field on projects of the database,
    and a create, either return and leave the records with the invariant,
    or raise a [ValidationError]. Whatever they do, the database that a
    write or a create leaves behind satisfies the invariant when the
    database before did. *)
Theorem allow_timesheets_requires_account :
  (∀ self e,
     (∀ id, id ∈ self → is_Some (projects e !! id)) →
     (∃ id p, id ∈ self ∧ projects e !! id = Some p ∧
              allow_timesheets p = true ∧ analytic_account_id p = None) →
     Project._check_allow_timesheet self e =
       Raise (ValidationError "You cannot use timesheets without an analytic account.")) ∧
  (∀ self e,
     (∀ id, id ∈ self → ∃ p, projects e !! id = Some p ∧ project_ok p) →
     Project._check_allow_timesheet self e = Ok (tt, e)) ∧
  (∀ self values e,
     (∀ id, id ∈ self → is_Some (projects e !! id)) →
     writes_constrained values = true →
     (∃ e', Project.write self values e = Ok (true, e') ∧
            ∀ id, id ∈ self → ∃ p, projects e' !! id = Some p ∧ project_ok p) ∨
     Project.write self values e =
       Raise (ValidationError "You cannot use timesheets without an analytic account.")) ∧
  (∀ context vals_list e,
     (∃ ids e', Project.create context vals_list e = Ok (ids, e') ∧
                ∀ id, id ∈ ids → ∃ p, projects e' !! id = Some p ∧ project_ok p) ∨
     Project.create context vals_list e =
       Raise (ValidationError "You cannot use timesheets without an analytic account.")) ∧
  (∀ self values e,
     project_invariant e → project_invariant (commit (Project.write self values) e)) ∧
  (∀ context vals_list e,
     project_invariant e →
     project_invariant (commit (Project.create context vals_list) e)).
Proof.
  split; [| split; [| split; [| split; [| split]]]].
  - intros self e Hin (id & p & Hid & Hp & Hallow & Hnone).
    apply check_allow_timesheet_fails; [exact Hin |].
    exists id, p. repeat split; auto.
    intros Hok. destruct (Hok Hallow) as [a Ha]. congruence.
  - exact check_allow_timesheet_passes.
  - intros self values e Hin Htouched.
    destruct (write_total self values e Hin) as [(e' & Hrun & Hok) | Hraise];
      [left | right]; eauto.
  - exact create_total.
  - intros self values e Hinv. unfold commit.
    destruct (Project.write self values e) as [[r e'] |] eqn:Hrun; [| exact Hinv].
    by apply (write_preserves self values e r e').
  - intros context vals_list e Hinv. unfold commit.
    destruct (Project.create context vals_list e) as [[ids e'] |] eqn:Hrun;
      [| exact Hinv].
    by apply (create_preserves context vals_list e ids e').
Qed.

Lemma env_timesheets_invariant : project_invariant env_timesheets.
Proof.
  intros id p Hp. unfold env_timesheets in Hp. simpl in Hp.
  apply lookup_insert_Some in Hp as [[_ <-] | [_ Hp]]; [intros _; simpl; eauto |].
  apply lookup_insert_Some in Hp as [[_ <-] | [_ Hp]]; [intros [=] |].
  apply lookup_singleton_Some in Hp as [_ <-]. intros _. simpl. eauto.
Qed.

Example write_without_account_raises :
  Project.write [10] values_without_account env_timesheets =
    Raise (ValidationError "You cannot use timesheets without an analytic account.").
Proof. vm_compute. reflexivity. Qed.

Example write_drop_account_disallows :
  match Project.write [10] {["analytic_account_id" := VBool false]} env_timesheets with
  | Ok (_, e') => projects e' !! 10
  | Raise _ => None
  end = Some {| allow_timesheets := false; analytic_account_id := None |}.
Proof. vm_compute. reflexivity. Qed.

(** On the database [env_timesheets]: the constraint passes on project 10;
    on a database where project 11 allows timesheets it raises; a write
    that allows timesheets on project 10 and takes its analytic account
    away returns with the invariant or raises a [ValidationError], and
    leaves a database that satisfies the invariant. *)
Lemma allow_timesheets_requires_account_witness :
  Project._check_allow_timesheet [10] env_timesheets = Ok (tt, env_timesheets) ∧
  Project._check_allow_timesheet [10; 11]
    (with_projects (<[11 := {| allow_timesheets := true;
                               analytic_account_id := None |}]>
                      (projects env_timesheets)) env_timesheets)
    = Raise (ValidationError "You cannot use timesheets without an analytic account.") ∧
  ((∃ e', Project.write [10] values_without_account env_timesheets = Ok (true, e') ∧
          ∀ id, id ∈ [10] → ∃ p, projects e' !! id = Some p ∧ project_ok p) ∨
   Project.write [10] values_without_account env_timesheets =
     Raise (ValidationError "You cannot use timesheets without an analytic account.")) ∧
  project_invariant
    (commit (Project.write [10] values_without_account) env_timesheets).
Proof.
  split; [| split; [| split]].
  - apply (proj1 (proj2 allow_timesheets_requires_account)).
    intros id ->%list_elem_of_singleton. eexists. split; [reflexivity |].
    intros _. simpl. eauto.
  - apply (proj1 allow_timesheets_requires_account).
    + intros id [-> | ->%list_elem_of_singleton]%elem_of_cons;
        eexists; reflexivity.
    + exists 11. eexists. split; [right; left |]. split; [reflexivity |].
      split; reflexivity.
  - apply (proj1 (proj2 (proj2 allow_timesheets_requires_account))).
    + intros id ->%list_elem_of_singleton. eexists. reflexivity.
    + reflexivity.
  - apply (proj1 (proj2 (proj2 (proj2 (proj2 allow_timesheets_requires_account))))).
    exact env_timesheets_invariant.
Defined.

(** ** Automatic analytic accounts *)

Lemma dict_get_union (vals defaults : gmap string value) k :
  dict_get (vals ∪ defaults) k = dict_get_default vals k (dict_get defaults k).
Proof.
  unfold dict_get, dict_get_default. rewrite lookup_union.
  destruct (vals !! k), (defaults !! k); reflexivity.
Qed.

Lemma new_row_completed context vals a :
  wants_account context vals = true → 0 < a →
  new_row context (<["analytic_account_id" := VInt a]> vals) =
  {| allow_timesheets := true; analytic_account_id := Some a |}.
Proof.
  intros Hwants Hpos. unfold new_row. cbv zeta. rewrite !dict_get_union. f_equal.
  - unfold wants_account in Hwants. apply andb_true_iff in Hwants as [Hallow _].
    unfold dict_get_default at 1. rewrite lookup_insert_ne by discriminate.
    exact Hallow.
  - unfold dict_get_default. rewrite lookup_insert_eq. simpl.
    destruct (Z.eqb_spec a 0); [lia | reflexivity].
Qed.

Lemma create_one context vals e :
  wants_account context vals = true →
  ∃ id a e',
    Project.create context [vals] e = Ok ([id], e') ∧
    projects e !! id = None ∧ (a ∉ accounts e) ∧ a ∈ accounts e' ∧
    projects e' !! id = Some {| allow_timesheets := true; analytic_account_id := Some a |}.
Proof.
  intros Hwants. rewrite create_unfold.
  set (a := new_id (accounts e)).
  set (e1 := with_accounts ({[a]} ∪ accounts e) e).
  assert (map_each [vals] (complete_vals context) e
          = Ok ([<["analytic_account_id" := VInt a]> vals], e1)) as Hstage.
  { rewrite map_each_cons, complete_vals_run, Hwants. reflexivity. }
  rewrite (bind_Ok _ _ _ _ _ Hstage). unfold Project.super_create.
  destruct (create_rows_run context [<["analytic_account_id" := VInt a]> vals] e1)
    as (ids & e2 & Hrows & _ & _ & Ha & Hnew & _ & _ & Hone).
  destruct (Hone _ eq_refl) as [-> Hrow].
  rewrite (new_row_completed context vals a Hwants (new_id_positive _)) in Hrow.
  rewrite (bind_Ok _ _ _ _ _ Hrows).
  exists (new_id (dom (projects e1))), a, e2.
  split; [| split; [| split; [| split]]].
  - erewrite bind_Ok; [reflexivity |].
    apply check_allow_timesheet_passes.
    intros id ->%list_elem_of_singleton. eexists. split; [exact Hrow |].
    intros _. simpl. eauto.
  - apply (Hnew (new_id (dom (projects e1)))). left.
  - apply new_id_fresh.
  - rewrite Ha. simpl. apply elem_of_union_l, elem_of_singleton. reflexivity.
  - exact Hrow.
Qed.

Lemma write_provisions self values e :
  (∀ id, id ∈ self → is_Some (projects e !! id)) →
  truthy (dict_get values "allow_timesheets") = true →
  truthy (dict_get values "analytic_account_id") = false →
  ∃ e1, provision_accounts self e = Ok (tt, e1) ∧
        Project.write self values e = Project.super_write self values e1 ∧
        provisioned self e e1.
Proof.
  intros Hin Hallow Hnone.
  destruct (provision_accounts_run self e Hin) as (e1 & Hrun & Hrel).
  exists e1. split; [exact Hrun |]. split; [| exact Hrel].
  rewrite write_unfold, Hallow, Hnone. simpl.
  by rewrite (bind_Ok _ _ _ _ _ Hrun).
Qed.

Lemma truthy_has values k : truthy (dict_get values k) = true → dict_has values k = true.
Proof.
  unfold dict_get, dict_has. destruct (values !! k); simpl; [| discriminate].
  reflexivity.
Qed.

Lemma missing_key_falsy values k : dict_has values k = false → dict_get values k = VNone.
Proof.
  unfold dict_get, dict_has. destruct (values !! k); [| reflexivity].
  intros H. apply bool_decide_eq_false_1 in H. destruct H. eauto.
Qed.

Lemma write_allows_timesheets self values e :
  (∀ id, id ∈ self → is_Some (projects e !! id)) →
  truthy (dict_get values "allow_timesheets") = true →
  dict_has values "analytic_account_id" = false →
  ∃ e', Project.write self values e = Ok (true, e') ∧
        ∀ id p, id ∈ self → projects e !! id = Some p →
          ∃ a, projects e' !! id =
                 Some {| allow_timesheets := true; analytic_account_id := Some a |} ∧
               match analytic_account_id p with
               | Some a0 => a = a0
               | None => (a ∉ accounts e) ∧ a ∈ accounts e'
               end.
Proof.
  intros Hin Hallow Hnokey.
  assert (truthy (dict_get values "analytic_account_id") = false) as Hnone.
  { by rewrite (missing_key_falsy values _ Hnokey). }
  destruct (write_provisions self values e Hin Hallow Hnone)
    as (e1 & _ & -> & Hrel).
  pose proof (provisioned_exists self e e1 Hrel Hin) as Hin1.
  destruct Hrel as (_ & _ & Hacc & Hrows).
  assert (∀ p1, settled values p1 = set_allow_timesheets true p1) as Hsettled.
  { intros p1. unfold settled, Project.store_values.
    rewrite Hnokey, (truthy_has values _ Hallow), Hallow. reflexivity. }
  assert (∀ id p, id ∈ self → projects e !! id = Some p →
            ∃ a p1, projects e1 !! id = Some p1 ∧
                    analytic_account_id p1 = Some a ∧
                    match analytic_account_id p with
                    | Some a0 => a = a0
                    | None => (a ∉ accounts e) ∧ a ∈ accounts e1
                    end) as Hlinked.
  { intros id p Hid Hp. specialize (Hrows id). rewrite Hp in Hrows.
    destruct Hrows as (p1 & Hp1 & _ & Hcase).
    rewrite bool_decide_eq_true_2 in Hcase by assumption.
    destruct (analytic_account_id p) as [a0 |].
    - exists a0, p1. auto.
    - destruct Hcase as (a & Ha & Hfresh & Hina). exists a, p1. auto. }
  destruct (super_write_total self values e1 Hin1)
    as [(e' & Hrun & _ & _ & Ha' & Hrows' & _) | [_ (id & p1 & Hid & Hp1 & Hbad)]].
  - exists e'. split; [exact Hrun |]. intros id p Hid Hp.
    destruct (Hlinked id p Hid Hp) as (a & p1 & Hp1 & Ha & Hcase).
    exists a. split.
    + rewrite Hrows', Hp1. rewrite bool_decide_eq_true_2 by assumption.
      simpl. rewrite Hsettled. unfold set_allow_timesheets. by rewrite Ha.
    + destruct (analytic_account_id p); [exact Hcase |]. by rewrite Ha'.
  - exfalso. apply Hbad. rewrite Hsettled. intros _. simpl.
    destruct (Hin id Hid) as [p Hp].
    destruct (Hlinked id p Hid Hp) as (a & p1' & Hp1' & Ha & _).
    rewrite Hp1 in Hp1'. injection Hp1' as <-. eauto.
Qed.

(** C2. A create of a project that allows timesheets, by its values or by
    default, and is given no analytic account, returns a new project that
    allows timesheets and is linked to a new analytic account; for several
    projects, the dictionaries that [super().create] receives are completed
    with a new account each. A write that allows timesheets and gives no
    analytic account hands to [super().write] a database in which every
    project of the recordset has an analytic account, a new one where there
    was none; when the values have no [analytic_account_id] at all, the
    write returns and leaves these projects with their accounts. *)
Theorem analytic_account_auto_created :
  (∀ context vals e,
     wants_account context vals = true →
     ∃ id a e',
       Project.create context [vals] e = Ok ([id], e') ∧
       projects e !! id = None ∧ (a ∉ accounts e) ∧ a ∈ accounts e' ∧
       projects e' !! id =
         Some {| allow_timesheets := true; analytic_account_id := Some a |}) ∧
  (∀ context vals_list e,
     ∃ vals_list' e1,
       map_each vals_list (complete_vals context) e = Ok (vals_list', e1) ∧
       Project.create context vals_list e =
         Project.super_create context vals_list' e1 ∧
       projects e1 = projects e ∧
       Forall2 (completed context e e1) vals_list vals_list') ∧
  (∀ self values e,
     (∀ id, id ∈ self → is_Some (projects e !! id)) →
     truthy (dict_get values "allow_timesheets") = true →
     truthy (dict_get values "analytic_account_id") = false →
     ∃ e1, provision_accounts self e = Ok (tt, e1) ∧
           Project.write self values e = Project.super_write self values e1 ∧
           provisioned self e e1) ∧
  (∀ self values e,
     (∀ id, id ∈ self → is_Some (projects e !! id)) →
     truthy (dict_get values "allow_timesheets") = true →
     dict_has values "analytic_account_id" = false →
     ∃ e', Project.write self values e = Ok (true, e') ∧
           ∀ id p, id ∈ self → projects e !! id = Some p →
             ∃ a, projects e' !! id =
                    Some {| allow_timesheets := true; analytic_account_id := Some a |} ∧
                  match analytic_account_id p with
                  | Some a0 => a = a0
                  | None => (a ∉ accounts e) ∧ a ∈ accounts e'
                  end).
Proof.
  split; [exact create_one |]. split; [| split].
  - intros context vals_list e.
    destruct (complete_all_run context vals_list e)
      as (vals_list' & e1 & Hstage & Hp & _ & _ & _ & Hall).
    exists vals_list', e1. split; [exact Hstage |]. split; [| auto].
    rewrite create_unfold. by rewrite (bind_Ok _ _ _ _ _ Hstage).
  - exact write_provisions.
  - exact write_allows_timesheets.
Qed.

Example create_default_project :
  match Project.create ∅ [∅] env_timesheets with
  | Ok (ids, e') => Some (ids, (λ id, projects e' !! id) <$> ids, elements (accounts e'))
  | Raise _ => None
  end = Some ([13],
              [Some {| allow_timesheets := true; analytic_account_id := Some 102 |}],
              elements ({[102]} ∪ accounts env_timesheets)).
Proof. vm_compute. reflexivity. Qed.

Example write_allow_on_project_without_account :
  match Project.write [11] {["allow_timesheets" := VBool true]} env_timesheets with
  | Ok (_, e') => projects e' !! 11
  | Raise _ => None
  end = Some {| allow_timesheets := true; analytic_account_id := Some 102 |}.
Proof. vm_compute. reflexivity. Qed.

(** Creating a project from an empty dictionary, with the default of
    [allow_timesheets], and allowing timesheets on project 11 of
    [env_timesheets], which has no analytic account. *)
Lemma analytic_account_auto_created_witness :
  (∃ id a e',
     Project.create ∅ [∅] env_timesheets = Ok ([id], e') ∧
     projects env_timesheets !! id = None ∧
     (a ∉ accounts env_timesheets) ∧ a ∈ accounts e' ∧
     projects e' !! id =
       Some {| allow_timesheets := true; analytic_account_id := Some a |}) ∧
  (∃ e1, provision_accounts [11] env_timesheets = Ok (tt, e1) ∧
         Project.write [11] {["allow_timesheets" := VBool true]} env_timesheets =
           Project.super_write [11] {["allow_timesheets" := VBool true]} e1 ∧
         provisioned [11] env_timesheets e1) ∧
  (∃ e', Project.write [11] {["allow_timesheets" := VBool true]} env_timesheets
           = Ok (true, e') ∧
         ∃ a, projects e' !! 11 =
                Some {| allow_timesheets := true; analytic_account_id := Some a |} ∧
              (a ∉ accounts env_timesheets) ∧ a ∈ accounts e').
Proof.
  split; [| split].
  - apply (proj1 analytic_account_auto_created). reflexivity.
  - apply (proj1 (proj2 (proj2 analytic_account_auto_created))); try reflexivity.
    intros id ->%list_elem_of_singleton. eexists. reflexivity.
  - destruct (proj2 (proj2 (proj2 analytic_account_auto_created)) [11]
                {["allow_timesheets" := VBool true]} env_timesheets)
      as (e' & Hrun & Hrows); try reflexivity.
    + intros id ->%list_elem_of_singleton. eexists. reflexivity.
    + exists e'. split; [exact Hrun |].
      destruct (Hrows 11 {| allow_timesheets := false; analytic_account_id := None |})
        as (a & Hrow & Hcase); [left | reflexivity |].
      exists a. split; [exact Hrow | exact Hcase].
Defined.

(** ** Runs of the search translators *)

(** The operator [<] on the boolean field is refused. *)
Lemma search_bool_translators_witness :
  is_Ok (Search._search_is_internal_project "<" (VBool true)) = false.
Proof.
  apply (bt_error_iff _ _ (proj1 search_bool_translators)).
  right. split; discriminate.
Defined.

(** The operator [like] raises a [ValueError] on the boolean field and a
    [NotImplementedError] on [remaining_hours_percentage]. *)
Lemma search_operator_errors_witness :
  raises (Search._search_is_internal_project "like" (VInt 3)) is_ValueError = true ∧
  Search._search_remaining_hours_percentage
    Search.comparison_operators "project_task" "like" (VFloat 0.5) =
    Raise (NotImplementedError
             "This operator %s is not supported in this search method."
             (VStr "like")).
Proof.
  split.
  - apply (proj1 search_operator_errors "like" (VInt 3)). reflexivity.
  - apply (proj1 (proj2 search_operator_errors)).
    unfold Search.comparison_operators. intros H.
    repeat (apply elem_of_cons in H as [[=] | H]).
    by apply not_elem_of_nil in H.
Defined.

(** * The rest of the module *)

(** ** The action on the timesheets of subtasks *)

Lemma place_view_tree g acc v :
  v.2 = "tree" → Task.place_view g acc v = v :: acc.
Proof.
  intros Hv. unfold Task.place_view. destruct v as [i ty]. simpl in *. subst ty.
  reflexivity.
Qed.

Lemma place_view_other g acc v :
  v.2 ≠ "tree" → Task.place_view g acc v = (acc ++ [as_graph g v])%list.
Proof.
  intros Hv. unfold Task.place_view, as_graph. destruct v as [i ty]. simpl in *.
  destruct (String.eqb_spec ty "graph") as [-> | Hg]; [reflexivity |].
  simpl. by apply String.eqb_neq in Hv as ->.
Qed.

Lemma fold_place_view g vs :
  ∀ acc,
    fold_left (Task.place_view g) vs acc =
    (rev (filter (λ v, v.2 = "tree") vs) ++ acc
     ++ (as_graph g <$> filter (λ v, v.2 ≠ "tree") vs))%list.
Proof.
  induction vs as [| v vs IH]; intros acc.
  - simpl. by rewrite app_nil_r.
  - simpl. destruct (decide (v.2 = "tree")) as [Hv | Hv].
    + rewrite (place_view_tree g acc v Hv), IH.
      rewrite filter_cons_True by exact Hv.
      rewrite filter_cons_False by (intros H; by apply H).
      simpl. by rewrite <- !app_assoc.
    + rewrite (place_view_other g acc v Hv), IH.
      rewrite filter_cons_False by exact Hv.
      rewrite filter_cons_True by exact Hv.
      rewrite fmap_cons. by rewrite <- !app_assoc.
Qed.

Lemma as_graph_tree g v : v.2 = "tree" → as_graph g v = v.
Proof.
  intros Hv. unfold as_graph. destruct v as [i ty]. simpl in *. by subst ty.
Qed.

Lemma as_graph_trees g (vs : list Task.action_view) :
  as_graph g <$> filter (λ v, v.2 = "tree") vs = filter (λ v, v.2 = "tree") vs.
Proof.
  induction vs as [| v vs IH]; [reflexivity |].
  destruct (decide (v.2 = "tree")) as [Hv | Hv].
  - rewrite filter_cons_True by exact Hv.
    rewrite fmap_cons. f_equal; [by apply as_graph_tree | exact IH].
  - by rewrite filter_cons_False.
Qed.

Lemma as_graph_type g v : (as_graph g v).2 = v.2.
Proof.
  unfold as_graph. destruct v as [i ty]. simpl.
  by destruct (String.eqb_spec ty "graph") as [-> | ?].
Qed.

Lemma filter_partition_perm {A} (P : A → Prop) `{!∀ x, Decision (P x)} (l : list A) :
  (filter P l ++ filter (λ x, ¬ P x) l)%list ≡ₚ l.
Proof.
  induction l as [| x l IH]; [reflexivity |].
  destruct (decide (P x)) as [Hx | Hx].
  - rewrite filter_cons_True by exact Hx.
    rewrite filter_cons_False by (intros Hn; by apply Hn).
    simpl. by rewrite IH.
  - rewrite filter_cons_False by exact Hx.
    rewrite filter_cons_True by exact Hx.
    rewrite <- Permutation_middle. by rewrite IH.
Qed.

(** X1. On one task of the database, [action_view_subtask_timesheet]
    returns without changing the database; the views of the action are the
    list views of the action it starts from, last one first, followed by the
    other views in their order, where every graph view is replaced by the
    graph view by employee: no view is lost or added. On a recordset that
    is not one record it raises a [ValueError]. *)
Theorem action_views_lists_first subtask_ids timesheet_action_all graph_view_id :
  (∀ id t e,
     tasks e !! id = Some t →
     ∃ act,
       Task.action_view_subtask_timesheet subtask_ids timesheet_action_all
         graph_view_id [id] e = Ok (act, e) ∧
       Task.views act =
         (rev (filter (λ v, v.2 = "tree") (Task.views timesheet_action_all))
          ++ (as_graph graph_view_id
                <$> filter (λ v, v.2 ≠ "tree") (Task.views timesheet_action_all)))%list ∧
       Task.views act ≡ₚ as_graph graph_view_id <$> Task.views timesheet_action_all ∧
       (∀ v, v ∈ Task.views act → v.2 = "graph" → v.1 = Some graph_view_id) ∧
       Task.other act = Task.other timesheet_action_all) ∧
  (∀ self e,
     length self ≠ 1%nat →
     raises (Task.action_view_subtask_timesheet subtask_ids timesheet_action_all
               graph_view_id self e) is_ValueError = true).
Proof.
  split.
  - intros id t e Ht. eexists. split; [| split; [| split; [| split]]].
    + unfold Task.action_view_subtask_timesheet.
      erewrite bind_Ok by reflexivity. cbv zeta.
      erewrite bind_Ok by (apply read_task_Some, Ht). apply mret_run.
    + simpl. rewrite fold_place_view. reflexivity.
    + simpl. rewrite fold_place_view. simpl.
      rewrite <- (filter_partition_perm (λ v, v.2 = "tree")
                    (Task.views timesheet_action_all)) at 3.
      rewrite fmap_app. apply Permutation_app; [| reflexivity].
      rewrite <- Permutation_rev.
      by rewrite as_graph_trees.
    + simpl. rewrite fold_place_view. simpl.
      intros v [Hv | Hv]%elem_of_app Hg.
      * apply list_elem_of_In, in_rev, list_elem_of_In in Hv.
        apply list_elem_of_filter in Hv as [Hv _]. congruence.
      * apply list_elem_of_fmap in Hv as (w & -> & _).
        unfold as_graph in *. destruct w as [i ty]. simpl in *.
        destruct (String.eqb_spec ty "graph"); [reflexivity | contradiction].
    + reflexivity.
  - intros self e Hlen. unfold Task.action_view_subtask_timesheet.
    destruct self as [| x [| y ys]]; try reflexivity. by destruct Hlen.
Qed.

Example action_views_example :
  Task.views <$>
    (match Task.action_view_subtask_timesheet ∅ example_action 77 [1]
             env_timesheets with
     | Ok (act, _) => Some act
     | Raise _ => None
     end)
  = Some [(Some 3, "tree"); (Some 2, "tree"); (Some 1, "form");
          (Some 77, "graph"); (Some 4, "pivot")].
Proof. vm_compute. reflexivity. Qed.

(** On task 1 of [env_timesheets] the action is returned; on tasks 1 and 2
    together it is refused. *)
Lemma action_views_lists_first_witness :
  (∃ act, Task.action_view_subtask_timesheet ∅ example_action 77 [1]
            env_timesheets = Ok (act, env_timesheets)) ∧
  raises (Task.action_view_subtask_timesheet ∅ example_action 77 [1; 2]
            env_timesheets) is_ValueError = true.
Proof.
  split.
  - destruct (proj1 (action_views_lists_first ∅ example_action 77) 1
                (set_project_id (Some 10) (chain_task None true 2 0))
                env_timesheets) as (act & Hrun & _); [reflexivity |].
    exists act. exact Hrun.
  - apply (proj2 (action_views_lists_first ∅ example_action 77)). simpl. lia.
Defined.

(** ** The view cache *)

(** X2. The cache key of a view determines the view that [_get_view]
    builds from what the base model returns: two calls with the same cache
    key have the same unit of measure and the same base key, so they label
    the architecture alike. [_get_view] never changes the view record, and
    leaves the architecture of projects alone when the unit is not the day
    or the view is neither a list nor a form. *)
Theorem view_cache_key_sound {arch view : Type}
    (_apply_timesheet_label : arch → arch)
    (_apply_time_label : arch → string → arch) (product_uom_day : Z) :
  (∀ key1 key2 uom1 uom2,
     Project._get_view_cache_key key1 uom1 = Project._get_view_cache_key key2 uom2 →
     key1 = key2 ∧
     ∀ (super_view : arch * view) view_type,
       Project._get_view _apply_time_label product_uom_day super_view view_type uom1 =
       Project._get_view _apply_time_label product_uom_day super_view view_type uom2) ∧
  (∀ key1 key2 uom1 uom2,
     Task._get_view_cache_key key1 uom1 = Task._get_view_cache_key key2 uom2 →
     key1 = key2 ∧
     ∀ (super_view : arch * view) view_type,
       Task._get_view _apply_timesheet_label _apply_time_label product_uom_day
         super_view view_type uom1 =
       Task._get_view _apply_timesheet_label _apply_time_label product_uom_day
         super_view view_type uom2) ∧
  (∀ (super_view : arch * view) view_type uom,
     (Project._get_view _apply_time_label product_uom_day super_view view_type uom).2
       = super_view.2 ∧
     (Task._get_view _apply_timesheet_label _apply_time_label product_uom_day
        super_view view_type uom).2 = super_view.2) ∧
  (∀ (super_view : arch * view) view_type uom,
     uom ≠ Some product_uom_day ∨ (view_type ≠ "tree" ∧ view_type ≠ "form") →
     Project._get_view _apply_time_label product_uom_day super_view view_type uom
       = super_view).
Proof.
  split; [| split; [| split]].
  - intros key1 key2 uom1 uom2 Hkey.
    apply app_inj_tail in Hkey as [-> [= ->]]. auto.
  - intros key1 key2 uom1 uom2 Hkey.
    apply app_inj_tail in Hkey as [-> [= ->]]. auto.
  - intros [a v] view_type uom. split; reflexivity.
  - intros [a v] view_type uom Hcase. unfold Project._get_view.
    destruct Hcase as [Huom | [Htree Hform]].
    + rewrite (bool_decide_eq_false_2 (uom = _)) by exact Huom.
      by rewrite andb_false_r.
    + rewrite (bool_decide_eq_false_2 (view_type ∈ _)); [reflexivity |].
      intros [-> | [-> | H]%elem_of_cons]%elem_of_cons; try contradiction.
      by apply not_elem_of_nil in H.
Qed.

(** A company that encodes in hours (unit 4) and one that encodes in days
    (unit 5) never share a cache key; the pivot view of projects is not
    relabelled. *)
Lemma view_cache_key_sound_witness :
  (Project._get_view_cache_key [Project.Item (VStr "form")] (Some 4)
     = Project._get_view_cache_key [Project.Item (VStr "form")] (Some 5) → False) ∧
  Project._get_view (λ (a : string) model, String.append a model) 5
    ("arch", 12) "pivot" (Some 5) = ("arch", 12).
Proof.
  split.
  - intros Hkey.
    destruct (proj1 (view_cache_key_sound (view := Z) (λ a : string, a)
                       (λ a model, String.append a model) 5) _ _ _ _ Hkey)
      as [_ Hview].
    specialize (Hview ("arch", 12) "form"). vm_compute in Hview. discriminate.
  - apply (proj2 (proj2 (proj2 (view_cache_key_sound (λ a : string, a)
                                  (λ a model, String.append a model) 5)))).
    right. split; discriminate.
Defined.

(** ** Disabling timesheets on projects without analytic account *)

Lemma env_eq e1 e2 :
  projects e1 = projects e2 → tasks e1 = tasks e2 → lines e1 = lines e2 →
  accounts e1 = accounts e2 → e1 = e2.
Proof. destruct e1, e2. simpl. by intros -> -> -> ->. Qed.

(** X3. On projects of the database, [_compute_allow_timesheets] returns
    and leaves every project of the recordset with the invariant of the
    constraint: it disables timesheets on those without analytic account.
    It never enables timesheets, never changes an analytic account, leaves
    the projects with an account and the projects outside the recordset
    as they are, and running it again changes nothing. *)
Theorem compute_allow_timesheets_disables self e :
  (∀ id, id ∈ self → is_Some (projects e !! id)) →
  ∃ e', Project._compute_allow_timesheets self e = Ok (tt, e') ∧
        tasks e' = tasks e ∧ lines e' = lines e ∧ accounts e' = accounts e ∧
        (∀ id, id ∈ self → ∃ p', projects e' !! id = Some p' ∧ project_ok p') ∧
        (∀ id p, projects e !! id = Some p →
           ∃ p', projects e' !! id = Some p' ∧
                 analytic_account_id p' = analytic_account_id p ∧
                 (allow_timesheets p' = true → allow_timesheets p = true) ∧
                 (is_Some (analytic_account_id p) ∨ id ∉ self → p' = p)) ∧
        Project._compute_allow_timesheets self e' = Ok (tt, e').
Proof.
  intros Hin.
  destruct (compute_allow_timesheets_run self e Hin)
    as (e' & Hrun & Ht & Hl & Ha & Hrows).
  exists e'. split; [exact Hrun |]. split; [exact Ht |]. split; [exact Hl |].
  split; [exact Ha |]. split; [| split].
  - intros id Hid. destruct (Hin id Hid) as [p Hp].
    rewrite Hrows, Hp. rewrite bool_decide_eq_true_2 by assumption. simpl.
    eexists. split; [reflexivity |].
    case_bool_decide as Hacc; [by intros _ | intros [=]].
  - intros id p Hp. rewrite Hrows, Hp. simpl.
    case_bool_decide as Hself; simpl.
    + case_bool_decide as Hacc.
      * exists p. repeat split; auto.
      * eexists. split; [reflexivity |]. split; [reflexivity |].
        split; [intros [=] |]. intros [? | ?]; contradiction.
    + exists p. repeat split; auto.
  - assert (∀ id, id ∈ self → is_Some (projects e' !! id)) as Hin'.
    { intros id Hid. destruct (Hin id Hid) as [p Hp].
      rewrite Hrows, Hp. rewrite bool_decide_eq_true_2 by assumption.
      simpl. eauto. }
    destruct (compute_allow_timesheets_run self e' Hin')
      as (e'' & Hrun' & Ht' & Hl' & Ha' & Hrows').
    rewrite Hrun'. do 2 f_equal. apply env_eq; auto.
    apply map_eq. intros id. rewrite Hrows', Hrows.
    case_bool_decide; [| reflexivity].
    destruct (projects e !! id) as [p |]; [| reflexivity]. simpl.
    destruct (bool_decide (is_Some (analytic_account_id p))) eqn:Hacc; simpl.
    + by rewrite Hacc.
    + by rewrite Hacc.
Qed.

(** On a database where project 11 allows timesheets without analytic
    account, the computation disables them. *)
Lemma compute_allow_timesheets_disables_witness :
  ∃ e', Project._compute_allow_timesheets [10; 11]
          (with_projects (<[11 := {| allow_timesheets := true;
                                     analytic_account_id := None |}]>
                            (projects env_timesheets)) env_timesheets)
        = Ok (tt, e') ∧
        ∃ p', projects e' !! 11 = Some p' ∧ project_ok p'.
Proof.
  destruct (compute_allow_timesheets_disables [10; 11]
              (with_projects (<[11 := {| allow_timesheets := true;
                                         analytic_account_id := None |}]>
                                (projects env_timesheets)) env_timesheets))
    as (e' & Hrun & _ & _ & _ & Hok & _).
  - intros id [-> | ->%list_elem_of_singleton]%elem_of_cons; eexists; reflexivity.
  - exists e'. split; [exact Hrun |]. apply Hok. right. left.
Defined.

(** ** Repairing the projects that allow timesheets without account *)

Lemma elem_of_project_search e P id :
  id ∈ Project.search e P ↔ ∃ p, projects e !! id = Some p ∧ P p = true.
Proof.
  unfold Project.search. rewrite elem_of_elements, elem_of_dom. unfold is_Some.
  setoid_rewrite map_lookup_filter_Some. split.
  - intros (p & Hp & HP). eauto.
  - intros (p & Hp & HP). eauto.
Qed.

Lemma create_account_body id e p :
  projects e !! id = Some p →
  (a ← ask (λ e, new_id (accounts e));
   modify (λ e, with_accounts ({[a]} ∪ accounts e) e);;
   update_project id (set_analytic_account_id (Some a))) e =
  Ok (tt, with_projects
            (<[id := set_analytic_account_id (Some (new_id (accounts e))) p]>
               (projects e))
            (with_accounts ({[new_id (accounts e)]} ∪ accounts e) e)).
Proof.
  intros Hp. erewrite bind_Ok by reflexivity. erewrite bind_Ok by reflexivity.
  erewrite update_project_Some by exact Hp. reflexivity.
Qed.

(** On distinct projects without analytic account,
    [_create_analytic_account] does what the loop of [write] does. *)
Lemma create_accounts_as_provision ids :
  ∀ e, NoDup ids →
       (∀ id, id ∈ ids →
              ∃ p, projects e !! id = Some p ∧ analytic_account_id p = None) →
       Project._create_analytic_account ids e = provision_accounts ids e.
Proof.
  unfold Project._create_analytic_account, provision_accounts.
  induction ids as [| x xs IH]; intros e Hnd Hnone; [reflexivity |].
  apply NoDup_cons in Hnd as [Hx Hnd].
  destruct (Hnone x) as (p & Hp & Hacc); [left |].
  rewrite !for_each_cons, (create_account_body x e p Hp),
    (provision_body x e p Hp), Hacc.
  apply IH; [exact Hnd |].
  intros id Hid. destruct (Hnone id) as (q & Hq & Hqacc); [by right |].
  exists q. split; [| exact Hqacc]. simpl.
  rewrite lookup_insert_ne; [exact Hq |]. intros ->. contradiction.
Qed.

(** X4. From any database, [_init_data_analytic_account] returns and leaves
    a database in which every project that allows timesheets has an
    analytic account: the projects that broke the invariant get an account
    that did not exist, the others are unchanged, no project changes its
    [allow_timesheets], and tasks and timesheet entries are untouched. *)
Theorem init_data_establishes_invariant e :
  ∃ e', Project._init_data_analytic_account e = Ok (tt, e') ∧
        project_invariant e' ∧
        tasks e' = tasks e ∧ lines e' = lines e ∧ accounts e ⊆ accounts e' ∧
        ∀ id p, projects e !! id = Some p →
          ∃ p', projects e' !! id = Some p' ∧
                allow_timesheets p' = allow_timesheets p ∧
                (project_ok p → p' = p) ∧
                (¬ project_ok p →
                 ∃ a, analytic_account_id p' = Some a ∧ a ∉ accounts e).
Proof.
  set (P := λ p : project_project,
         negb (bool_decide (is_Some (analytic_account_id p))) && allow_timesheets p).
  assert (∀ p, P p = true ↔ ¬ project_ok p) as HP.
  { intros p. unfold P, project_ok.
    destruct (allow_timesheets p), (analytic_account_id p) as [a |]; simpl.
    - split; [discriminate |]. intros H. destruct H. eauto.
    - split; [| reflexivity]. intros _ H. by destruct (H eq_refl).
    - split; [discriminate |]. intros H. destruct H. discriminate.
    - split; [discriminate |]. intros H. destruct H. discriminate. }
  assert (∀ p, P p = true → analytic_account_id p = None) as Hnone.
  { intros p. unfold P. destruct (analytic_account_id p); [discriminate | done]. }
  destruct (provision_accounts_run (Project.search e P) e)
    as (e' & Hrun & Ht & Hl & Ha & Hrows).
  { intros id (p & Hp & _)%elem_of_project_search. eauto. }
  exists e'. split; [| split; [| split; [| split; [| split]]]]; auto.
  - unfold Project._init_data_analytic_account.
    erewrite bind_Ok by reflexivity. fold P.
    rewrite create_accounts_as_provision; [exact Hrun | apply NoDup_elements |].
    intros id (p & Hp & HPp)%elem_of_project_search. eauto.
  - intros id p' Hp'. specialize (Hrows id).
    destruct (projects e !! id) as [p |] eqn:Hp; [| congruence].
    destruct Hrows as (p1 & Hp1 & Hallow & Hcase).
    assert (p1 = p') as -> by congruence.
    case_bool_decide as Hfound.
    + apply elem_of_project_search in Hfound as (q & Hq & HPq).
      assert (q = p) as -> by congruence.
      rewrite (Hnone p HPq) in Hcase. destruct Hcase as (a & Hacc & _).
      intros _. rewrite Hacc. eauto.
    + subst p'. destruct (P p) eqn:HPp.
      * destruct Hfound. apply elem_of_project_search. eauto.
      * destruct (decide (allow_timesheets p = true)) as [Hal | Hal].
        -- intros _. unfold P in HPp. rewrite Hal, andb_true_r in HPp.
           apply negb_false_iff, bool_decide_eq_true_1 in HPp. exact HPp.
        -- intros Hal'. contradiction.
  - intros id p Hp. specialize (Hrows id). rewrite Hp in Hrows.
    destruct Hrows as (p' & Hp' & Hallow & Hcase).
    exists p'. split; [exact Hp' |]. split; [exact Hallow |].
    case_bool_decide as Hfound.
    + apply elem_of_project_search in Hfound as (q & Hq & HPq).
      assert (q = p) as -> by congruence.
      split; [intros Hok; by apply HP in HPq |]. intros _.
      rewrite (Hnone p HPq) in Hcase. destruct Hcase as (a & Hacc & Hfresh & _).
      eauto.
    + split; [by intros _ |]. intros Hbad. destruct Hfound.
      apply elem_of_project_search. exists p. split; [exact Hp | by apply HP].
Qed.

Example init_data_example :
  match Project._init_data_analytic_account
          (with_projects (<[11 := {| allow_timesheets := true;
                                     analytic_account_id := None |}]>
                            (projects env_timesheets)) env_timesheets) with
  | Ok (_, e') => projects e' !! 11
  | Raise _ => None
  end = Some {| allow_timesheets := true; analytic_account_id := Some 102 |}.
Proof. vm_compute. reflexivity. Qed.

(** ** Dictionaries and loops over the other columns of projects *)

Lemma dict_find_set {A} k k' (v : A) d :
  dict_find k (dict_set k' v d) = if Z.eqb k k' then Some v else dict_find k d.
Proof.
  induction d as [| [k0 v0] d IH]; simpl; [reflexivity |].
  destruct (Z.eqb_spec k' k0) as [-> | Hne]; simpl.
  - destruct (Z.eqb_spec k k0); reflexivity.
  - rewrite IH. destruct (Z.eqb_spec k k0) as [-> | Hne0]; [| reflexivity].
    destruct (Z.eqb_spec k0 k'); [congruence | reflexivity].
Qed.

Lemma dict_find_fold {A} (g : Z → A) ids :
  ∀ d k,
    dict_find k (fold_left (λ d (kv : Z * A), dict_set kv.1 kv.2 d)
                   ((λ p, (p, g p)) <$> ids) d) =
    if bool_decide (k ∈ ids) then Some (g k) else dict_find k d.
Proof.
  induction ids as [| x xs IH]; intros d k; [reflexivity |].
  rewrite fmap_cons. simpl. rewrite IH, dict_find_set.
  destruct (decide (k ∈ xs)) as [Hin | Hin].
  - rewrite !bool_decide_eq_true_2; [reflexivity | by right | exact Hin].
  - rewrite (bool_decide_eq_false_2 _ Hin).
    destruct (Z.eqb_spec k x) as [-> | Hne].
    + rewrite bool_decide_eq_true_2; [reflexivity | left].
    + rewrite bool_decide_eq_false_2; [reflexivity |].
      intros [-> | ?]%elem_of_cons; contradiction.
Qed.

(** A dictionary built from one pair per key holds the value of every key
    and nothing else. *)
Lemma dict_find_of {A} (g : Z → A) ids k :
  dict_find k (dict_of ((λ p, (p, g p)) <$> ids)) =
  if bool_decide (k ∈ ids) then Some (g k) else None.
Proof. unfold dict_of. rewrite dict_find_fold. reflexivity. Qed.

Lemma for_rows_run (body : Z → ProjectFields.row → ProjectFields.row) :
  (∀ id r, body id (body id r) = body id r) →
  ∀ self rows,
    (∀ id, id ∈ self → is_Some (rows !! id)) →
    ∃ rows', ProjectFields.for_rows self body rows = Ok rows' ∧
             ∀ id, rows' !! id =
                   if bool_decide (id ∈ self) then body id <$> rows !! id
                   else rows !! id.
Proof.
  intros Hidem self. induction self as [| x xs IH]; intros rows Hin.
  - exists rows. split; reflexivity.
  - destruct (Hin x) as [r Hr]; [left |]. simpl. rewrite Hr.
    destruct (IH (<[x := body x r]> rows)) as (rows' & Hrun & Hrows).
    { intros id Hid. destruct (decide (id = x)) as [-> | Hne].
      - rewrite lookup_insert_eq. eauto.
      - rewrite lookup_insert_ne by done. apply Hin. by right. }
    exists rows'. split; [exact Hrun |]. intros id. rewrite Hrows.
    destruct (decide (id = x)) as [-> | Hne].
    + rewrite lookup_insert_eq, Hr. simpl.
      rewrite (bool_decide_eq_true_2 (x ∈ x :: xs)) by left.
      case_bool_decide; simpl; [by rewrite Hidem | reflexivity].
    + rewrite lookup_insert_ne by done.
      destruct (decide (id ∈ xs)) as [Hxs | Hxs].
      * rewrite !bool_decide_eq_true_2; [reflexivity | by right | exact Hxs].
      * rewrite !bool_decide_eq_false_2; [reflexivity | | exact Hxs].
        intros [-> | ?]%elem_of_cons; contradiction.
Qed.

Lemma for_rows_missing body self :
  ∀ rows id, id ∈ self → rows !! id = None →
             ProjectFields.for_rows self body rows = Raise MissingError.
Proof.
  induction self as [| x xs IH]; intros rows id Hid Hnone.
  - by apply not_elem_of_nil in Hid.
  - simpl. destruct (rows !! x) as [r |] eqn:Hr; [| reflexivity].
    apply elem_of_cons in Hid as [-> | Hid]; [congruence |].
    apply (IH _ id Hid). rewrite lookup_insert_ne; [exact Hnone | congruence].
Qed.

Lemma elem_of_read_group_project_ids e self p :
  p ∈ ProjectFields.read_group_project_ids e self ↔
  p ∈ self ∧ project_has_timesheets e p.
Proof.
  unfold ProjectFields.read_group_project_ids, project_has_timesheets.
  rewrite elem_of_elements, elem_of_list_to_set, list_elem_of_omap. split.
  - intros ([l line] & Hl%elem_of_map_to_list & Hf). simpl in Hf.
    destruct (in_ids (line_project_id line) self) eqn:Hids; [| discriminate].
    apply in_ids_true in Hids as (p' & Hp' & Hself).
    assert (p' = p) as -> by congruence. eauto.
  - intros (Hself & l & line & Hl & Hp). exists (l, line). split.
    + by apply elem_of_map_to_list.
    + simpl. rewrite Hp. simpl. by rewrite bool_decide_eq_true_2.
Qed.

Lemma project_timesheet_ids_nil e p :
  ¬ project_has_timesheets e p → Project.timesheet_ids e p = [].
Proof.
  intros Hno. apply nonempty_false.
  destruct (nonempty (Project.timesheet_ids e p)) eqn:Hne; [| reflexivity].
  by apply project_has_timesheets_nonempty in Hne.
Qed.

(** ** The number of timesheet entries of a project *)



(** ** The remaining hours of a project *)

(** X6. On projects of the table, [_compute_remaining_hours] of projects
    stores the allocated hours minus the sum of the [unit_amount] of the
    timesheet entries of the project itself (the allocated hours minus 0
    when it has none), and [is_project_overtime] is exactly the stored
    [remaining_hours < 0]; the other columns are unchanged and computing
    again changes nothing. On a project that is not in the table it raises
    [MissingError]. *)
Theorem project_remaining_hours_from_entries e self :
  (∀ rows,
     (∀ id, id ∈ self → is_Some (rows !! id)) →
     ∃ rows',
       ProjectFields._compute_remaining_hours e self rows = Ok rows' ∧
       (∀ id, rows' !! id =
              if bool_decide (id ∈ self)
              then (λ r,
                      let remaining :=
                        (ProjectFields.allocated_hours r
                         - py_sum (unit_amounts e (Project.timesheet_ids e id)))%float in
                      ProjectFields.set_is_project_overtime
                        (PrimFloat.ltb remaining 0)
                        (ProjectFields.set_remaining_hours remaining r))
                     <$> rows !! id
              else rows !! id) ∧
       (∀ id r', id ∈ self → rows' !! id = Some r' →
                 ProjectFields.is_project_overtime r' =
                 PrimFloat.ltb (ProjectFields.remaining_hours r') 0) ∧
       (∀ id r r', rows !! id = Some r → rows' !! id = Some r' →
                   ProjectFields.allocated_hours r' = ProjectFields.allocated_hours r ∧
                   ProjectFields.company_id r' = ProjectFields.company_id r ∧
                   ProjectFields.timesheet_count r' = ProjectFields.timesheet_count r ∧
                   ProjectFields.is_internal_project r' =
                     ProjectFields.is_internal_project r) ∧
       ProjectFields._compute_remaining_hours e self rows' = Ok rows') ∧
  (∀ rows id,
     id ∈ self → rows !! id = None →
     ProjectFields._compute_remaining_hours e self rows = Raise MissingError).
Proof.
  split; [| intros rows id Hid Hnone; by apply (for_rows_missing _ _ _ id)].
  set (spent := λ id, py_sum (unit_amounts e (Project.timesheet_ids e id))).
  set (body := λ id project,
         let project :=
           ProjectFields.set_remaining_hours
             (ProjectFields.allocated_hours project
              - default 0%float
                  (dict_find id
                     (dict_of ((λ p, (p, spent p))
                                 <$> ProjectFields.read_group_project_ids e self))))
             project in
         ProjectFields.set_is_project_overtime
           (PrimFloat.ltb (ProjectFields.remaining_hours project) 0) project).
  assert (∀ id, id ∈ self →
            default 0%float
              (dict_find id
                 (dict_of ((λ p, (p, spent p))
                             <$> ProjectFields.read_group_project_ids e self))) =
            spent id) as Hspent.
  { intros id Hid. rewrite (dict_find_of spent).
    case_bool_decide as Hgroup; [reflexivity |]. simpl. unfold spent.
    rewrite project_timesheet_ids_nil; [reflexivity |].
    intros Hhas. apply Hgroup, elem_of_read_group_project_ids. by split. }
  assert (∀ rows, (∀ id, id ∈ self → is_Some (rows !! id)) →
            ∃ rows', ProjectFields._compute_remaining_hours e self rows = Ok rows' ∧
                     ∀ id, rows' !! id =
                           if bool_decide (id ∈ self) then body id <$> rows !! id
                           else rows !! id) as Hrun.
  { intros rows Hin. apply (for_rows_run body (λ _ _, eq_refl) self rows Hin). }
  intros rows Hin. destruct (Hrun rows Hin) as (rows' & Hrows' & Hlookup).
  exists rows'. split; [exact Hrows' |]. split; [| split; [| split]].
  - intros id. rewrite Hlookup. case_bool_decide as Hid; [| reflexivity].
    destruct (rows !! id) as [r |]; [| reflexivity]. simpl. unfold body.
    by rewrite (Hspent id Hid).
  - intros id r' Hid Hr'. rewrite Hlookup, bool_decide_eq_true_2 in Hr' by done.
    destruct (rows !! id) as [r |]; [| discriminate]. by injection Hr' as <-.
  - intros id r r' Hr Hr'. rewrite Hlookup, Hr in Hr'.
    case_bool_decide; simpl in Hr'; injection Hr' as <-; repeat split.
  - assert (∀ id, id ∈ self → is_Some (rows' !! id)) as Hin'.
    { intros id Hid. rewrite Hlookup, bool_decide_eq_true_2 by done.
      destruct (Hin id Hid) as [r ->]. simpl. eauto. }
    destruct (Hrun rows' Hin') as (rows'' & Hrows'' & Hlookup').
    rewrite Hrows''. f_equal. apply map_eq. intros id.
    rewrite Hlookup', Hlookup. case_bool_decide; [| reflexivity].
    by destruct (rows !! id).
Qed.

(** In [env_timesheets], two of the eight hours allocated to project 10
    are spent, so six remain and the project is not in overtime. *)
Lemma project_remaining_hours_from_entries_witness :
  (∃ rows',
     ProjectFields._compute_remaining_hours env_timesheets [10; 11] example_rows
       = Ok rows' ∧
     ProjectFields.remaining_hours <$> rows' !! 10 = Some 6%float ∧
     ProjectFields.is_project_overtime <$> rows' !! 10 = Some false ∧
     ProjectFields.remaining_hours <$> rows' !! 11 = Some 8%float) ∧
  ProjectFields._compute_remaining_hours env_timesheets [10; 12] example_rows
    = Raise MissingError.
Proof.
  split.
  - destruct (proj1 (project_remaining_hours_from_entries env_timesheets [10; 11])
                example_rows) as (rows' & Hrun & Hrows & _).
    + intros id [-> | ->%list_elem_of_singleton]%elem_of_cons;
        eexists; reflexivity.
    + exists rows'. split; [exact Hrun |]. rewrite !Hrows.
      repeat split; vm_compute; reflexivity.
  - apply (proj2 (project_remaining_hours_from_entries env_timesheets [10; 12])
             example_rows 12); [right; left | reflexivity].
Defined.

(** ** The hours spent on a task *)

Lemma for_each_task_assign (g : Z → project_task → project_task) (e0 : env)
    (body : Z → M unit) :
  (∀ id e t, lines e = lines e0 → tasks e !! id = Some t →
             body id e = Ok (tt, with_tasks (<[id := g id t]> (tasks e)) e)) →
  (∀ id t, g id (g id t) = g id t) →
  ∀ self e,
    lines e = lines e0 →
    (∀ id, id ∈ self → is_Some (tasks e !! id)) →
    ∃ e', for_each self body e = Ok (tt, e') ∧
          projects e' = projects e ∧ lines e' = lines e ∧
          accounts e' = accounts e ∧
          ∀ id, tasks e' !! id =
                if bool_decide (id ∈ self) then g id <$> tasks e !! id
                else tasks e !! id.
Proof.
  intros Hbody Hidem self. induction self as [| x xs IH]; intros e Hl Hin.
  - exists e. repeat split; reflexivity.
  - destruct (Hin x) as [t Ht]; [left |].
    rewrite for_each_cons, (Hbody x e t Hl Ht).
    destruct (IH (with_tasks (<[x := g x t]> (tasks e)) e))
      as (e' & Hrun & Hp' & Hl' & Ha' & Htasks); [exact Hl | |].
    { intros id Hid. simpl. destruct (decide (id = x)) as [-> | Hne].
      - rewrite lookup_insert_eq. eauto.
      - rewrite lookup_insert_ne by done. apply Hin. by right. }
    exists e'. split; [exact Hrun |]. split; [exact Hp' |].
    split; [exact Hl' |]. split; [exact Ha' |].
    intros id. rewrite Htasks. simpl.
    destruct (decide (id = x)) as [-> | Hne].
    + rewrite lookup_insert_eq, Ht. simpl.
      rewrite (bool_decide_eq_true_2 (x ∈ x :: xs)) by left.
      case_bool_decide; simpl; [by rewrite Hidem | reflexivity].
    + rewrite lookup_insert_ne by done.
      destruct (decide (id ∈ xs)) as [Hxs | Hxs].
      * rewrite !bool_decide_eq_true_2; [reflexivity | by right | exact Hxs].
      * rewrite !bool_decide_eq_false_2; [reflexivity | | exact Hxs].
        intros [-> | ?]%elem_of_cons; contradiction.
Qed.

Lemma hours_spent_same e e' id :
  lines e' = lines e → hours_spent e' id = hours_spent e id.
Proof.
  intros H. unfold hours_spent, unit_amounts, Task.timesheet_ids, search_lines.
  by rewrite H.
Qed.

Lemma task_has_timesheets_nonempty e t :
  nonempty (Task.timesheet_ids e [t]) = true ↔ task_has_timesheets e t.
Proof.
  rewrite nonempty_true. unfold task_has_timesheets.
  setoid_rewrite elem_of_task_timesheet_ids. split.
  - intros (l & line & t' & Hl & Ht & ->%list_elem_of_singleton). eauto.
  - intros (l & line & Hl & Ht). exists l, line, t.
    split; [exact Hl |]. split; [exact Ht | left].
Qed.

Lemma hours_spent_none e t :
  ¬ task_has_timesheets e t → hours_spent e t = 0%float.
Proof.
  intros Hno. unfold hours_spent.
  assert (Task.timesheet_ids e [t] = []) as ->; [| reflexivity].
  apply nonempty_false.
  destruct (nonempty (Task.timesheet_ids e [t])) eqn:Hne; [| reflexivity].
  by apply task_has_timesheets_nonempty in Hne.
Qed.

(** Both branches of [_compute_effective_hours] store the hours spent. *)
Lemma effective_hours_run self e :
  (∀ id, id ∈ self → is_Some (tasks e !! id)) →
  ∃ e', Task._compute_effective_hours self e = Ok (tt, e') ∧
        projects e' = projects e ∧ lines e' = lines e ∧
        accounts e' = accounts e ∧
        ∀ id, tasks e' !! id =
              if bool_decide (id ∈ self)
              then set_effective_hours (hours_spent e id) <$> tasks e !! id
              else tasks e !! id.
Proof.
  intros Hin. unfold Task._compute_effective_hours.
  destruct (existsb _ self); simpl.
  - erewrite bind_Ok by reflexivity.
    destruct (for_each_task_assign
                (λ id, set_effective_hours
                         (default 0%float
                            (dict_find id
                               (dict_of ((λ t, (t, hours_spent e t))
                                           <$> Task.read_group_task_ids e self)))))
                e
                (λ id, update_task id
                         (set_effective_hours
                            (default 0%float
                               (dict_find id
                                  (dict_of ((λ t, (t, hours_spent e t))
                                              <$> Task.read_group_task_ids e self)))))))
      with (self := self) (e := e)
      as (e' & Hrun & Hp & Hl & Ha & Htasks); auto.
    { intros id e1 t _ Ht. by apply update_task_Some. }
    exists e'. split; [exact Hrun |]. split; [exact Hp |]. split; [exact Hl |].
    split; [exact Ha |]. intros id. rewrite Htasks.
    case_bool_decide as Hid; [| reflexivity].
    rewrite (dict_find_of (hours_spent e)).
    case_bool_decide as Hgroup; [reflexivity |]. simpl.
    rewrite hours_spent_none; [reflexivity |].
    intros Hhas. apply Hgroup, elem_of_read_group_task_ids. by split.
  - apply (for_each_task_assign (λ id, set_effective_hours (hours_spent e id)) e);
      auto.
    intros id e1 t Hl Ht. erewrite bind_Ok by reflexivity.
    rewrite (update_task_Some _ _ _ _ Ht).
    fold (hours_spent e1 id). by rewrite (hours_spent_same e e1 id Hl).
Qed.

(** X7. On tasks of the database, [_compute_effective_hours] stores in
    [effective_hours] the sum of the [unit_amount] of the timesheet entries
    of the task, whichever of its two branches runs (the loop over new
    records, or the grouped read): a task without timesheet entries gets
    0.0. Nothing else changes, and computing again changes nothing. *)
Theorem effective_hours_from_entries self e :
  (∀ id, id ∈ self → is_Some (tasks e !! id)) →
  ∃ e', Task._compute_effective_hours self e = Ok (tt, e') ∧
        projects e' = projects e ∧ lines e' = lines e ∧
        accounts e' = accounts e ∧
        (∀ id, tasks e' !! id =
               if bool_decide (id ∈ self)
               then set_effective_hours (hours_spent e id) <$> tasks e !! id
               else tasks e !! id) ∧
        (∀ id t', id ∈ self → ¬ task_has_timesheets e id →
                  tasks e' !! id = Some t' → effective_hours t' = 0%float) ∧
        Task._compute_effective_hours self e' = Ok (tt, e').
Proof.
  intros Hin.
  destruct (effective_hours_run self e Hin) as (e' & Hrun & Hp & Hl & Ha & Htasks).
  exists e'. split; [exact Hrun |]. split; [exact Hp |]. split; [exact Hl |].
  split; [exact Ha |]. split; [exact Htasks |]. split.
  - intros id t' Hid Hno Ht'.
    rewrite Htasks, bool_decide_eq_true_2 in Ht' by done.
    destruct (tasks e !! id) as [t |]; [| discriminate].
    injection Ht' as <-. simpl. by apply hours_spent_none.
  - assert (∀ id, id ∈ self → is_Some (tasks e' !! id)) as Hin'.
    { intros id Hid. rewrite Htasks, bool_decide_eq_true_2 by done.
      destruct (Hin id Hid) as [t ->]. simpl. eauto. }
    destruct (effective_hours_run self e' Hin')
      as (e'' & Hrun' & Hp' & Hl' & Ha' & Htasks').
    rewrite Hrun'. do 2 f_equal. apply env_eq; auto.
    apply map_eq. intros id. rewrite Htasks', Htasks.
    case_bool_decide; [| reflexivity].
    rewrite (hours_spent_same e e' id Hl). by destruct (tasks e !! id).
Qed.

(** In [env_timesheets] two hours are logged on task 1 and none on
    task 2. *)
Lemma effective_hours_from_entries_witness :
  ∃ e', Task._compute_effective_hours [1; 2] env_timesheets = Ok (tt, e') ∧
        effective_hours <$> tasks e' !! 1 = Some 2%float ∧
        effective_hours <$> tasks e' !! 2 = Some 0%float.
Proof.
  destruct (effective_hours_from_entries [1; 2] env_timesheets)
    as (e' & Hrun & _ & _ & _ & Htasks & _).
  - intros id [-> | ->%list_elem_of_singleton]%elem_of_cons; eexists; reflexivity.
  - exists e'. split; [exact Hrun |]. rewrite !Htasks.
    split; vm_compute; reflexivity.
Defined.

(** ** Writing on tasks keeps the hours *)











(** ** The remaining hours of a task *)

Lemma updated_is_Some {A} (m m' : gmap Z A) (g : Z → A → A) (self : list Z) :
  (∀ id, m' !! id = if bool_decide (id ∈ self) then g id <$> m !! id else m !! id) →
  (∀ id, id ∈ self → is_Some (m !! id)) →
  ∀ id, id ∈ self → is_Some (m' !! id).
Proof.
  intros Hm Hin id Hid. rewrite Hm, bool_decide_eq_true_2 by done.
  destruct (Hin id Hid) as [a ->]. simpl. eauto.
Qed.

Lemma remaining_hours_run self e :
  (∀ id, id ∈ self → is_Some (tasks e !! id)) →
  ∃ e', Task._compute_remaining_hours self e = Ok (tt, e') ∧
        projects e' = projects e ∧ lines e' = lines e ∧ accounts e' = accounts e ∧
        ∀ id, tasks e' !! id =
              if bool_decide (id ∈ self) then with_remaining_hours <$> tasks e !! id
              else tasks e !! id.
Proof.
  intros Hin. unfold Task._compute_remaining_hours.
  apply (for_each_task_update with_remaining_hours); auto.
  intros id e0 t Ht. rewrite (bind_Ok _ _ _ _ _ (read_task_Some id e0 t Ht)).
  rewrite (update_task_Some _ _ _ _ Ht). reflexivity.
Qed.

Lemma with_remaining_progress_commute float_compare round t :
  with_progress_hours float_compare round (with_remaining_hours t) =
  with_remaining_hours (with_progress_hours float_compare round t).
Proof.
  unfold with_progress_hours, with_remaining_hours. simpl.
  destruct (PrimFloat.ltb 0 (planned_hours t)); reflexivity.
Qed.

(** X9. On tasks of the database, the recomputation that follows a change
    of the timesheet entries (effective hours, then remaining hours, then
    their percentage) returns and leaves, for every task of the recordset,
    the hours spent in [effective_hours], the planned hours minus the hours
    spent minus the hours of the subtasks in [remaining_hours], and their
    ratio to the planned hours (0.0 when nothing is planned) in
    [remaining_hours_percentage]; the other tasks and the rest of the
    database are unchanged. [_compute_remaining_hours] and
    [_compute_progress_hours] can run in either order. *)
Theorem task_remaining_hours_recomputed float_compare round self e :
  (∀ id, id ∈ self → is_Some (tasks e !! id)) →
  (∃ e',
     (Task._compute_effective_hours self;;
      Task._compute_remaining_hours self;;
      Task._compute_remaining_hours_percentage self) e = Ok (tt, e') ∧
     projects e' = projects e ∧ lines e' = lines e ∧ accounts e' = accounts e ∧
     ∀ id t, tasks e !! id = Some t →
       ∃ t', tasks e' !! id = Some t' ∧
             if bool_decide (id ∈ self) then
               effective_hours t' = hours_spent e id ∧
               remaining_hours t' =
                 (planned_hours t - hours_spent e id - subtask_effective_hours t)%float ∧
               remaining_hours_percentage t' =
                 (if PrimFloat.ltb 0 (planned_hours t)
                  then (remaining_hours t' / planned_hours t)%float
                  else 0%float) ∧
               planned_hours t' = planned_hours t ∧
               subtask_effective_hours t' = subtask_effective_hours t ∧
               project_id t' = project_id t ∧ parent_id t' = parent_id t ∧
               progress t' = progress t ∧ overtime t' = overtime t
             else t' = t) ∧
  (Task._compute_remaining_hours self;;
   Task._compute_progress_hours float_compare round self) e =
  (Task._compute_progress_hours float_compare round self;;
   Task._compute_remaining_hours self) e.
Proof.
  intros Hin. split.
  - destruct (effective_hours_run self e Hin)
      as (e1 & Hrun1 & Hp1 & Hl1 & Ha1 & Ht1).
    pose proof (updated_is_Some _ _ (λ id, set_effective_hours (hours_spent e id))
                  _ Ht1 Hin) as Hin1.
    destruct (remaining_hours_run self e1 Hin1)
      as (e2 & Hrun2 & Hp2 & Hl2 & Ha2 & Ht2).
    pose proof (updated_is_Some _ _ (λ _, with_remaining_hours) _ Ht2 Hin1) as Hin2.
    destruct (remaining_hours_percentage_run self e2 Hin2)
      as (e3 & Hrun3 & Hp3 & Hl3 & Ha3 & Ht3).
    exists e3. split; [| split; [congruence | split; [congruence | split; [congruence |]]]].
    + rewrite (bind_Ok _ _ _ _ _ Hrun1), (bind_Ok _ _ _ _ _ Hrun2). exact Hrun3.
    + intros id t Ht. rewrite Ht3, Ht2, Ht1, Ht.
      case_bool_decide; simpl; eexists; (split; [reflexivity |]);
        [repeat split | reflexivity].
  - destruct (remaining_hours_run self e Hin)
      as (e1 & Hrun1 & Hp1 & Hl1 & Ha1 & Ht1).
    pose proof (updated_is_Some _ _ (λ _, with_remaining_hours) _ Ht1 Hin) as Hin1.
    destruct (progress_hours_run float_compare round self e1 Hin1)
      as (e2 & Hrun2 & Hp2 & Hl2 & Ha2 & Ht2).
    destruct (progress_hours_run float_compare round self e Hin)
      as (e3 & Hrun3 & Hp3 & Hl3 & Ha3 & Ht3).
    pose proof (updated_is_Some _ _ (λ _, with_progress_hours float_compare round)
                  _ Ht3 Hin) as Hin3.
    destruct (remaining_hours_run self e3 Hin3)
      as (e4 & Hrun4 & Hp4 & Hl4 & Ha4 & Ht4).
    rewrite (bind_Ok _ _ _ _ _ Hrun1), (bind_Ok _ _ _ _ _ Hrun3), Hrun2, Hrun4.
    do 2 f_equal. apply env_eq; try congruence.
    apply map_eq. intros id. rewrite Ht2, Ht1, Ht4, Ht3.
    case_bool_decide; [| reflexivity].
    destruct (tasks e !! id) as [t |]; [| reflexivity]. simpl.
    by rewrite with_remaining_progress_commute.
Qed.

(** Task 1 of [env_timesheets], with nothing planned and 2 hours logged,
    is 2 hours over. *)
Lemma task_remaining_hours_recomputed_witness :
  ∃ e', (Task._compute_effective_hours [1];;
         Task._compute_remaining_hours [1];;
         Task._compute_remaining_hours_percentage [1]) env_timesheets = Ok (tt, e') ∧
        remaining_hours <$> tasks e' !! 1 = Some (-2)%float.
Proof.
  destruct (proj1 (task_remaining_hours_recomputed (λ _ _ _, 0) (λ x _, x) [1]
                     env_timesheets
                     (λ id Hid, ltac:(apply list_elem_of_singleton in Hid; subst;
                                     eexists; reflexivity))))
    as (e' & Hrun & _ & _ & _ & Htasks).
  exists e'. split; [exact Hrun |].
  destruct (Htasks 1 (set_project_id (Some 10) (chain_task None true 2 0)))
    as (t' & Ht' & Hrow); [reflexivity |].
  rewrite bool_decide_eq_true_2 in Hrow by left.
  destruct Hrow as (_ & Hrem & _). rewrite Ht'. simpl. rewrite Hrem.
  vm_compute. reflexivity.
Defined.

(** ** Internal projects and their names *)

Lemma is_internal_project_run companies self rows :
  (∀ id, id ∈ self → is_Some (rows !! id)) →
  ∃ rows',
    ProjectFields._compute_is_internal_project companies self rows = Ok rows' ∧
    ∀ id, rows' !! id =
          if bool_decide (id ∈ self)
          then (λ r, ProjectFields.set_is_internal_project
                       (internal_of companies id r) r) <$> rows !! id
          else rows !! id.
Proof.
  intros Hin.
  apply (for_rows_run
           (λ id r, ProjectFields.set_is_internal_project
                      (internal_of companies id r) r)
           (λ _ _, eq_refl) self rows Hin).
Qed.

Lemma internal_of_true companies id r :
  internal_of companies id r = true ↔
  ∃ c company, ProjectFields.company_id r = Some c ∧
               companies !! c = Some company ∧
               Company.internal_project_id company = Some id.
Proof.
  unfold internal_of. rewrite bool_decide_eq_true. split.
  - intros H. destruct (ProjectFields.company_id r) as [c |]; [| discriminate].
    simpl in H. destruct (companies !! c) as [company |] eqn:Hc; [| discriminate].
    simpl in H. eauto.
  - intros (c & company & -> & Hc & Hint). simpl. rewrite Hc. simpl. by rewrite Hint.
Qed.

(** X10. On projects of the table, [_compute_is_internal_project] marks a
    project exactly when its company exists and names it as its internal
    project; a project without company is never internal, and among the
    projects of one company at most one is marked. The other columns are
    unchanged. On a project that is not in the table it raises
    [MissingError]. *)
Theorem internal_project_of_company companies self :
  (∀ rows,
     (∀ id, id ∈ self → is_Some (rows !! id)) →
     ∃ rows',
       ProjectFields._compute_is_internal_project companies self rows = Ok rows' ∧
       (∀ id r, rows !! id = Some r →
          ∃ r', rows' !! id = Some r' ∧
                ProjectFields.company_id r' = ProjectFields.company_id r ∧
                ProjectFields.allocated_hours r' = ProjectFields.allocated_hours r ∧
                ProjectFields.remaining_hours r' = ProjectFields.remaining_hours r ∧
                ProjectFields.timesheet_count r' = ProjectFields.timesheet_count r ∧
                (id ∉ self → r' = r)) ∧
       (∀ id r', id ∈ self → rows' !! id = Some r' →
          (ProjectFields.is_internal_project r' = true ↔
           ∃ c company, ProjectFields.company_id r' = Some c ∧
                        companies !! c = Some company ∧
                        Company.internal_project_id company = Some id) ∧
          (ProjectFields.company_id r' = None →
           ProjectFields.is_internal_project r' = false)) ∧
       (∀ id1 id2 r1 r2,
          id1 ∈ self → id2 ∈ self →
          rows' !! id1 = Some r1 → rows' !! id2 = Some r2 →
          ProjectFields.company_id r1 = ProjectFields.company_id r2 →
          ProjectFields.is_internal_project r1 = true →
          ProjectFields.is_internal_project r2 = true →
          id1 = id2)) ∧
  (∀ rows id,
     id ∈ self → rows !! id = None →
     ProjectFields._compute_is_internal_project companies self rows
       = Raise MissingError).
Proof.
  split; [| intros rows id Hid Hnone; by apply (for_rows_missing _ _ _ id)].
  intros rows Hin.
  destruct (is_internal_project_run companies self rows Hin) as (rows' & Hrun & Hrows).
  assert (∀ id r', id ∈ self → rows' !! id = Some r' →
            ProjectFields.is_internal_project r' = internal_of companies id r')
    as Hmark.
  { intros id r' Hid Hr'. rewrite Hrows, bool_decide_eq_true_2 in Hr' by done.
    destruct (rows !! id) as [r |]; [| discriminate]. by injection Hr' as <-. }
  exists rows'. split; [exact Hrun |]. split; [| split].
  - intros id r Hr. rewrite Hrows, Hr. case_bool_decide as Hid; simpl.
    + eexists. split; [reflexivity |]. repeat split. intros ?. contradiction.
    + exists r. repeat split.
  - intros id r' Hid Hr'. rewrite (Hmark id r' Hid Hr'). split.
    + apply internal_of_true.
    + intros Hnone. unfold internal_of. rewrite Hnone. reflexivity.
  - intros id1 id2 r1 r2 Hid1 Hid2 Hr1 Hr2 Hcompany Hint1 Hint2.
    rewrite (Hmark id1 r1 Hid1 Hr1) in Hint1.
    rewrite (Hmark id2 r2 Hid2 Hr2) in Hint2.
    apply internal_of_true in Hint1 as (c1 & company1 & Hc1 & Hcompany1 & Hi1).
    apply internal_of_true in Hint2 as (c2 & company2 & Hc2 & Hcompany2 & Hi2).
    congruence.
Qed.

(** With company 1 whose internal project is project 11, project 11 is
    marked and project 10 is not. *)
Lemma internal_project_of_company_witness :
  (∃ rows',
     ProjectFields._compute_is_internal_project example_companies [10; 11]
       example_rows = Ok rows' ∧
     ProjectFields.is_internal_project <$> rows' !! 11 = Some true ∧
     ProjectFields.is_internal_project <$> rows' !! 10 = Some false) ∧
  ProjectFields._compute_is_internal_project example_companies [10; 12]
    example_rows = Raise MissingError.
Proof.
  split.
  - destruct (proj1 (internal_project_of_company example_companies [10; 11])
                example_rows) as (rows' & Hrun & _).
    + intros id [-> | ->%list_elem_of_singleton]%elem_of_cons;
        eexists; reflexivity.
    + exists rows'. split; [exact Hrun |].
      vm_compute in Hrun. injection Hrun as <-. split; reflexivity.
  - apply (proj2 (internal_project_of_company example_companies [10; 12])
             example_rows 12); [right; left | reflexivity].
Defined.

Lemma dict_set_keys {A} k (v v0 : A) d :
  dict_find k d = Some v0 → (dict_set k v d).*1 = d.*1.
Proof.
  induction d as [| [k' v'] d IH]; simpl; [discriminate |].
  destruct (Z.eqb_spec k k') as [-> | Hne]; [reflexivity |].
  intros H. rewrite fmap_cons. simpl. by rewrite IH.
Qed.

Lemma elem_of_cons_ne (k x : Z) xs :
  k ≠ x → bool_decide (k ∈ x :: xs) = bool_decide (k ∈ xs).
Proof.
  intros Hne. apply bool_decide_ext. rewrite elem_of_cons.
  split; [intros [? | ?]; [contradiction | done] | by right].
Qed.

(** The loop of [name_get] on distinct projects whose names are there. *)
Lemma name_internal_projects_run companies rows self :
  ∀ name_mapping,
    NoDup self →
    (∀ id, id ∈ self →
           ∃ r, rows !! id = Some r ∧
                (ProjectFields.is_internal_project r = true →
                 is_Some (dict_find id name_mapping))) →
    ∃ out,
      ProjectFields.name_internal_projects companies rows self name_mapping
        = inr out ∧
      out.*1 = name_mapping.*1 ∧
      ∀ k, dict_find k out =
           match rows !! k with
           | Some r =>
               if bool_decide (k ∈ self) && ProjectFields.is_internal_project r
               then (λ n, n ++ " - " ++ company_name_of companies r)%string
                      <$> dict_find k name_mapping
               else dict_find k name_mapping
           | None => dict_find k name_mapping
           end.
Proof.
  induction self as [| x xs IH]; intros nm Hnd Hin.
  - exists nm. split; [reflexivity |]. split; [reflexivity |].
    intros k. destruct (rows !! k); [| reflexivity].
    rewrite bool_decide_eq_false_2; [reflexivity | apply not_elem_of_nil].
  - apply NoDup_cons in Hnd as [Hx Hnd].
    destruct (Hin x) as (rx & Hrx & Hname); [left |].
    simpl. rewrite Hrx.
    destruct (ProjectFields.is_internal_project rx) eqn:Hint.
    + destruct (Hname eq_refl) as [n Hn]. rewrite Hn.
      destruct (IH (dict_set x (n ++ " - " ++ company_name_of companies rx)%string nm)
                  Hnd) as (out & Hrun & Hkeys & Hfind).
      { intros id Hid. destruct (Hin id) as (r & Hr & Hnamed); [by right |].
        exists r. split; [exact Hr |]. intros Hi. rewrite dict_find_set.
        destruct (Z.eqb id x); [eauto | by apply Hnamed]. }
      exists out. split; [exact Hrun |]. split.
      * rewrite Hkeys. by apply (dict_set_keys _ _ n).
      * intros k. rewrite Hfind, dict_find_set.
        destruct (Z.eqb_spec k x) as [-> | Hne].
        -- rewrite Hrx, Hint, Hn.
           rewrite (bool_decide_eq_false_2 _ Hx).
           rewrite (bool_decide_eq_true_2 (x ∈ x :: xs)) by left. reflexivity.
        -- by rewrite (elem_of_cons_ne k x xs Hne).
    + destruct (IH nm Hnd) as (out & Hrun & Hkeys & Hfind).
      { intros id Hid. apply Hin. by right. }
      exists out. split; [exact Hrun |]. split; [exact Hkeys |].
      intros k. rewrite Hfind.
      destruct (decide (k = x)) as [-> | Hne].
      * rewrite Hrx, Hint, !andb_false_r. reflexivity.
      * by rewrite (elem_of_cons_ne k x xs Hne).
Qed.

(** The loop stops at the first internal project that has no name. *)
Lemma name_internal_projects_KeyError companies rows self :
  ∀ name_mapping,
    (∀ id, id ∈ self → is_Some (rows !! id)) →
    (∃ id r, id ∈ self ∧ rows !! id = Some r ∧
             ProjectFields.is_internal_project r = true ∧
             dict_find id name_mapping = None) →
    ∃ k, ProjectFields.name_internal_projects companies rows self name_mapping
           = inl (ProjectFields.KeyError k) ∧
         k ∈ self ∧ dict_find k name_mapping = None.
Proof.
  induction self as [| x xs IH]; intros nm Hin (id & r & Hid & Hr & Hint & Hnone).
  - by apply not_elem_of_nil in Hid.
  - destruct (Hin x) as [rx Hrx]; [left |]. simpl. rewrite Hrx.
    destruct (ProjectFields.is_internal_project rx) eqn:Hintx.
    + destruct (dict_find x nm) as [n |] eqn:Hn.
      * assert (id ≠ x) as Hne by congruence.
        apply elem_of_cons in Hid as [? | Hid]; [contradiction |].
        destruct (IH (dict_set x (n ++ " - "
                       ++ default "False"
                            (Company.name <$>
                               (ProjectFields.company_id rx ≫= (companies !!.))))%string
                       nm))
          as (k & Hrun & Hk & Hknone).
        { intros j Hj. apply Hin. by right. }
        { exists id, r. repeat split; auto. rewrite dict_find_set.
          destruct (Z.eqb_spec id x); [contradiction | exact Hnone]. }
        exists k. split; [exact Hrun |]. split; [by right |].
        rewrite dict_find_set in Hknone.
        destruct (Z.eqb k x); [discriminate | exact Hknone].
      * exists x. split; [reflexivity |]. split; [left | exact Hn].
    + assert (id ≠ x) as Hne by congruence.
      apply elem_of_cons in Hid as [? | Hid]; [contradiction |].
      destruct (IH nm) as (k & Hrun & Hk & Hknone).
      { intros j Hj. apply Hin. by right. }
      { exists id, r. repeat split; auto. }
      exists k. split; [exact Hrun |]. split; [by right | exact Hknone].
Qed.

(** X11. With at most one allowed company in the context, [name_get] of
    projects returns the names of the base model as they are. With several,
    on distinct projects of the table whose internal projects all have a
    name, it returns the names in the same order with the same keys: the
    name of every internal project of the recordset is followed by [" - "]
    and the name of its company, which exists, and the other names are
    unchanged. When an internal project of the recordset has no name, it
    raises a [KeyError] for a project of the recordset without name. *)
Theorem name_get_appends_company companies res self rows :
  (∀ allowed_company_ids,
     (length (default [] allowed_company_ids) ≤ 1)%nat →
     ProjectFields.name_get companies allowed_company_ids res self rows = inr res) ∧
  (∀ allowed_company_ids,
     (1 < length (default [] allowed_company_ids))%nat →
     NoDup self →
     (∀ id, id ∈ self → is_Some (rows !! id)) →
     (∀ id r, id ∈ self → rows !! id = Some r →
              internal_of companies id r = true →
              is_Some (dict_find id (dict_of res))) →
     ∃ out,
       ProjectFields.name_get companies allowed_company_ids res self rows = inr out ∧
       out.*1 = (dict_of res).*1 ∧
       (∀ k, dict_find k out =
             match rows !! k with
             | Some r =>
                 if bool_decide (k ∈ self) && internal_of companies k r
                 then (λ n, n ++ " - " ++ company_name_of companies r)%string
                        <$> dict_find k (dict_of res)
                 else dict_find k (dict_of res)
             | None => dict_find k (dict_of res)
             end) ∧
       (∀ k r, rows !! k = Some r → internal_of companies k r = true →
               ∃ c company, ProjectFields.company_id r = Some c ∧
                            companies !! c = Some company ∧
                            company_name_of companies r = Company.name company)) ∧
  (∀ allowed_company_ids id r,
     (1 < length (default [] allowed_company_ids))%nat →
     (∀ id, id ∈ self → is_Some (rows !! id)) →
     id ∈ self → rows !! id = Some r → internal_of companies id r = true →
     dict_find id (dict_of res) = None →
     ∃ k, ProjectFields.name_get companies allowed_company_ids res self rows
            = inl (ProjectFields.KeyError k) ∧
          k ∈ self ∧ dict_find k (dict_of res) = None).
Proof.
  split; [| split].
  - intros allowed Hlen. unfold ProjectFields.name_get.
    by rewrite (proj2 (Nat.leb_le _ _) Hlen).
  - intros allowed Hlen Hnd Hin Hnamed. unfold ProjectFields.name_get.
    rewrite (proj2 (Nat.leb_gt _ _) Hlen).
    destruct (is_internal_project_run companies self rows Hin)
      as (rows1 & Hrun1 & Hrows1).
    rewrite Hrun1.
    destruct (name_internal_projects_run companies rows1 self (dict_of res) Hnd)
      as (out & Hrun & Hkeys & Hfind).
    { intros id Hid. destruct (Hin id Hid) as [r Hr].
      rewrite Hrows1, Hr, bool_decide_eq_true_2 by done. simpl.
      eexists. split; [reflexivity |]. simpl. by apply Hnamed. }
    exists out. split; [exact Hrun |]. split; [exact Hkeys |]. split.
    + intros k. rewrite Hfind, Hrows1.
      destruct (rows !! k) as [r |];
        [| by destruct (bool_decide (k ∈ self))].
      case_bool_decide; reflexivity.
    + intros k r _ (c & company & Hc & Hcompany & _)%internal_of_true.
      exists c, company. split; [exact Hc |]. split; [exact Hcompany |].
      unfold company_name_of. rewrite Hc. simpl. by rewrite Hcompany.
  - intros allowed id r Hlen Hin Hid Hr Hint Hnone. unfold ProjectFields.name_get.
    rewrite (proj2 (Nat.leb_gt _ _) Hlen).
    destruct (is_internal_project_run companies self rows Hin)
      as (rows1 & Hrun1 & Hrows1).
    rewrite Hrun1.
    apply name_internal_projects_KeyError.
    + by apply (updated_is_Some rows rows1
                  (λ id r, ProjectFields.set_is_internal_project
                             (internal_of companies id r) r)).
    + exists id. eexists. split; [exact Hid |]. split.
      * rewrite Hrows1, Hr, bool_decide_eq_true_2 by done. reflexivity.
      * split; [exact Hint | exact Hnone].
Qed.

Example name_get_example :
  ProjectFields.name_get example_companies (Some [1; 2])
    [(10, "Roadmap"); (11, "Internal")] [10; 11] example_rows
  = inr [(10, "Roadmap"); (11, "Internal - Acme")].
Proof. vm_compute. reflexivity. Qed.

(** With two allowed companies, the internal project 11 gets the name of
    its company; without a name for it, the lookup fails. *)
Lemma name_get_appends_company_witness :
  (∃ out,
     ProjectFields.name_get example_companies (Some [1; 2])
       [(10, "Roadmap"); (11, "Internal")] [10; 11] example_rows = inr out ∧
     dict_find 11 out = Some "Internal - Acme") ∧
  ∃ k, ProjectFields.name_get example_companies (Some [1; 2])
         [(10, "Roadmap")] [10; 11] example_rows
       = inl (ProjectFields.KeyError k).
Proof.
  assert (∀ id, id ∈ [10; 11] → is_Some (example_rows !! id)) as Hin.
  { intros id [-> | ->%list_elem_of_singleton]%elem_of_cons; eexists; reflexivity. }
  split.
  - destruct (proj1 (proj2 (name_get_appends_company example_companies
                              [(10, "Roadmap"); (11, "Internal")] [10; 11]
                              example_rows))
                (Some [1; 2])) as (out & Hrun & _ & Hfind & _).
    + simpl. lia.
    + apply NoDup_cons. split; [| apply NoDup_singleton].
      by intros ?%list_elem_of_singleton.
    + exact Hin.
    + intros id r [-> | ->%list_elem_of_singleton]%elem_of_cons _ _;
        eexists; reflexivity.
    + exists out. split; [exact Hrun |]. rewrite Hfind. reflexivity.
  - destruct (proj2 (proj2 (name_get_appends_company example_companies
                              [(10, "Roadmap")] [10; 11] example_rows))
                (Some [1; 2]) 11 example_row) as (k & Hrun & _);
      try reflexivity.
    + simpl. lia.
    + exact Hin.
    + right. left.
    + exists k. exact Hrun.
Defined.

(** ** Writing twice on projects *)







(** ** Creating several projects *)





Example create_batch_example :
  match Project.create ∅ [∅; {["allow_timesheets" := VBool false]}; ∅]
          env_timesheets with
  | Ok (ids, e') => Some (ids, (λ id, projects e' !! id) <$> ids)
  | Raise _ => None
  end
  = Some ([13; 14; 15],
          [Some {| allow_timesheets := true; analytic_account_id := Some 102 |};
           Some {| allow_timesheets := false; analytic_account_id := None |};
           Some {| allow_timesheets := true; analytic_account_id := Some 103 |}]).
Proof. vm_compute. reflexivity. Qed.


(** ** Overtime is never negative *)

Lemma py_max_zero_nonnegative x : PrimFloat.ltb (py_max x 0) 0 = false.
Proof.
  unfold py_max. destruct (PrimFloat.ltb x 0) eqn:Hx; [reflexivity | exact Hx].
Qed.

(** X14. On tasks of the database, [_compute_progress_hours] leaves an
    overtime that is never below zero, whatever the hours, the rounding and
    the comparison are; with nothing planned the progress and the overtime
    are both zero. It changes [progress] and [overtime] only, leaves the
    tasks outside the recordset and the rest of the database as they are,
    and computing again changes nothing. *)
Theorem overtime_never_negative float_compare round self e :
  (∀ id, id ∈ self → is_Some (tasks e !! id)) →
  ∃ e', Task._compute_progress_hours float_compare round self e = Ok (tt, e') ∧
        projects e' = projects e ∧ lines e' = lines e ∧ accounts e' = accounts e ∧
        (∀ id t, tasks e !! id = Some t →
           ∃ t', tasks e' !! id = Some t' ∧
                 project_id t' = project_id t ∧ parent_id t' = parent_id t ∧
                 active t' = active t ∧ planned_hours t' = planned_hours t ∧
                 effective_hours t' = effective_hours t ∧
                 subtask_effective_hours t' = subtask_effective_hours t ∧
                 remaining_hours t' = remaining_hours t ∧
                 remaining_hours_percentage t' = remaining_hours_percentage t ∧
                 (id ∉ self → t' = t) ∧
                 (id ∈ self →
                  PrimFloat.ltb (overtime t') 0 = false ∧
                  (PrimFloat.ltb 0 (planned_hours t) = false →
                   overtime t' = 0%float ∧ progress t' = 0%float))) ∧
        Task._compute_progress_hours float_compare round self e' = Ok (tt, e').
Proof.
  intros Hin.
  destruct (progress_hours_run float_compare round self e Hin)
    as (e' & Hrun & Hp & Hl & Ha & Htasks).
  exists e'. split; [exact Hrun |]. split; [exact Hp |]. split; [exact Hl |].
  split; [exact Ha |]. split.
  - intros id t Ht. rewrite Htasks, Ht. case_bool_decide as Hid; simpl.
    + eexists. split; [reflexivity |]. unfold with_progress_hours.
      destruct (PrimFloat.ltb 0 (planned_hours t)) eqn:Hplanned; simpl;
        do 8 (split; [reflexivity |]);
        (split; [intros ?; contradiction |]); intros _.
      * split; [apply py_max_zero_nonnegative | discriminate].
      * split; [reflexivity |]. intros _. split; reflexivity.
    + exists t. do 9 (split; [reflexivity |]). split; [reflexivity |].
      intros ?. contradiction.
  - pose proof (updated_is_Some _ _ (λ _, with_progress_hours float_compare round)
                  _ Htasks Hin) as Hin'.
    destruct (progress_hours_run float_compare round self e' Hin')
      as (e'' & Hrun' & Hp' & Hl' & Ha' & Htasks').
    rewrite Hrun'. do 2 f_equal. apply env_eq; auto.
    apply map_eq. intros id. rewrite Htasks', Htasks.
    case_bool_decide; [| reflexivity].
    destruct (tasks e !! id) as [t |]; [| reflexivity]. simpl.
    by rewrite with_progress_hours_idem.
Qed.

(** On task 1 of [env_timesheets], for which nothing is planned, the
    overtime is zero. *)
Lemma overtime_never_negative_witness :
  ∃ e', Task._compute_progress_hours (λ _ _ _, 1) (λ x _, x) [1] env_timesheets
          = Ok (tt, e') ∧
        overtime <$> tasks e' !! 1 = Some 0%float.
Proof.
  destruct (overtime_never_negative (λ _ _ _, 1) (λ x _, x) [1] env_timesheets)
    as (e' & Hrun & _ & _ & _ & Htasks & _).
  - intros id ->%list_elem_of_singleton. eexists. reflexivity.
  - exists e'. split; [exact Hrun |].
    destruct (Htasks 1 (set_project_id (Some 10) (chain_task None true 2 0)))
      as (t' & Ht' & Hrest); [reflexivity |].
    destruct Hrest as (_ & _ & _ & _ & _ & _ & _ & _ & _ & Hself).
    destruct Hself as (_ & Hzero); [left |].
    destruct Hzero as [Hov _]; [reflexivity |].
    rewrite Ht'. simpl. by rewrite Hov.
Defined.
